(** * Analytics aggregation and scoring engine: a shallow embedding

    The dashboard ([app.py]), the console report ([1.py]) and the chart
    generator ([2.py]) derive business metrics from a snapshot of
    companies, each owning users, instances and channels.  This file
    embeds the computations of those three programs that carry
    algorithmic content and states what they guarantee.

    Conventions of the embedding.
    - A parsed JSON object is a record whose fields are [option]s: [None]
      is an absent key, and [dict_get field d] is Python's
      [obj.get(key, d)].
    - Python integers are [Z]; Python floats are exact rationals [Q].
      Rounding error of binary floating point is therefore outside the
      model; every statement about a float is a statement about the exact
      value of the same expression.
    - Python's [/] raises [ZeroDivisionError] on a zero divisor and a
      missing data-frame column raises [KeyError]; fallible code lives in
      the [result] monad.
    - A Python string is held as its UTF-8 bytes; where a program
      measures or slices a string it does so by characters, which
      [Text.len] and [Text.prefix] recover from the bytes.
    - The random source of the forecast back-fill is an explicit argument. *)

From Stdlib Require Import QArith Qround Qminmax Lqa Lia ZArith Sorted Permutation.
From stdpp Require Import gmap strings list pretty.

Local Open Scope Q_scope.

(** ** Python values and control *)

Module Py.

Inductive exn : Type :=
| ZeroDivisionError
| KeyError (key : string).

Inductive result (A : Type) : Type :=
| Ok (a : A)
| Raise (e : exn).
Arguments Ok {A} a.
Arguments Raise {A} e.

#[export] Instance result_ret : MRet result := fun _ a => Ok a.
#[export] Instance result_bind : MBind result := fun _ _ f m =>
  match m with
  | Ok a => f a
  | Raise e => Raise e
  end.

(** [obj.get(key, d)] *)
Definition dict_get {A : Type} (field : option A) (d : A) : A :=
  match field with
  | Some v => v
  | None => d
  end.

(** Truth value of a list in a condition: [if xs]. *)
Definition nonempty {A : Type} (xs : list A) : bool :=
  match xs with
  | [] => false
  | _ :: _ => true
  end.

(** [len(xs)] as a number. *)
Definition len {A : Type} (xs : list A) : Z := Z.of_nat (length xs).

(** [sum(1 for x in xs if p(x))]: a running total from 0. *)
Definition sum_ones {A : Type} (p : A -> bool) (xs : list A) : Z :=
  fold_left (fun acc x => if p x then (acc + 1)%Z else acc) xs 0%Z.

(** [a / b] (true division). *)
Definition truediv (a b : Q) : result Q :=
  if Qeq_bool b 0 then Raise ZeroDivisionError else Ok (a / b).

Definition Qltb (a b : Q) : bool := negb (Qle_bool b a).
Definition Qgeb (a b : Q) : bool := Qle_bool b a.
Definition Qgtb (a b : Q) : bool := negb (Qle_bool a b).

#[export] Instance Qlt_dec (a b : Q) : Decision (a < b) :=
  match Qlt_le_dec a b with
  | left H => left H
  | right H => right (Qle_not_lt _ _ H)
  end.

#[export] Instance Qle_dec (a b : Q) : Decision (a <= b) :=
  match Qlt_le_dec b a with
  | left H => right (Qlt_not_le _ _ H)
  | right H => left H
  end.

(** [min(a, b)]: the first argument unless the second is strictly smaller. *)
Definition min (a b : Q) : Q := if Qltb b a then b else a.

(** [np.maximum(a, b)] on one element. *)
Definition maximum (a b : Q) : Q := if Qltb a b then b else a.

(** Nearest integer, ties to the even one (the rounding of [round] and of
    the [.Nf] format).  Python rounds the binary double, here the exact
    value is rounded: the two can differ where the exact value lies
    half-way between two candidates and the double does not (23/40*100
    is 57.5, its double lies just below and prints as 57).  Either
    result is then a nearest candidate of the exact value. *)
Definition round_half_even (x : Q) : Z :=
  let f := Qfloor x in
  let r := x - inject_Z f in
  if Qltb r (1 # 2) then f
  else if Qltb (1 # 2) r then (f + 1)%Z
  else if Z.even f then f else (f + 1)%Z.

(** [round(x, 1)], of the exact value: a nearest multiple of a tenth, as
    Python's is of the double. *)
Definition round1 (x : Q) : Q := inject_Z (round_half_even (x * 10)) / 10.

(** [int(x)]: truncation toward zero. *)
Definition int (x : Q) : Z := Z.quot (Qnum x) (Z.pos (Qden x)).

(** [f'{n}'] for an integer. *)
Definition str (n : Z) : string := pretty n.

Definition sign (x : Q) : string := if Qltb x 0 then "-" else "".

(** [f'{x:.0f}'], of the exact value: the numeral of a nearest integer,
    as Python's is of the double. *)
Definition format_f0 (x : Q) : string :=
  sign x +:+ pretty (Z.abs (round_half_even x)).

(** [f'{x:.1f}'], of the exact value: the numeral of a nearest multiple
    of a tenth, as Python's is of the double. *)
Definition format_f1 (x : Q) : string :=
  let n := Z.abs (round_half_even (x * 10)) in
  sign x +:+ pretty (n / 10)%Z +:+ "." +:+ pretty (n mod 10)%Z.

(** [for x in xs: body], threading the variables the body assigns. *)
Fixpoint for_each {A S : Type} (body : A -> S -> result S) (xs : list A) (s : S)
  : result S :=
  match xs with
  | [] => Ok s
  | x :: rest => s' ← body x s; for_each body rest s'
  end.

(** [collections.Counter(keys)]: occurrences per key. *)
Definition Counter (keys : list string) : gmap string nat :=
  fold_left (fun m k => <[k := S (dict_get (m !! k) 0%nat)]> m) keys ∅.

End Py.
Import Py.

(** ** Entity model *)

Module User.
Record t : Type := mk {
  user_type_name : option string;
  user_status : option bool;
  isActive : option bool
}.
End User.

Module Instance.
Record t : Type := mk {
  active : option bool
}.
End Instance.

Module Channel.
Record t : Type := mk {
  isActive : option bool
}.
End Channel.

Module Company.
Record t : Type := mk {
  name : option string;
  users_count : option Z;
  instances_count : option Z;
  broadcasts_count : option Z;
  users : option (list User.t);
  instances : option (list Instance.t);
  channels : option (list Channel.t)
}.
End Company.

(** ** Customer health score ([app.py], view "Customer Health Score") *)

Module Health.

(** The local variables of one loop iteration once [overall_health] is
    assigned. *)
Record Components : Type := mkComponents {
  user_activity_rate : Q;
  instance_activity_rate : Q;
  engagement_score : Q;
  type_diversity : Q;
  adoption_score : Q;
  users_per_channel : Q;
  broadcasts_per_instance : Q;
  growth_potential : Q;
  overall_health : Q
}.

(** [engagement_score * 0.4 + adoption_score * 0.3 + growth_potential * 0.3] *)
Definition weighted (engagement adoption growth : Q) : Q :=
  engagement * 0.4 + adoption * 0.3 + growth * 0.3.

Definition components (company : Company.t) : result Components :=
  let users := dict_get (Company.users company) [] in
  let instances := dict_get (Company.instances company) [] in
  let channels := dict_get (Company.channels company) [] in
  let broadcasts := dict_get (Company.broadcasts_count company) 0%Z in
  let active_users := sum_ones (fun u => dict_get (User.isActive u) false) users in
  user_activity_rate ←
    (if nonempty users
     then q ← truediv (inject_Z active_users) (inject_Z (len users)); mret (q * 100)
     else mret 0);
  let active_instances :=
    sum_ones (fun i => dict_get (Instance.active i) false) instances in
  instance_activity_rate ←
    (if nonempty instances
     then q ← truediv (inject_Z active_instances) (inject_Z (len instances));
          mret (q * 100)
     else mret 0);
  let engagement_score := user_activity_rate * 0.6 + instance_activity_rate * 0.4 in
  let user_types :=
    Counter (map (fun u => dict_get (User.user_type_name u) "Unknown"%string) users) in
  q ← truediv (inject_Z (Z.of_nat (size user_types))) 4;
  let type_diversity := q * 100 in
  let has_broadcasts : Q := if (0 <? broadcasts)%Z then 100 else 0 in
  let has_channels : Q := if (0 <? len channels)%Z then 100 else 0 in
  let adoption_score :=
    type_diversity * 0.4 + has_broadcasts * 0.3 + has_channels * 0.3 in
  users_per_channel ←
    (if nonempty channels
     then truediv (inject_Z (len users)) (inject_Z (len channels))
     else mret 0);
  broadcasts_per_instance ←
    (if nonempty instances
     then truediv (inject_Z broadcasts) (inject_Z (len instances))
     else mret 0);
  a ← truediv users_per_channel 10;
  b ← truediv broadcasts_per_instance 5;
  let growth_potential := Py.min (a * 50 + b * 50) 100 in
  let overall_health := weighted engagement_score adoption_score growth_potential in
  mret (mkComponents user_activity_rate instance_activity_rate engagement_score
          type_diversity adoption_score users_per_channel broadcasts_per_instance
          growth_potential overall_health).

Record Tier : Type := mkTier {
  status : string;
  status_emoji : string;
  risk : string;
  recommendation : string
}.

(** The [if]/[elif] chain on [overall_health]. *)
Definition tier (overall_health : Q) : Tier :=
  if Qgeb overall_health 80 then
    mkTier "🟢 Healthy" "🟢" "Low" "Explore upsell opportunities"
  else if Qgeb overall_health 60 then
    mkTier "🟡 Stable" "🟡" "Medium" "Monitor engagement trends"
  else if Qgeb overall_health 40 then
    mkTier "🟠 At Risk" "🟠" "High" "Increase engagement, provide training"
  else
    mkTier "🔴 Critical" "🔴" "Critical" "Immediate intervention required".

(** One entry of [health_scores]. *)
Record Row : Type := mkRow {
  Company_ : string;
  Health_Score : Q;
  Status : string;
  Status_Emoji : string;
  Risk_Level : string;
  Engagement_Score : Q;
  Adoption_Score : Q;
  Growth_Potential : Q;
  Active_Users_pct : Q;
  Active_Instances_pct : Q;
  Total_Users : Z;
  Total_Instances : Z;
  Broadcasts : Z;
  Recommendation : string
}.

Definition row (company : Company.t) : result Row :=
  c ← components company;
  let t := tier (overall_health c) in
  mret (mkRow (dict_get (Company.name company) "Unknown"%string)
          (round1 (overall_health c))
          (status t) (status_emoji t) (risk t)
          (round1 (engagement_score c))
          (round1 (adoption_score c))
          (round1 (growth_potential c))
          (round1 (user_activity_rate c))
          (round1 (instance_activity_rate c))
          (len (dict_get (Company.users company) []))
          (len (dict_get (Company.instances company) []))
          (dict_get (Company.broadcasts_count company) 0%Z)
          (recommendation t)).

(** The loop over [companies], appending one row per company. *)
Definition health_scores (companies : list Company.t) : result (list Row) :=
  for_each (fun company acc => r ← row company; mret (acc ++ [r])) companies [].

End Health.

(** ** Alerts and anomalies ([app.py], view "Alerts & Anomalies") *)

Module Alerts.

Record Alert : Type := mkAlert {
  Company_ : string;
  Alert_Type : string;
  Category : string;
  Message : string;
  Severity : string;
  Metric : string;
  Action : string
}.

Section Company.

Variable company : Company.t.

Let company_name := dict_get (Company.name company) "Unknown"%string.
Let users := dict_get (Company.users company) [].
Let instances := dict_get (Company.instances company) [].
Let channels := dict_get (Company.channels company) [].
Let broadcasts := dict_get (Company.broadcasts_count company) 0%Z.

(** Alert 1: low user activation. *)
Definition alert1 (alerts : list Alert) : result (list Alert) :=
  if nonempty users then
    let active_users := sum_ones (fun u => dict_get (User.isActive u) false) users in
    q ← truediv (inject_Z active_users) (inject_Z (len users));
    let activation_rate := q * 100 in
    if Qltb activation_rate 50 then
      mret (alerts ++ [mkAlert company_name "🔴 Critical" "User Activation"
              ("Only " +:+ format_f0 activation_rate +:+ "% of users are active")
              "High"
              (str active_users +:+ "/" +:+ str (len users) +:+ " active")
              "Contact customer success team immediately"])
    else if Qltb activation_rate 70 then
      mret (alerts ++ [mkAlert company_name "🟠 Warning" "User Activation"
              ("User activation rate at " +:+ format_f0 activation_rate +:+ "%")
              "Medium"
              (str active_users +:+ "/" +:+ str (len users) +:+ " active")
              "Schedule training session"])
    else mret alerts
  else mret alerts.

(** Alert 2: zero broadcasts. *)
Definition alert2 (alerts : list Alert) : result (list Alert) :=
  if nonempty instances && (broadcasts =? 0)%Z then
    mret (alerts ++ [mkAlert company_name "🟠 Warning" "Usage"
            (str (len instances) +:+ " instances but no broadcasts")
            "Medium" "0 broadcasts"
            "Check if customer needs help setting up campaigns"])
  else mret alerts.

(** Alert 3: inactive instances. *)
Definition alert3 (alerts : list Alert) : result (list Alert) :=
  if nonempty instances then
    let inactive_instances :=
      sum_ones (fun i => negb (dict_get (Instance.active i) false)) instances in
    q ← truediv (inject_Z inactive_instances) (inject_Z (len instances));
    if Qgtb q 0.5 then
      mret (alerts ++ [mkAlert company_name "🟡 Info" "Resource Optimization"
              (str inactive_instances +:+ " of " +:+ str (len instances)
                 +:+ " instances are inactive")
              "Low"
              (str inactive_instances +:+ "/" +:+ str (len instances) +:+ " inactive")
              "Consider downsizing or reactivating instances"])
    else mret alerts
  else mret alerts.

(** Alert 4: no channels. *)
Definition alert4 (alerts : list Alert) : result (list Alert) :=
  if (10 <? len users)%Z && (len channels =? 0)%Z then
    mret (alerts ++ [mkAlert company_name "🔴 Critical" "Setup"
            (str (len users) +:+ " users but no channels configured")
            "High" "0 channels"
            "Urgent: Complete onboarding process"])
  else mret alerts.

(** Alert 5: unusual user-to-instance ratio. *)
Definition alert5 (alerts : list Alert) : result (list Alert) :=
  if nonempty instances then
    ratio ← truediv (inject_Z (len users)) (inject_Z (len instances));
    if Qgtb ratio 20 then
      mret (alerts ++ [mkAlert company_name "🟡 Info" "Capacity"
              ("High user-to-instance ratio (" +:+ format_f1 ratio +:+ ":1)")
              "Low"
              (str (len users) +:+ " users / " +:+ str (len instances)
                 +:+ " instances")
              "May need additional instances for optimal performance"])
    else mret alerts
  else mret alerts.

(** Alert 6: inactive company (no users). *)
Definition alert6 (alerts : list Alert) : result (list Alert) :=
  if (len users =? 0)%Z then
    mret (alerts ++ [mkAlert company_name "🔴 Critical" "Churn Risk"
            "Company has no users"
            "Critical" "0 users"
            "Potential churn - reach out immediately"])
  else mret alerts.

(** The body of the loop over companies. *)
Definition check_company (alerts : list Alert) : result (list Alert) :=
  alerts ← alert1 alerts;
  alerts ← alert2 alerts;
  alerts ← alert3 alerts;
  alerts ← alert4 alerts;
  alerts ← alert5 alerts;
  alert6 alerts.

End Company.

Definition alerts (companies : list Company.t) : result (list Alert) :=
  for_each check_company companies [].

End Alerts.

(** ** Revenue analysis ([app.py], view "Revenue Analysis") *)

Module Revenue.

Definition PRICE_PER_USER : Z := 10.
Definition PRICE_PER_INSTANCE : Z := 50.
Definition PRICE_PER_BROADCAST : Q := 0.01.

Record Row : Type := mkRow {
  Company_ : string;
  Monthly_Revenue : Q;
  Annual_Revenue : Q;
  User_Revenue : Z;
  Instance_Revenue : Z;
  Broadcast_Revenue : Q;
  Users : Z;
  Instances : Z;
  Broadcasts : Z;
  Tier : string;
  ARPU : Q
}.

Definition tier (total_revenue : Q) : string :=
  if Qgeb total_revenue 5000 then "Enterprise"
  else if Qgeb total_revenue 1000 then "Professional"
  else if Qgeb total_revenue 100 then "Growth"
  else "Starter".

Definition row (company : Company.t) : result Row :=
  let users_count := dict_get (Company.users_count company) 0%Z in
  let instances_count := dict_get (Company.instances_count company) 0%Z in
  let broadcasts_count := dict_get (Company.broadcasts_count company) 0%Z in
  let user_revenue := (users_count * PRICE_PER_USER)%Z in
  let instance_revenue := (instances_count * PRICE_PER_INSTANCE)%Z in
  let broadcast_revenue := inject_Z broadcasts_count * PRICE_PER_BROADCAST in
  let total_revenue :=
    inject_Z user_revenue + inject_Z instance_revenue + broadcast_revenue in
  arpu ← (if (0 <? users_count)%Z
          then truediv total_revenue (inject_Z users_count)
          else mret 0);
  mret (mkRow (dict_get (Company.name company) "Unknown"%string)
          total_revenue (total_revenue * 12)
          user_revenue instance_revenue broadcast_revenue
          users_count instances_count broadcasts_count
          (tier total_revenue) arpu).

Definition revenue_data (companies : list Company.t) : result (list Row) :=
  for_each (fun company acc => r ← row company; mret (acc ++ [r])) companies [].

End Revenue.

(** ** The data-frame operations the dashboard calls

    [pandas] is a library, not part of the programs; these definitions
    follow its documented behaviour on the inputs the dashboard builds:
    a frame made from a list of records has the records' keys as columns,
    so a frame made from no record has no column at all. *)

Module Pandas.

(** A float that may be NaN. *)
Inductive float : Type :=
| nan
| fin (x : Q).

(** [df[label]] on [df = pd.DataFrame(records)]. *)
Definition getitem {R : Type} (records : list R) (label : string) (field : R -> Q)
  : result (list Q) :=
  match records with
  | [] => Raise (KeyError label)
  | _ :: _ => Ok (map field records)
  end.

Fixpoint insert_sorted (x : Q) (xs : list Q) : list Q :=
  match xs with
  | [] => [x]
  | y :: rest => if Qle_bool x y then x :: xs else y :: insert_sorted x rest
  end.

Definition sort_values (xs : list Q) : list Q := fold_right insert_sorted [] xs.

(** [Series.quantile(q)], default [interpolation='linear']: the value at
    rank [(n - 1) * q] of the sorted data, interpolated between the two
    neighbouring ranks. *)
Definition quantile (xs : list Q) (q : Q) : float :=
  match sort_values xs with
  | [] => nan
  | (x0 :: _) as s =>
      let pos := inject_Z (len s - 1) * q in
      let i := Qfloor pos in
      let frac := pos - inject_Z i in
      let lo := nth (Z.to_nat i) s x0 in
      let hi := nth (Z.to_nat (Z.min (i + 1) (len s - 1))) s x0 in
      fin (lo + (hi - lo) * frac)
  end.

(** [Series.median()]: the middle value, or the mean of the two middle
    values. *)
Definition median (xs : list Q) : float :=
  match sort_values xs with
  | [] => nan
  | (x0 :: _) as s =>
      let n := length s in
      if Nat.even n
      then fin ((nth (n / 2 - 1) s x0 + nth (n / 2) s x0) / 2)
      else fin (nth (n / 2) s x0)
  end.

(** Equality of floats up to the representation of the rational. *)
Definition float_eq (a b : float) : Prop :=
  match a, b with
  | nan, nan => True
  | fin x, fin y => x == y
  | _, _ => False
  end.

End Pandas.

(** ** Benchmarking ([app.py], view "Benchmarking") *)

Module Benchmark.

(** The metrics of one loop iteration, before rounding. *)
Record Metrics : Type := mkMetrics {
  user_activation : Q;
  instance_utilization : Q;
  users_per_channel : Q;
  broadcasts_per_user : Q;
  broadcasts_per_instance : Q
}.

Definition metrics (company : Company.t) : result Metrics :=
  let users := dict_get (Company.users company) [] in
  let instances := dict_get (Company.instances company) [] in
  let channels := dict_get (Company.channels company) [] in
  let broadcasts := dict_get (Company.broadcasts_count company) 0%Z in
  user_activation ←
    (if nonempty users
     then q ← truediv
                (inject_Z (sum_ones (fun u => dict_get (User.isActive u) false) users))
                (inject_Z (len users));
          mret (q * 100)
     else mret 0);
  instance_utilization ←
    (if nonempty instances
     then q ← truediv
                (inject_Z (sum_ones (fun i => dict_get (Instance.active i) false)
                             instances))
                (inject_Z (len instances));
          mret (q * 100)
     else mret 0);
  users_per_channel ←
    (if nonempty channels
     then truediv (inject_Z (len users)) (inject_Z (len channels))
     else mret 0);
  broadcasts_per_user ←
    (if nonempty users
     then truediv (inject_Z broadcasts) (inject_Z (len users))
     else mret 0);
  broadcasts_per_instance ←
    (if nonempty instances
     then truediv (inject_Z broadcasts) (inject_Z (len instances))
     else mret 0);
  mret (mkMetrics user_activation instance_utilization users_per_channel
          broadcasts_per_user broadcasts_per_instance).

(** One entry of [benchmark_data]. *)
Record Row : Type := mkRow {
  Company_ : string;
  User_Activation_pct : Q;
  Instance_Utilization_pct : Q;
  Users_per_Channel : Q;
  Broadcasts_per_User : Q;
  Broadcasts_per_Instance : Q;
  Total_Users : Z;
  Total_Instances : Z;
  Total_Broadcasts : Z
}.

Definition row (company : Company.t) : result Row :=
  m ← metrics company;
  mret (mkRow (dict_get (Company.name company) "Unknown"%string)
          (round1 (user_activation m))
          (round1 (instance_utilization m))
          (round1 (users_per_channel m))
          (round1 (broadcasts_per_user m))
          (round1 (broadcasts_per_instance m))
          (len (dict_get (Company.users company) []))
          (len (dict_get (Company.instances company) []))
          (dict_get (Company.broadcasts_count company) 0%Z)).

Definition benchmark_data (companies : list Company.t) : result (list Row) :=
  for_each (fun company acc => r ← row company; mret (acc ++ [r])) companies [].

Record Percentiles : Type := mkPercentiles {
  Top_25 : Pandas.float;
  Median : Pandas.float;
  Bottom_25 : Pandas.float
}.

(** One inner dictionary of [benchmarks]; the column is looked up once
    per entry. *)
Definition percentiles (df_benchmark : list Row) (label : string) (field : Row -> Q)
  : result Percentiles :=
  top ← Pandas.getitem df_benchmark label field;
  mid ← Pandas.getitem df_benchmark label field;
  bottom ← Pandas.getitem df_benchmark label field;
  mret (mkPercentiles (Pandas.quantile top 0.75) (Pandas.median mid)
          (Pandas.quantile bottom 0.25)).

Record Benchmarks : Type := mkBenchmarks {
  User_Activation : Percentiles;
  Instance_Utilization : Percentiles;
  Broadcasts_User : Percentiles
}.

Definition benchmarks (df_benchmark : list Row) : result Benchmarks :=
  ua ← percentiles df_benchmark "User Activation %" User_Activation_pct;
  iu ← percentiles df_benchmark "Instance Utilization %" Instance_Utilization_pct;
  bu ← percentiles df_benchmark "Broadcasts/User" Broadcasts_per_User;
  mret (mkBenchmarks ua iu bu).

(** The view from the company list to the benchmark table. *)
Definition view (companies : list Company.t) : result Benchmarks :=
  df_benchmark ← benchmark_data companies;
  benchmarks df_benchmark.

End Benchmark.

(** ** Activity heat map ([app.py], executive overview) *)

Module Heatmap.

Record Rates : Type := mkRates {
  active_users_pct : Q;
  active_instances_pct : Q;
  active_channels_pct : Q
}.

Definition rates (company : Company.t) : result Rates :=
  let users := dict_get (Company.users company) [] in
  let instances := dict_get (Company.instances company) [] in
  let channels := dict_get (Company.channels company) [] in
  active_users_pct ←
    (if nonempty users
     then q ← truediv
                (inject_Z (sum_ones (fun u => dict_get (User.isActive u) false) users))
                (inject_Z (len users));
          mret (q * 100)
     else mret 0);
  active_instances_pct ←
    (if nonempty instances
     then q ← truediv
                (inject_Z (sum_ones (fun i => dict_get (Instance.active i) false)
                             instances))
                (inject_Z (len instances));
          mret (q * 100)
     else mret 0);
  active_channels_pct ←
    (if nonempty channels
     then q ← truediv
                (inject_Z (sum_ones (fun c => dict_get (Channel.isActive c) false)
                             channels))
                (inject_Z (len channels));
          mret (q * 100)
     else mret 0);
  mret (mkRates active_users_pct active_instances_pct active_channels_pct).

End Heatmap.

(** ** Growth forecast ([app.py], view "Predictive Analytics")

    A month label is kept as its offset from the current date in 30-day
    periods: [current_date - timedelta(days=30*i)] is [-i], the current
    month is [0] and [current_date + timedelta(days=30*i)] is [i].  The
    [k]-th call of [np.random.random()] returns [rand k]. *)

Module Forecast.

Record Metadata : Type := mkMetadata {
  total_users : option Z;
  total_companies : option Z;
  total_instances : option Z;
  total_broadcasts : option Z
}.

Record Point : Type := mkPoint {
  Month : Z;
  Users : Z;
  Companies : Z;
  Instances : Z;
  Broadcasts : Z
}.

(** [range(12, 0, -1)] *)
Definition range_12_0 : list Z := [12; 11; 10; 9; 8; 7; 6; 5; 4; 3; 2; 1]%Z.

Definition months : list Z := map (fun i => (- i)%Z) range_12_0.

Fixpoint enumerate_from {A : Type} (i : nat) (xs : list A) : list (nat * A) :=
  match xs with
  | [] => []
  | x :: rest => (i, x) :: enumerate_from (S i) rest
  end.

Definition enumerate {A : Type} (xs : list A) : list (nat * A) := enumerate_from 0 xs.

Definition growth_factor (rand : nat -> Q) (i : nat) : Q :=
  1 + (inject_Z (Z.of_nat i) * 0.05) + (rand i * 0.1).

(** [int(base / growth_factor) if base > 0 else 0] *)
Definition backfill (base : Z) (factor : Q) : result Z :=
  if (0 <? base)%Z
  then q ← truediv (inject_Z base) factor; mret (int q)
  else mret 0%Z.

Section Run.

Variable rand : nat -> Q.
Variable metadata : Metadata.

Let base_users := dict_get (total_users metadata) 0%Z.
Let base_companies := dict_get (total_companies metadata) 0%Z.
Let base_instances := dict_get (total_instances metadata) 0%Z.
Let base_broadcasts := dict_get (total_broadcasts metadata) 0%Z.

Definition historical_point (i : nat) (month : Z) : result Point :=
  let factor := growth_factor rand i in
  users ← backfill base_users factor;
  companies ← backfill base_companies factor;
  instances ← backfill base_instances factor;
  broadcasts ← backfill base_broadcasts factor;
  mret (mkPoint month users companies instances broadcasts).

Definition historical_data : result (list Point) :=
  for_each (fun '(i, month) acc => p ← historical_point i month; mret (acc ++ [p]))
    (enumerate months) [].

(** [df_historical] after the current month is concatenated. *)
Definition df_historical : result (list Point) :=
  h ← historical_data;
  mret (h ++ [mkPoint 0 base_users base_companies base_instances base_broadcasts]).

End Run.

(** [np.arange(a, b)] *)
Definition arange (a b : nat) : list Q :=
  map (fun k => inject_Z (Z.of_nat k)) (seq a (b - a)).

Definition total (xs : list Q) : Q := fold_left Qplus xs 0.

Definition products (xs ys : list Q) : list Q :=
  map (fun p => fst p * snd p) (combine xs ys).

(** [np.polyfit(X, y, 1)]: slope and intercept of the least-squares line,
    by the normal equations in exact arithmetic; [numpy] solves them in
    binary doubles, so its coefficients come with a rounding error that
    [int] can turn into a difference of one in a forecast. *)
Definition polyfit1 (X y : list Q) : Q * Q :=
  let n := inject_Z (len X) in
  let sx := total X in
  let sy := total y in
  let sxx := total (products X X) in
  let sxy := total (products X y) in
  let slope := (n * sxy - sx * sy) / (n * sxx - sx * sx) in
  (slope, (sy - slope * sx) / n).

(** [np.poly1d(coefficients)(x)] *)
Definition poly1d (coefficients : Q * Q) (x : Q) : Q :=
  fst coefficients * x + snd coefficients.

(** The body of the loop over metrics: the three clamped predictions. *)
Definition predictions (column : list Z) : list Q :=
  let X := arange 0 (length column) in
  let y := map inject_Z column in
  let coefficients := polyfit1 X y in
  let future_X := arange (length column) (length column + 3) in
  map (fun p => maximum p 0) (map (poly1d coefficients) future_X).

Definition forecast_data (df : list Point) : list Point :=
  let users := predictions (map Users df) in
  let companies := predictions (map Companies df) in
  let instances := predictions (map Instances df) in
  let broadcasts := predictions (map Broadcasts df) in
  map (fun i => mkPoint (Z.of_nat i + 1)
                  (int (nth i users 0)) (int (nth i companies 0))
                  (int (nth i instances 0)) (int (nth i broadcasts 0)))
      (seq 0 3).

End Forecast.

(** ** Console report ([1.py]) *)

Module Console.

Record UserBreakdown : Type := mkUserBreakdown {
  type_counts : gmap string nat;
  active_count : Z;
  inactive_count : Z
}.

(** The counting loop of [analyze_users]. *)
Definition analyze_users (users : list User.t) : UserBreakdown :=
  fold_left
    (fun st user =>
       let user_type := dict_get (User.user_type_name user) "Unknown"%string in
       let type_counts :=
         <[user_type := S (dict_get (type_counts st !! user_type) 0%nat)]>
           (type_counts st) in
       if dict_get (User.user_status user) (dict_get (User.isActive user) false)
       then mkUserBreakdown type_counts (active_count st + 1)%Z (inactive_count st)
       else mkUserBreakdown type_counts (active_count st) (inactive_count st + 1)%Z)
    users (mkUserBreakdown ∅ 0%Z 0%Z).

End Console.

(** ** Chart generator ([2.py]) *)

Module Charts.

(** One entry of [active_users_pct] in [create_activity_heatmap]. *)
Definition active_users_pct (company : Company.t) : result Q :=
  let users := dict_get (Company.users company) [] in
  if nonempty users then
    let active_u :=
      sum_ones (fun u => dict_get (User.user_status u)
                           (dict_get (User.isActive u) false)) users in
    q ← truediv (inject_Z active_u) (inject_Z (len users));
    mret (q * 100)
  else mret 0.

End Charts.

(** ** The specification's formulas

    These definitions follow the wording of the specification, not the
    programs; the theorems below compare the two.  One reading is the
    dashboard's: [userActivation], and the two activation rules of
    [condition] with it, count a user as active by its [isActive] field
    alone.  The specification's own reading, by [activity_flag], is in
    module [Stated]. *)

Module Spec.

Definition users (c : Company.t) : list User.t := dict_get (Company.users c) [].
Definition instances (c : Company.t) : list Instance.t :=
  dict_get (Company.instances c) [].
Definition channels (c : Company.t) : list Channel.t :=
  dict_get (Company.channels c) [].
Definition broadcasts (c : Company.t) : Z := dict_get (Company.broadcasts_count c) 0%Z.

Definition count {A : Type} (xs : list A) : Q := inject_Z (Z.of_nat (length xs)).

(** (count satisfying predicate / count) x 100, defined as 0 when count is 0. *)
Definition activation_rate {A : Type} (entities : list A) (predicate : A -> bool) : Q :=
  match entities with
  | [] => 0
  | _ :: _ => count (List.filter predicate entities) / count entities * 100
  end.

(** The activity flag of a user: [user_status] if present, else [isActive]. *)
Definition activity_flag (u : User.t) : bool :=
  match User.user_status u with
  | Some status => status
  | None => dict_get (User.isActive u) false
  end.

(** The [isActive] field alone. *)
Definition isActive_flag (u : User.t) : bool := dict_get (User.isActive u) false.

Definition instance_active (i : Instance.t) : bool := dict_get (Instance.active i) false.
Definition channel_active (ch : Channel.t) : bool := dict_get (Channel.isActive ch) false.

(** The percentage of users whose [isActive] field holds. *)
Definition userActivation (c : Company.t) : Q := activation_rate (users c) isActive_flag.
Definition instanceUtilization (c : Company.t) : Q :=
  activation_rate (instances c) instance_active.
Definition channelActivity (c : Company.t) : Q :=
  activation_rate (channels c) channel_active.

(** A ratio with an empty denominator collection is 0. *)
Definition ratio {A : Type} (numerator : Q) (denominator : list A) : Q :=
  match denominator with
  | [] => 0
  | _ :: _ => numerator / count denominator
  end.

Definition usersPerChannel (c : Company.t) : Q := ratio (count (users c)) (channels c).
Definition broadcastsPerInstance (c : Company.t) : Q :=
  ratio (inject_Z (broadcasts c)) (instances c).
Definition broadcastsPerUser (c : Company.t) : Q :=
  ratio (inject_Z (broadcasts c)) (users c).

Definition type_name (u : User.t) : string :=
  dict_get (User.user_type_name u) "Unknown"%string.

Definition distinct_types (c : Company.t) : nat :=
  length (remove_dups (map type_name (users c))).

Definition engagement (c : Company.t) : Q :=
  userActivation c * 0.6 + instanceUtilization c * 0.4.

Definition typeDiversity (c : Company.t) : Q :=
  inject_Z (Z.of_nat (distinct_types c)) / 4 * 100.

Definition adoption (c : Company.t) : Q :=
  typeDiversity c * 0.4
  + (if (0 <? broadcasts c)%Z then 100 else 0) * 0.3
  + (match channels c with [] => 0 | _ :: _ => 100 end) * 0.3.

Definition growthPotential (c : Company.t) : Q :=
  Qmin (usersPerChannel c / 10 * 50 + broadcastsPerInstance c / 5 * 50) 100.

Definition overallHealth (c : Company.t) : Q :=
  engagement c * 0.4 + adoption c * 0.3 + growthPotential c * 0.3.

(** The alert rules of the specification's table, in its order. *)
Inductive rule : Type :=
| LowActivation
| ModerateActivation
| ZeroBroadcasts
| IdleInstancePool
| MissingChannels
| HighUserInstanceRatio
| NoUsers.

Definition all_rules : list rule :=
  [LowActivation; ModerateActivation; ZeroBroadcasts; IdleInstancePool;
   MissingChannels; HighUserInstanceRatio; NoUsers].

Definition inactiveInstances (c : Company.t) : Q :=
  count (List.filter (fun i => negb (instance_active i)) (instances c)).

Definition condition (r : rule) (c : Company.t) : Prop :=
  match r with
  | LowActivation => users c <> [] /\ userActivation c < 50
  | ModerateActivation => users c <> [] /\ 50 <= userActivation c < 70
  | ZeroBroadcasts => instances c <> [] /\ broadcasts c = 0%Z
  | IdleInstancePool =>
      instances c <> [] /\ 0.5 < inactiveInstances c / count (instances c)
  | MissingChannels => (10 < length (users c))%nat /\ length (channels c) = 0%nat
  | HighUserInstanceRatio =>
      instances c <> [] /\ 20 < count (users c) / count (instances c)
  | NoUsers => length (users c) = 0%nat
  end.

#[global] Instance condition_dec (r : rule) (c : Company.t) : Decision (condition r c).
Proof. destruct r; simpl; apply _. Defined.

(** The rules whose condition holds on a company, in table order. *)
Definition firing (c : Company.t) : list rule :=
  filter (fun r => condition r c) all_rules.

Definition severity (r : rule) : string :=
  match r with
  | LowActivation => "High"
  | ModerateActivation => "Medium"
  | ZeroBroadcasts => "Medium"
  | IdleInstancePool => "Low"
  | MissingChannels => "High"
  | HighUserInstanceRatio => "Low"
  | NoUsers => "Critical"
  end.

(** The category under which the dashboard files each rule. *)
Definition category (r : rule) : string :=
  match r with
  | LowActivation | ModerateActivation => "User Activation"
  | ZeroBroadcasts => "Usage"
  | IdleInstancePool => "Resource Optimization"
  | MissingChannels => "Setup"
  | HighUserInstanceRatio => "Capacity"
  | NoUsers => "Churn Risk"
  end.

(** The metric value a rule's message quotes (nothing for [NoUsers],
    whose message is fixed). *)
Definition quoted_metric (r : rule) (c : Company.t) : string :=
  match r with
  | LowActivation | ModerateActivation => format_f0 (userActivation c)
  | ZeroBroadcasts => str (len (instances c))
  | IdleInstancePool =>
      str (len (List.filter (fun i => negb (instance_active i)) (instances c)))
  | MissingChannels => str (len (users c))
  | HighUserInstanceRatio => format_f1 (count (users c) / count (instances c))
  | NoUsers => ""
  end.

(** An alert of a rule carries the company, the rule's category and
    severity, a message quoting the metric, and an action. *)
Definition emits (c : Company.t) (r : rule) (a : Alerts.Alert) : Prop :=
  Alerts.Company_ a = dict_get (Company.name c) "Unknown"%string
  /\ Alerts.Category a = category r
  /\ Alerts.Severity a = severity r
  /\ (exists before after, Alerts.Message a = before +:+ quoted_metric r c +:+ after)
  /\ Alerts.Action a <> ""%string.

(** Monthly revenue = users x 10 + instances x 50 + broadcasts x 0.01. *)
Definition monthly (users_count instances_count broadcasts_count : Z) : Q :=
  inject_Z users_count * 10 + inject_Z instances_count * 50
  + inject_Z broadcasts_count * 0.01.

(** The health tiers of the specification's table. *)
Definition health_tier (h : Q) (label risk recommendation : string) : Prop :=
  (80 <= h /\ label = "Healthy" /\ risk = "Low"
   /\ recommendation = "Explore upsell opportunities")
  \/ (60 <= h < 80 /\ label = "Stable" /\ risk = "Medium"
      /\ recommendation = "Monitor engagement trends")
  \/ (40 <= h < 60 /\ label = "At Risk" /\ risk = "High"
      /\ recommendation = "Increase engagement, provide training")
  \/ (h < 40 /\ label = "Critical" /\ risk = "Critical"
      /\ recommendation = "Immediate intervention required").

(** The revenue tiers: inclusive lower bounds, highest first. *)
Definition revenue_tier (m : Q) (tier : string) : Prop :=
  (5000 <= m /\ tier = "Enterprise")
  \/ (1000 <= m < 5000 /\ tier = "Professional")
  \/ (100 <= m < 1000 /\ tier = "Growth")
  \/ (m < 100 /\ tier = "Starter").

(** ARPU = monthly / users, 0 if users = 0; a counter below zero, which
    no snapshot carries, is listed for completeness. *)
Definition arpu (m : Q) (users_count : Z) (value : Q) : Prop :=
  ((0 < users_count)%Z /\ value == m / inject_Z users_count)
  \/ (users_count = 0%Z /\ value == 0)
  \/ ((users_count < 0)%Z /\ value == 0).

End Spec.

(** ** Concrete snapshots used in the statements below *)

Module Example.

Definition user (type_name : option string) (active : bool) : User.t :=
  User.mk type_name None (Some active).

(** Five active users: the four known types, and one record without a
    [user_type_name], which the health loop files under "Unknown". *)
Definition five_type_users : list User.t :=
  [user (Some "Agent") true; user (Some "Admin") true; user (Some "Supervisor") true;
   user (Some "AI") true; user None true]%string.

(** One active instance, one channel, ten broadcasts. *)
Definition five_type_company : Company.t :=
  Company.mk (Some "Acme"%string) (Some 5%Z) (Some 1%Z) (Some 10%Z)
    (Some five_type_users)
    (Some [Instance.mk (Some true)])
    (Some [Channel.mk (Some true)]).

(** 100 users, 2 instances, 500 broadcasts. *)
Definition professional_company : Company.t :=
  Company.mk (Some "Globex"%string) (Some 100%Z) (Some 2%Z) (Some 500%Z) None None None.

(** A user whose [user_status] is set while [isActive] is false. *)
Definition status_only_user : User.t :=
  User.mk (Some "Agent"%string) (Some true) (Some false).

Definition status_only_company : Company.t :=
  Company.mk (Some "Initech"%string) (Some 1%Z) (Some 0%Z) (Some 0%Z)
    (Some [status_only_user]) None None.

(** [n] users of whom the first [k] are active. *)
Definition staff (k n : nat) : list User.t :=
  replicate k (user (Some "Agent"%string) true)
  ++ replicate (n - k) (user (Some "Agent"%string) false).

Definition company_with_activation (k : nat) : Company.t :=
  Company.mk (Some "Tenant"%string) (Some 10%Z) (Some 0%Z) (Some 0%Z)
    (Some (staff k 10)) None None.

(** Four companies with 10, 20, 30 and 40 percent of their users active. *)
Definition four_companies : list Company.t :=
  [company_with_activation 1; company_with_activation 2;
   company_with_activation 3; company_with_activation 4].

(** Totals of 1000 users, 50 companies, 200 instances, 4000 broadcasts. *)
Definition totals : Forecast.Metadata :=
  Forecast.mkMetadata (Some 1000%Z) (Some 50%Z) (Some 200%Z) (Some 4000%Z).

(** A random source that always returns 0. *)
Definition no_noise : nat -> Q := fun _ => 0.

End Example.

(** * Further views of the dashboard *)

(** ** Python strings as sequences of characters

    A name read from the JSON file is a Python [str], a sequence of code
    points.  In UTF-8 every code point is one byte outside 0x80..0xBF
    followed by continuation bytes inside that range, so the characters
    of a name are counted and cut at the bytes outside it. *)

Module Text.

Definition is_continuation (b : Ascii.ascii) : bool :=
  match b with
  | Ascii.Ascii _ _ _ _ _ _ b6 b7 => b7 && negb b6
  end.

(** [len(s)]: the number of characters. *)
Fixpoint len (s : string) : nat :=
  match s with
  | EmptyString => 0%nat
  | String b rest => if is_continuation b then len rest else S (len rest)
  end.

(** [s[:n]]: the first [n] characters, each with its continuation
    bytes. *)
Fixpoint prefix (n : nat) (s : string) : string :=
  match s with
  | EmptyString => EmptyString
  | String b rest =>
      if is_continuation b then String b (prefix n rest)
      else match n with
           | O => EmptyString
           | S m => String b (prefix m rest)
           end
  end.

Definition is_digit (b : Ascii.ascii) : bool :=
  (48 <=? Ascii.nat_of_ascii b)%nat && (Ascii.nat_of_ascii b <=? 57)%nat.

(** Whether a decimal digit occurs in [s]. *)
Fixpoint has_digit (s : string) : bool :=
  match s with
  | EmptyString => false
  | String b rest => is_digit b || has_digit rest
  end.

End Text.

(** ** What [numpy] scalars do on division

    Column sums are [numpy] scalars: dividing by a zero sum raises nothing
    and yields an infinity or NaN.  Signed zeros are outside the model. *)

Module Numpy.

Inductive float64 : Type :=
| nan
| inf
| neg_inf
| fin (x : Q).

(** [a / b] on scalars. *)
Definition truediv (a b : Q) : float64 :=
  if Qeq_bool b 0 then
    if Qeq_bool a 0 then nan else if Qltb 0 a then inf else neg_inf
  else fin (a / b).

(** [x * k] for a positive constant [k]. *)
Definition scale (x : float64) (k : Q) : float64 :=
  match x with
  | fin q => fin (q * k)
  | other => other
  end.

End Numpy.

(** ** Company performance scorecard ([app.py], view "Business Intelligence") *)

Module Scorecard.

(** The local variables of one loop iteration. *)
Record Scores : Type := mkScores {
  user_activity : Q;
  instance_activity : Q;
  resource_usage : Q;
  overall_score : Q
}.

Definition scores (company : Company.t) : result Scores :=
  let users := dict_get (Company.users company) [] in
  let instances := dict_get (Company.instances company) [] in
  user_activity ←
    (if nonempty users
     then q ← truediv
                (inject_Z (sum_ones (fun u => dict_get (User.isActive u) false) users))
                (inject_Z (len users));
          mret (q * 100)
     else mret 0);
  instance_activity ←
    (if nonempty instances
     then q ← truediv
                (inject_Z (sum_ones (fun i => dict_get (Instance.active i) false)
                             instances))
                (inject_Z (len instances));
          mret (q * 100)
     else mret 0);
  resource_usage ←
    truediv (inject_Z (len users + len instances
                       + dict_get (Company.broadcasts_count company) 0)%Z) 3;
  let overall_score :=
    user_activity * 0.3 + instance_activity * 0.3 + Py.min resource_usage 100 * 0.4 in
  mret (mkScores user_activity instance_activity resource_usage overall_score).

Record Rating : Type := mkRating {
  health : string;
  risk_level : string
}.

(** The [if]/[elif] chain on [overall_score]. *)
Definition rating (overall_score : Q) : Rating :=
  if Qgeb overall_score 80 then mkRating "🟢 Excellent" "Low"
  else if Qgeb overall_score 60 then mkRating "🟡 Good" "Medium"
  else if Qgeb overall_score 40 then mkRating "🟠 Fair" "Medium-High"
  else mkRating "🔴 Poor" "High".

(** One entry of [company_scores]. *)
Record Row : Type := mkRow {
  Company_ : string;
  Overall_Score : Q;
  Health_Status : string;
  User_Activity_pct : Q;
  Instance_Activity_pct : Q;
  Total_Users : Z;
  Total_Instances : Z;
  Broadcasts : Z;
  Churn_Risk : string
}.

Definition row (company : Company.t) : result Row :=
  s ← scores company;
  let r := rating (overall_score s) in
  mret (mkRow (dict_get (Company.name company) "Unknown"%string)
          (round1 (overall_score s))
          (health r)
          (round1 (user_activity s))
          (round1 (instance_activity s))
          (len (dict_get (Company.users company) []))
          (len (dict_get (Company.instances company) []))
          (dict_get (Company.broadcasts_count company) 0%Z)
          (risk_level r)).

Definition company_scores (companies : list Company.t) : result (list Row) :=
  for_each (fun company acc => r ← row company; mret (acc ++ [r])) companies [].

End Scorecard.

(** ** Revenue summary and composition ([app.py], view "Revenue Insights") *)

Module RevenueSummary.

Fixpoint insert_desc {R : Type} (key : R -> Q) (x : R) (rows : list R) : list R :=
  match rows with
  | [] => [x]
  | y :: rest =>
      if Qle_bool (key y) (key x) then x :: rows else y :: insert_desc key x rest
  end.

(** [pd.DataFrame(records).sort_values(label, ascending=False)]: a frame
    made from no record has no column to sort by. *)
Definition sort_values_desc {R : Type} (records : list R) (label : string) (key : R -> Q)
  : result (list R) :=
  match records with
  | [] => Raise (KeyError label)
  | _ :: _ => Ok (fold_right (insert_desc key) [] records)
  end.

(** [df[column].sum()] *)
Definition column_sum {R : Type} (df : list R) (column : R -> Q) : Q :=
  fold_left Qplus (map column df) 0.

Record Summary : Type := mkSummary {
  total_mrr : Q;
  total_arr : Q;
  total_user_rev : Q;
  total_instance_rev : Q;
  total_broadcast_rev : Q;
  Percentage : list Numpy.float64
}.

Definition summary (df_revenue : list Revenue.Row) : Summary :=
  let total_mrr := column_sum df_revenue Revenue.Monthly_Revenue in
  let total_arr := total_mrr * 12 in
  let total_user_rev :=
    column_sum df_revenue (fun r => inject_Z (Revenue.User_Revenue r)) in
  let total_instance_rev :=
    column_sum df_revenue (fun r => inject_Z (Revenue.Instance_Revenue r)) in
  let total_broadcast_rev := column_sum df_revenue Revenue.Broadcast_Revenue in
  mkSummary total_mrr total_arr total_user_rev total_instance_rev total_broadcast_rev
    [Numpy.scale (Numpy.truediv total_user_rev total_mrr) 100;
     Numpy.scale (Numpy.truediv total_instance_rev total_mrr) 100;
     Numpy.scale (Numpy.truediv total_broadcast_rev total_mrr) 100].

(** The view from the company list to the summary figures. *)
Definition view (companies : list Company.t) : result Summary :=
  revenue_data ← Revenue.revenue_data companies;
  df_revenue ← sort_values_desc revenue_data "Monthly Revenue" Revenue.Monthly_Revenue;
  mret (summary df_revenue).

End RevenueSummary.

(** ** Alert summary ([app.py], view "Alerts & Anomalies") *)

Module AlertSummary.

Record Counts : Type := mkCounts {
  critical_count : Z;
  high_count : Z;
  medium_count : Z;
  low_count : Z
}.

(** [len(df_alerts[df_alerts['Severity'] == label])] *)
Definition count_severity (alerts : list Alerts.Alert) (label : string) : Z :=
  len (List.filter (fun a => String.eqb (Alerts.Severity a) label) alerts).

(** The four counters, computed only under [if not df_alerts.empty]. *)
Definition summary (alerts : list Alerts.Alert) : option Counts :=
  if nonempty alerts then
    Some (mkCounts (count_severity alerts "Critical") (count_severity alerts "High")
            (count_severity alerts "Medium") (count_severity alerts "Low"))
  else None.

End AlertSummary.

(** * The console report in full ([1.py])

    The console report reads more fields of an instance, a channel and a
    broadcast than the dashboard computations above; [Tenant.core] forgets
    them. *)

Module InstanceInfo.
Record TypeDetails : Type := mkTypeDetails {
  name : option string
}.
(** [type_details] is absent ([None]), null ([Some None]) or an object. *)
Record t : Type := mk {
  active : option bool;
  status : option string;
  type_details : option (option TypeDetails)
}.
Definition core (i : t) : Instance.t := Instance.mk (active i).
End InstanceInfo.

Module ChannelInfo.
Record t : Type := mk {
  name : option string;
  isActive : option bool;
  speedMessages_count : option Z
}.
Definition core (ch : t) : Channel.t := Channel.mk (isActive ch).
End ChannelInfo.

Module BroadcastInfo.
Record t : Type := mk {
  status : option string
}.
End BroadcastInfo.

Module Tenant.
Record t : Type := mk {
  name : option string;
  isActive : option bool;
  users_count : option Z;
  channels_count : option Z;
  instances_count : option Z;
  broadcasts_count : option Z;
  users : option (list User.t);
  instances : option (list InstanceInfo.t);
  channels : option (list ChannelInfo.t);
  broadcasts : option (list BroadcastInfo.t)
}.
(** The same company as the dashboard computations read it. *)
Definition core (c : t) : Company.t :=
  Company.mk (name c) (users_count c) (instances_count c) (broadcasts_count c)
    (users c)
    (option_map (map InstanceInfo.core) (instances c))
    (option_map (map ChannelInfo.core) (channels c)).
End Tenant.

Module Report.

(** [counter[key] += 1] *)
Definition bump (counter : gmap string nat) (key : string) : gmap string nat :=
  <[key := S (dict_get (counter !! key) 0%nat)]> counter.

(** The figures [analyze_users] prints after its counting loop. *)
Record UserLines : Type := mkUserLines {
  agents : nat;
  admins : nat;
  supervisors : nat;
  ai_users : nat;
  active_users : Z;
  active_users_pct : Q;
  inactive_users : Z;
  inactive_users_pct : Q
}.

Definition analyze_users (users : list User.t) : result UserLines :=
  let counted := Console.analyze_users users in
  let type_counts := Console.type_counts counted in
  let active_count := Console.active_count counted in
  let inactive_count := Console.inactive_count counted in
  a ← truediv (inject_Z active_count) (inject_Z (len users));
  i ← truediv (inject_Z inactive_count) (inject_Z (len users));
  mret (mkUserLines
          (dict_get (type_counts !! "Agent"%string) 0%nat)
          (dict_get (type_counts !! "Admin"%string) 0%nat)
          (dict_get (type_counts !! "Supervisor"%string) 0%nat)
          (dict_get (type_counts !! "AI"%string) 0%nat)
          active_count (a * 100) inactive_count (i * 100)).

Record InstanceLines : Type := mkInstanceLines {
  type_counts : gmap string nat;
  status_counts : gmap string nat;
  active_instances : Z;
  active_instances_pct : Q
}.

(** [(instance.get('type_details') or {}).get('name', 'Unknown')] *)
Definition type_name (instance : InstanceInfo.t) : string :=
  match InstanceInfo.type_details instance with
  | Some (Some details) => dict_get (InstanceInfo.name details) "Unknown"%string
  | Some None | None => "Unknown"%string
  end.

Definition analyze_instances (instances : list InstanceInfo.t) : result InstanceLines :=
  let counted :=
    fold_left
      (fun st instance =>
         let type_counts := bump (fst (fst st)) (type_name instance) in
         let status_counts :=
           bump (snd (fst st)) (dict_get (InstanceInfo.status instance) "Unknown"%string) in
         if dict_get (InstanceInfo.active instance) false
         then (type_counts, status_counts, (snd st + 1)%Z)
         else (type_counts, status_counts, snd st))
      instances (∅, ∅, 0%Z) in
  let active_count := snd counted in
  p ← truediv (inject_Z active_count) (inject_Z (len instances));
  mret (mkInstanceLines (fst (fst counted)) (snd (fst counted)) active_count (p * 100)).

Record ChannelLines : Type := mkChannelLines {
  active_channels : Z;
  active_channels_pct : Q;
  total_speed_messages : Z;
  channels_by_msgs : list ChannelInfo.t
}.

Definition speed_messages (ch : ChannelInfo.t) : Z :=
  dict_get (ChannelInfo.speedMessages_count ch) 0%Z.

(** [sorted(channels, key=..., reverse=True)]: descending and stable. *)
Definition sorted_by_msgs (channels : list ChannelInfo.t) : list ChannelInfo.t :=
  fold_right (RevenueSummary.insert_desc (fun ch => inject_Z (speed_messages ch)))
    [] channels.

Definition analyze_channels (channels : list ChannelInfo.t) : result ChannelLines :=
  let active_channels :=
    sum_ones (fun ch => dict_get (ChannelInfo.isActive ch) false) channels in
  let total_speed_messages :=
    fold_left (fun acc ch => (acc + speed_messages ch)%Z) channels 0%Z in
  p ← truediv (inject_Z active_channels) (inject_Z (len channels));
  mret (mkChannelLines active_channels (p * 100) total_speed_messages
          (take 5 (sorted_by_msgs channels))).

Record BroadcastLines : Type := mkBroadcastLines {
  total_broadcasts : Z;
  by_status : gmap string nat
}.

Definition analyze_broadcasts (broadcasts : list BroadcastInfo.t) : BroadcastLines :=
  mkBroadcastLines (len broadcasts)
    (fold_left
       (fun counts bc => bump counts (dict_get (BroadcastInfo.status bc) "Unknown"%string))
       broadcasts ∅).

Record CompanyLines : Type := mkCompanyLines {
  company : string;
  user_lines : option UserLines;
  instance_lines : option InstanceLines;
  channel_lines : option ChannelLines;
  broadcast_lines : option BroadcastLines
}.

(** [if company.get(key): analyse(company[key])] *)
Definition when_present {A B : Type} (field : option (list A))
           (analyse : list A -> result B) : result (option B) :=
  match field with
  | Some (x :: xs) => r ← analyse (x :: xs); mret (Some r)
  | Some [] | None => mret None
  end.

(** One iteration of the loop of [analyze_companies]. *)
Definition analyze_company (c : Tenant.t) : result CompanyLines :=
  u ← when_present (Tenant.users c) analyze_users;
  i ← when_present (Tenant.instances c) analyze_instances;
  ch ← when_present (Tenant.channels c) analyze_channels;
  b ← when_present (Tenant.broadcasts c) (fun bs => mret (analyze_broadcasts bs));
  mret (mkCompanyLines (dict_get (Tenant.name c) "Unknown"%string) u i ch b).

Definition analyze_companies (companies : list Tenant.t) : result (list CompanyLines) :=
  for_each (fun c acc => r ← analyze_company c; mret (acc ++ [r])) companies [].

(** The activity summary of [generate_summary_report]. *)
Record ActivitySummary : Type := mkActivitySummary {
  active_companies : Z;
  total_companies : Z;
  total_active_users : Z;
  total_users : Z;
  platform_active_pct : option Q
}.

Definition activity_summary (companies : list Tenant.t) : result ActivitySummary :=
  let active_companies :=
    sum_ones (fun c => dict_get (Tenant.isActive c) false) companies in
  let totals :=
    fold_left
      (fun outer c =>
         fold_left
           (fun st user =>
              let total_users := (snd st + 1)%Z in
              if dict_get (User.user_status user) (dict_get (User.isActive user) false)
              then ((fst st + 1)%Z, total_users)
              else (fst st, total_users))
           (dict_get (Tenant.users c) []) outer)
      companies (0%Z, 0%Z) in
  let total_active_users := fst totals in
  let total_users := snd totals in
  pct ← (if (0 <? total_users)%Z
         then q ← truediv (inject_Z total_active_users) (inject_Z total_users);
              mret (Some (q * 100))
         else mret None);
  mret (mkActivitySummary active_companies (len companies) total_active_users
          total_users pct).

(** The label of a company in the comparison table of
    [generate_summary_report]: a name of more than 20 characters is cut
    to its first 17 and an ellipsis. *)
Definition table_label (c : Tenant.t) : string :=
  if (20 <? Z.of_nat (Text.len (dict_get (Tenant.name c) ""%string)))%Z
  then Text.prefix 17 (dict_get (Tenant.name c) "Unknown"%string) +:+ "..."
  else dict_get (Tenant.name c) "Unknown"%string.

(** "Check user activity" *)
Definition check_users (c : Tenant.t) (recommendations : list string) : list string :=
  let users := dict_get (Tenant.users c) [] in
  if nonempty users then
    let inactive_users :=
      sum_ones (fun u => negb (dict_get (User.user_status u)
                                 (dict_get (User.isActive u) false))) users in
    if Qgtb (inject_Z inactive_users) (inject_Z (len users) * 0.3)
    then recommendations
         ++ ["⚠️ High inactive user rate (" +:+ str inactive_users +:+ "/"
             +:+ str (len users) +:+ "). Consider reviewing user accounts."]
    else recommendations
  else recommendations.

(** "Check instance utilization" *)
Definition check_instances (c : Tenant.t) (recommendations : list string) : list string :=
  let instances := dict_get (Tenant.instances c) [] in
  if nonempty instances then
    let active_instances :=
      sum_ones (fun i => dict_get (InstanceInfo.active i) false) instances in
    if Qltb (inject_Z active_instances) (inject_Z (len instances) * 0.5)
    then recommendations
         ++ ["⚠️ Low instance utilization (" +:+ str active_instances +:+ "/"
             +:+ str (len instances) +:+ " active). Review inactive instances."]
    else recommendations
  else recommendations.

(** "Check channel usage" *)
Definition check_channels (c : Tenant.t) (recommendations : list string) : list string :=
  let channels := dict_get (Tenant.channels c) [] in
  if nonempty channels then
    let empty_channels := sum_ones (fun ch => (speed_messages ch =? 0)%Z) channels in
    if (0 <? empty_channels)%Z
    then recommendations
         ++ ["📝 " +:+ str empty_channels
             +:+ " channels have no speed messages. Consider adding templates."]
    else recommendations
  else recommendations.

(** "Check broadcasts" *)
Definition check_broadcasts (c : Tenant.t) (recommendations : list string) : list string :=
  let instances := dict_get (Tenant.instances c) [] in
  let broadcasts := dict_get (Tenant.broadcasts c) [] in
  if (len broadcasts =? 0)%Z && (0 <? len instances)%Z
  then recommendations
       ++ ["📣 No broadcasts configured. Consider creating broadcast campaigns."]
  else recommendations.

(** One iteration of the loop of [generate_recommendations]. *)
Definition recommendations (c : Tenant.t) : list string :=
  check_broadcasts c (check_channels c (check_instances c (check_users c []))).

(** The companies [generate_recommendations] prints, each with its
    recommendations. *)
Definition generate_recommendations (companies : list Tenant.t)
  : list (string * list string) :=
  fold_left
    (fun printed c =>
       let recs := recommendations c in
       if nonempty recs
       then printed ++ [(dict_get (Tenant.name c) "Unknown"%string, recs)]
       else printed)
    companies [].

End Report.

(** * The chart generator in full ([2.py]) *)

Module Plots.

(** The company label of the charts: a name of more than 15 characters is
    cut to its first 12 and an ellipsis. *)
Definition chart_label (company : Tenant.t) : string :=
  let name := dict_get (Tenant.name company) "Unknown"%string in
  if (15 <? Z.of_nat (Text.len name))%Z
  then Text.prefix 12 name +:+ "..."
  else name.

Record Utilization : Type := mkUtilization {
  users_per_channel : Q;
  instances_utilization : Q;
  broadcasts_per_instance : Q
}.

(** One iteration of the loop of [create_resource_utilization_chart]. *)
Definition utilization (company : Tenant.t) : result Utilization :=
  let users := dict_get (Tenant.users_count company) 0%Z in
  let channels := dict_get (Tenant.channels_count company) 1%Z in
  users_per_channel ←
    (if (0 <? channels)%Z
     then truediv (inject_Z users) (inject_Z channels)
     else mret 0);
  let instances := dict_get (Tenant.instances company) [] in
  instances_utilization ←
    (if nonempty instances
     then let active :=
            sum_ones (fun i => dict_get (InstanceInfo.active i) false) instances in
          q ← truediv (inject_Z active) (inject_Z (len instances));
          mret (q * 100)
     else mret 0);
  let broadcasts := dict_get (Tenant.broadcasts_count company) 0%Z in
  let instance_count := dict_get (Tenant.instances_count company) 1%Z in
  broadcasts_per_instance ←
    (if (0 <? instance_count)%Z
     then truediv (inject_Z broadcasts) (inject_Z instance_count)
     else mret 0);
  mret (mkUtilization users_per_channel instances_utilization broadcasts_per_instance).

End Plots.

(** * Forecast figures and key indicators of the dashboard *)

(** ** Predicted growth, capacity and trend ([app.py], view "Predictive Analytics") *)

Module Growth.

(** [column.iloc[0]] and [column.iloc[-1]] on a column that is never empty
    here; [0] stands for the value of an empty column. *)
Definition iloc_first (column : list Z) : Z := hd 0%Z column.
Definition iloc_last (column : list Z) : Z := List.last column 0%Z.

(** [((forecast - current) / current * 100) if current > 0 else 0] *)
Definition growth (current forecast : Z) : result Q :=
  if (0 <? current)%Z
  then q ← truediv (inject_Z (forecast - current)) (inject_Z current); mret (q * 100)
  else mret 0.

Record Predicted : Type := mkPredicted {
  user_growth : Q;
  company_growth : Q;
  instances_growth : Q;
  broadcasts_growth : Q
}.

Definition predicted_growth (df_historical df_forecast : list Forecast.Point)
  : result Predicted :=
  u ← growth (iloc_last (map Forecast.Users df_historical))
        (iloc_last (map Forecast.Users df_forecast));
  c ← growth (iloc_last (map Forecast.Companies df_historical))
        (iloc_last (map Forecast.Companies df_forecast));
  i ← growth (iloc_last (map Forecast.Instances df_historical))
        (iloc_last (map Forecast.Instances df_forecast));
  b ← growth (iloc_last (map Forecast.Broadcasts df_historical))
        (iloc_last (map Forecast.Broadcasts df_forecast));
  mret (mkPredicted u c i b).

Record CapacityRec : Type := mkCapacityRec {
  Resource : string;
  Current : Z;
  Needed : Z;
  Gap : Z;
  Action : string
}.

Definition capacity_recs (metadata : Forecast.Metadata) (df_forecast : list Forecast.Point)
  : list CapacityRec :=
  let capacity_recs : list CapacityRec := [] in
  let current_instance_capacity := dict_get (Forecast.total_instances metadata) 0%Z in
  let current_user_capacity := dict_get (Forecast.total_users metadata) 0%Z in
  let needed_instances := iloc_last (map Forecast.Instances df_forecast) in
  let instance_gap := (needed_instances - current_instance_capacity)%Z in
  let capacity_recs :=
    if (0 <? instance_gap)%Z
    then capacity_recs
         ++ [mkCapacityRec "Instances" current_instance_capacity needed_instances
               instance_gap ("Provision " +:+ str instance_gap +:+ " more instances")]
    else capacity_recs in
  let needed_user_licenses := iloc_last (map Forecast.Users df_forecast) in
  let user_gap := (needed_user_licenses - current_user_capacity)%Z in
  if (0 <? user_gap)%Z
  then capacity_recs
       ++ [mkCapacityRec "User Licenses" current_user_capacity needed_user_licenses
             user_gap ("Plan for " +:+ str user_gap +:+ " more users")]
  else capacity_recs.

Record GrowthRate : Type := mkGrowthRate {
  Metric : string;
  Growth_12M : Q;
  Status : string
}.

(** One iteration of the loop over metrics of the trend analysis. *)
Definition growth_rate (metric : string) (column : list Z) : result GrowthRate :=
  let first_val := iloc_first column in
  let last_val := iloc_last column in
  growth ←
    (if (0 <? first_val)%Z
     then q ← truediv (inject_Z (last_val - first_val)) (inject_Z first_val);
          mret (q * 100)
     else mret 0);
  mret (mkGrowthRate metric (round1 growth)
          (if Qgtb growth 0 then "📈 Growing" else "📉 Declining")).

Definition growth_rates (df_historical : list Forecast.Point) : result (list GrowthRate) :=
  u ← growth_rate "Users" (map Forecast.Users df_historical);
  c ← growth_rate "Companies" (map Forecast.Companies df_historical);
  i ← growth_rate "Instances" (map Forecast.Instances df_historical);
  b ← growth_rate "Broadcasts" (map Forecast.Broadcasts df_historical);
  mret [u; c; i; b].

Record View : Type := mkView {
  df_forecast : list Forecast.Point;
  predicted : Predicted;
  capacity : list CapacityRec;
  trend : list GrowthRate
}.

(** The view from the totals and the random source to its figures. *)
Definition view (rand : nat -> Q) (metadata : Forecast.Metadata) : result View :=
  df_historical ← Forecast.df_historical rand metadata;
  let df_forecast := Forecast.forecast_data df_historical in
  p ← predicted_growth df_historical df_forecast;
  t ← growth_rates df_historical;
  mret (mkView df_forecast p (capacity_recs metadata df_forecast) t).

End Growth.

(** ** Key performance indicators ([app.py], view "Business Intelligence") *)

Module KPI.

Record Indicators : Type := mkIndicators {
  active_user_rate : Q;
  active_instance_rate : Q;
  avg_users_per_company : Q;
  avg_broadcasts_per_instance : Q;
  efficiency_score : Q
}.

(** The lists built by [extend] in the loop over companies. *)
Definition all_users_list (companies : list Company.t) : list User.t :=
  fold_left (fun acc company => acc ++ dict_get (Company.users company) []) companies [].

Definition all_instances_list (companies : list Company.t) : list Instance.t :=
  fold_left (fun acc company => acc ++ dict_get (Company.instances company) [])
    companies [].

Definition indicators (metadata : Forecast.Metadata) (companies : list Company.t)
  : result Indicators :=
  let total_users := dict_get (Forecast.total_users metadata) 0%Z in
  let total_instances := dict_get (Forecast.total_instances metadata) 0%Z in
  let total_broadcasts := dict_get (Forecast.total_broadcasts metadata) 0%Z in
  let total_companies := dict_get (Forecast.total_companies metadata) 0%Z in
  let active_users :=
    sum_ones (fun u => dict_get (User.isActive u) false) (all_users_list companies) in
  let active_instances :=
    sum_ones (fun i => dict_get (Instance.active i) false)
      (all_instances_list companies) in
  active_user_rate ←
    (if (0 <? total_users)%Z
     then q ← truediv (inject_Z active_users) (inject_Z total_users); mret (q * 100)
     else mret 0);
  active_instance_rate ←
    (if (0 <? total_instances)%Z
     then q ← truediv (inject_Z active_instances) (inject_Z total_instances);
          mret (q * 100)
     else mret 0);
  avg_users_per_company ←
    (if (0 <? total_companies)%Z
     then truediv (inject_Z total_users) (inject_Z total_companies)
     else mret 0);
  avg_broadcasts_per_instance ←
    (if (0 <? total_instances)%Z
     then truediv (inject_Z total_broadcasts) (inject_Z total_instances)
     else mret 0);
  let efficiency_score := active_user_rate * 0.4 + active_instance_rate * 0.6 in
  mret (mkIndicators active_user_rate active_instance_rate avg_users_per_company
          avg_broadcasts_per_instance efficiency_score).

End KPI.

(** ** Company filter, user analytics and broadcast analytics ([app.py]) *)

Module Filter.

(** [filtered_companies]: the companies of the selected name, or all of
    them under "All Companies"; [name c] is [c.get('name')], [None] when
    absent. *)
Definition filtered_companies {C : Type} (name : C -> option string)
           (selected_company : string) (companies : list C) : list C :=
  if negb (String.eqb selected_company "All Companies")
  then List.filter
         (fun c => match name c with
                   | Some n => String.eqb n selected_company
                   | None => false
                   end) companies
  else companies.

End Filter.

Module UserView.

(** A user record copied and tagged with its origin. *)
Record UserData : Type := mkUserData {
  user : User.t;
  company_name : string;
  source : string
}.

Record Metrics : Type := mkMetrics {
  Users_in_Companies : Z;
  Orphaned_Users : Z;
  Filtered_Total : Z;
  active_users : Z;
  Active_Rate : Q
}.

(** The nested loops that fill [all_users]. *)
Definition all_users (filtered_companies : list Company.t) : list UserData :=
  fold_left
    (fun acc company =>
       fold_left
         (fun acc user =>
            acc ++ [mkUserData user (dict_get (Company.name company) "Unknown"%string)
                      "company"])
         (dict_get (Company.users company) []) acc)
    filtered_companies [].

(** [orphaned_users]: read only when the data has the key and no company
    is selected. *)
Definition orphaned_users (orphaned : option (list User.t)) (selected_company : string)
  : list UserData :=
  match orphaned with
  | Some users =>
      if String.eqb selected_company "All Companies"
      then fold_left
             (fun acc user => acc ++ [mkUserData user "Orphaned/Unlinked" "orphaned"])
             users []
      else []
  | None => []
  end.

(** [u.get('user_type_name') in selected_user_types] *)
Definition type_selected (selected_user_types : list string) (u : UserData) : bool :=
  match User.user_type_name (user u) with
  | Some t => existsb (String.eqb t) selected_user_types
  | None => false
  end.

Definition combined_users (filtered_companies : list Company.t)
           (orphaned : option (list User.t)) (selected_company : string)
           (selected_user_types : list string) (show_active_only : bool)
  : list UserData :=
  let combined_users :=
    all_users filtered_companies ++ orphaned_users orphaned selected_company in
  let combined_users :=
    if nonempty selected_user_types
    then List.filter (type_selected selected_user_types) combined_users
    else combined_users in
  if show_active_only
  then List.filter (fun u => dict_get (User.isActive (user u)) false) combined_users
  else combined_users.

(** The metrics row, shown only [if combined_users]. *)
Definition metrics (filtered_companies : list Company.t)
           (orphaned : option (list User.t)) (selected_company : string)
           (selected_user_types : list string) (show_active_only : bool)
  : result (option Metrics) :=
  let combined :=
    combined_users filtered_companies orphaned selected_company selected_user_types
      show_active_only in
  if nonempty combined then
    let active_users :=
      sum_ones (fun u => dict_get (User.isActive (user u)) false) combined in
    q ← truediv (inject_Z active_users) (inject_Z (len combined));
    mret (Some (mkMetrics (len (all_users filtered_companies))
                  (len (orphaned_users orphaned selected_company))
                  (len combined) active_users (q * 100)))
  else mret None.

End UserView.

Module BroadcastView.

Record Metrics : Type := mkMetrics {
  Total_Broadcasts : Z;
  Completed : nat;
  Pending : nat;
  Completion_Rate : Q
}.

(** A broadcast record copied and tagged with its company. *)
Record BroadcastData : Type := mkBroadcastData {
  broadcast : BroadcastInfo.t;
  company_name : string
}.

(** The nested loops that fill [all_broadcasts]. *)
Definition all_broadcasts (filtered_companies : list Tenant.t) : list BroadcastData :=
  fold_left
    (fun acc company =>
       fold_left
         (fun acc broadcast =>
            acc ++ [mkBroadcastData broadcast
                      (dict_get (Tenant.name company) "Unknown"%string)])
         (dict_get (Tenant.broadcasts company) []) acc)
    filtered_companies [].

Definition status_of (b : BroadcastData) : string :=
  dict_get (BroadcastInfo.status (broadcast b)) "Unknown"%string.

(** The metrics row, shown only [if all_broadcasts]. *)
Definition metrics (filtered_companies : list Tenant.t) : result (option Metrics) :=
  let all_broadcasts := all_broadcasts filtered_companies in
  if nonempty all_broadcasts then
    let status_counts := Counter (map status_of all_broadcasts) in
    let completed :=
      (dict_get (status_counts !! "completed"%string) 0
       + dict_get (status_counts !! "Completed"%string) 0)%nat in
    let pending :=
      (dict_get (status_counts !! "pending"%string) 0
       + dict_get (status_counts !! "Pending"%string) 0)%nat in
    q ← truediv (inject_Z (Z.of_nat completed)) (inject_Z (len all_broadcasts));
    mret (Some (mkMetrics (len all_broadcasts) completed pending (q * 100)))
  else mret None.

End BroadcastView.

(** ** Ranking ([app.py], "Top 15" charts and revenue tiers) *)

Module Ranking.

(** [df_scores.head(15)] after the sort by overall score. *)
Definition top_scores (companies : list Company.t) : result (list Scorecard.Row) :=
  company_scores ← Scorecard.company_scores companies;
  df_scores ← RevenueSummary.sort_values_desc company_scores "Overall Score"
                 Scorecard.Overall_Score;
  mret (take 15 df_scores).

(** The position of a revenue tier, from the lowest. *)
Definition tier_rank (tier : string) : nat :=
  if String.eqb tier "Enterprise" then 3
  else if String.eqb tier "Professional" then 2
  else if String.eqb tier "Growth" then 1
  else 0.

End Ranking.

(** * The specification read with its own activity flag

    The specification counts a user as active by its activity flag:
    [user_status] when the record carries one, [isActive] otherwise
    ([Spec.activity_flag]).  The activation rate of module [Spec] reads
    [isActive] alone, as the dashboard does; the rates, rule conditions
    and alert contents below are the specification's own. *)

Module Stated.

Definition userActivation (c : Company.t) : Q :=
  Spec.activation_rate (Spec.users c) Spec.activity_flag.

Definition engagement (c : Company.t) : Q :=
  userActivation c * 0.6 + Spec.instanceUtilization c * 0.4.

Definition overallHealth (c : Company.t) : Q :=
  engagement c * 0.4 + Spec.adoption c * 0.3 + Spec.growthPotential c * 0.3.

(** Every user of the company has the same flag under both readings; in
    particular no user carries a [user_status]. *)
Definition flags_agree (c : Company.t) : Prop :=
  Forall (fun u => Spec.activity_flag u = Spec.isActive_flag u) (Spec.users c).

(** The conditions of the specification's rule table. *)
Definition condition (r : Spec.rule) (c : Company.t) : Prop :=
  match r with
  | Spec.LowActivation => Spec.users c <> [] /\ userActivation c < 50
  | Spec.ModerateActivation => Spec.users c <> [] /\ 50 <= userActivation c < 70
  | Spec.ZeroBroadcasts => Spec.instances c <> [] /\ Spec.broadcasts c = 0%Z
  | Spec.IdleInstancePool =>
      Spec.instances c <> []
      /\ 0.5 < Spec.inactiveInstances c / Spec.count (Spec.instances c)
  | Spec.MissingChannels =>
      (10 < length (Spec.users c))%nat /\ length (Spec.channels c) = 0%nat
  | Spec.HighUserInstanceRatio =>
      Spec.instances c <> []
      /\ 20 < Spec.count (Spec.users c) / Spec.count (Spec.instances c)
  | Spec.NoUsers => length (Spec.users c) = 0%nat
  end.

#[global] Instance condition_dec (r : Spec.rule) (c : Company.t) : Decision (condition r c).
Proof. destruct r; simpl; apply _. Defined.

(** The rules whose condition holds on a company, in table order. *)
Definition firing (c : Company.t) : list Spec.rule :=
  filter (fun r => condition r c) Spec.all_rules.

(** [n] is an integer nearest to [x]; at a tie both neighbours are. *)
Definition nearest (x : Q) (n : Z) : Prop :=
  - (1 # 2) <= inject_Z n - x <= 1 # 2.

(** [text] is the decimal numeral of an integer nearest to [x]. *)
Definition whole_number (x : Q) (text : string) : Prop :=
  exists n : Z, nearest x n /\ text = pretty n.

(** [text] is the one-decimal numeral of a multiple of a tenth nearest to
    [x]. *)
Definition one_decimal (x : Q) (text : string) : Prop :=
  exists n : Z,
    nearest (x * 10) n
    /\ text = pretty (n / 10)%Z +:+ "." +:+ pretty (n mod 10)%Z.

Definition number_of {A : Type} (xs : list A) : string := pretty (Z.of_nat (length xs)).

Definition active_users (c : Company.t) : list User.t :=
  List.filter Spec.activity_flag (Spec.users c).

Definition inactive_instances (c : Company.t) : list Instance.t :=
  List.filter (fun i => negb (Spec.instance_active i)) (Spec.instances c).

(** The message of a rule's alert: the dashboard's wording around the
    metric value the rule is about.  The "No users" message is a fixed
    text. *)
Definition message (r : Spec.rule) (c : Company.t) (text : string) : Prop :=
  match r with
  | Spec.LowActivation =>
      exists rate, whole_number (userActivation c) rate
                   /\ text = "Only " +:+ rate +:+ "% of users are active"
  | Spec.ModerateActivation =>
      exists rate, whole_number (userActivation c) rate
                   /\ text = "User activation rate at " +:+ rate +:+ "%"
  | Spec.ZeroBroadcasts =>
      text = number_of (Spec.instances c) +:+ " instances but no broadcasts"
  | Spec.IdleInstancePool =>
      text = number_of (inactive_instances c) +:+ " of "
             +:+ number_of (Spec.instances c) +:+ " instances are inactive"
  | Spec.MissingChannels =>
      text = number_of (Spec.users c) +:+ " users but no channels configured"
  | Spec.HighUserInstanceRatio =>
      exists ratio,
        one_decimal (Spec.count (Spec.users c) / Spec.count (Spec.instances c)) ratio
        /\ text = "High user-to-instance ratio (" +:+ ratio +:+ ":1)"
  | Spec.NoUsers => text = "Company has no users"
  end.

(** The metric field of a rule's alert. *)
Definition metric (r : Spec.rule) (c : Company.t) : string :=
  match r with
  | Spec.LowActivation | Spec.ModerateActivation =>
      number_of (active_users c) +:+ "/" +:+ number_of (Spec.users c) +:+ " active"
  | Spec.ZeroBroadcasts => "0 broadcasts"
  | Spec.IdleInstancePool =>
      number_of (inactive_instances c) +:+ "/" +:+ number_of (Spec.instances c)
      +:+ " inactive"
  | Spec.MissingChannels => "0 channels"
  | Spec.HighUserInstanceRatio =>
      number_of (Spec.users c) +:+ " users / " +:+ number_of (Spec.instances c)
      +:+ " instances"
  | Spec.NoUsers => "0 users"
  end.

(** What the alert of a rule carries: the company, the rule's category
    and severity, its message and metric, and a recommended action. *)
Definition carries (c : Company.t) (r : Spec.rule) (a : Alerts.Alert) : Prop :=
  Alerts.Company_ a = dict_get (Company.name c) "Unknown"%string
  /\ Alerts.Category a = Spec.category r
  /\ Alerts.Severity a = Spec.severity r
  /\ message r c (Alerts.Message a)
  /\ Alerts.Metric a = metric r c
  /\ Alerts.Action a <> ""%string.

(** The value at rank [h] of the ascending arrangement
    [x_0 <= ... <= x_(n-1)], interpolated linearly between the ranks
    below and above [h]. *)
Definition at_rank (sorted : list Q) (h : Q) : Q :=
  let lower := nth (Z.to_nat (Qfloor h)) sorted 0 in
  let upper := nth (Z.to_nat (Qceiling h)) sorted 0 in
  lower + (h - inject_Z (Qfloor h)) * (upper - lower).

(** [v] is the percentile [p] (between 0 and 1) of [values]: the value at
    rank [(n - 1) p] of their ascending arrangement, whichever way equal
    values are arranged. *)
Definition percentile (values : list Q) (p v : Q) : Prop :=
  forall sorted : list Q,
    Permutation sorted values -> Sorted Qle sorted ->
    v == at_rank sorted (inject_Z (Z.of_nat (length values) - 1) * p).

End Stated.

(** * The comparison chart of the benchmark view ([app.py]) *)

Module Comparison.

(** The options of the "Select metric to compare" box. *)
Inductive Metric : Type :=
| User_Activation_pct
| Instance_Utilization_pct
| Broadcasts_per_User
| Broadcasts_per_Instance.

Definition label (m : Metric) : string :=
  match m with
  | User_Activation_pct => "User Activation %"
  | Instance_Utilization_pct => "Instance Utilization %"
  | Broadcasts_per_User => "Broadcasts/User"
  | Broadcasts_per_Instance => "Broadcasts/Instance"
  end.

(** [df_benchmark[label]] *)
Definition column (m : Metric) : Benchmark.Row -> Q :=
  match m with
  | User_Activation_pct => Benchmark.User_Activation_pct
  | Instance_Utilization_pct => Benchmark.Instance_Utilization_pct
  | Broadcasts_per_User => Benchmark.Broadcasts_per_User
  | Broadcasts_per_Instance => Benchmark.Broadcasts_per_Instance
  end.

(** The dictionary [benchmarks] with its three keys. *)
Definition as_dict (benchmarks : Benchmark.Benchmarks) : gmap string Benchmark.Percentiles :=
  <["User Activation %"%string := Benchmark.User_Activation benchmarks]>
    (<["Instance Utilization %"%string := Benchmark.Instance_Utilization benchmarks]>
       (<["Broadcasts/User"%string := Benchmark.Broadcasts_User benchmarks]> ∅)).

(** The two horizontal lines drawn [if metric_to_compare in benchmarks]. *)
Record Lines : Type := mkLines {
  top_line : Pandas.float;
  median_line : Pandas.float
}.

Record Chart : Type := mkChart {
  bars : list (string * Q);
  lines : option Lines
}.

Definition chart (df_benchmark : list Benchmark.Row) (benchmarks : Benchmark.Benchmarks)
           (metric_to_compare : Metric) : result Chart :=
  sorted ← RevenueSummary.sort_values_desc df_benchmark (label metric_to_compare)
              (column metric_to_compare);
  let df_sorted := take 20 sorted in
  mret (mkChart
          (map (fun r => (Benchmark.Company_ r, column metric_to_compare r)) df_sorted)
          (match as_dict benchmarks !! label metric_to_compare with
           | Some p => Some (mkLines (Benchmark.Top_25 p) (Benchmark.Median p))
           | None => None
           end)).

(** The view from the company list to the comparison chart. *)
Definition view (companies : list Company.t) (metric_to_compare : Metric) : result Chart :=
  df_benchmark ← Benchmark.benchmark_data companies;
  benchmarks ← Benchmark.benchmarks df_benchmark;
  chart df_benchmark benchmarks metric_to_compare.

End Comparison.

(** ** Concrete tenants used in the statements below *)

Module Sample.

(** Three active and seven inactive users, none with a [user_status]. *)
Definition quiet_tenant : Tenant.t :=
  Tenant.mk (Some "Umbrella"%string) (Some true) (Some 10%Z) (Some 0%Z) (Some 0%Z)
    (Some 0%Z) (Some (Example.staff 3 10)) None None None.

(** Twenty-one inactive users, one inactive instance, no channel and no
    broadcast. *)
Definition neglected_company : Company.t :=
  Company.mk (Some "Hooli"%string) (Some 21%Z) (Some 1%Z) (Some 0%Z)
    (Some (Example.staff 0 21)) (Some [Instance.mk (Some false)]) None.

(** Totals that agree with a single company of five users and one
    instance. *)
Definition five_user_totals : Forecast.Metadata :=
  Forecast.mkMetadata (Some 5%Z) (Some 1%Z) (Some 1%Z) (Some 10%Z).

(** Two users, one active by [isActive] and one by [user_status] only;
    one active instance, one channel, ten broadcasts. *)
Definition half_flagged_company : Company.t :=
  Company.mk (Some "Initrode"%string) (Some 2%Z) (Some 1%Z) (Some 10%Z)
    (Some [Example.status_only_user; Example.user (Some "Agent"%string) true])
    (Some [Instance.mk (Some true)]) (Some [Channel.mk (Some true)]).

(** A company without users, instances and channels. *)
Definition userless_company : Company.t :=
  Company.mk (Some "Vandelay"%string) (Some 0%Z) (Some 0%Z) (Some 0%Z)
    (Some []) None None.

(** Six of ten users active. *)
Definition moderate_company : Company.t := Example.company_with_activation 6.

(** Four companies with 40, 10, 30 and 20 percent of their users active,
    in this order. *)
Definition shuffled_companies : list Company.t :=
  [Example.company_with_activation 4; Example.company_with_activation 1;
   Example.company_with_activation 3; Example.company_with_activation 2].

(** A tenant whose name has 14 characters of two bytes or one byte
    each. *)
Definition two_byte_tenant : Tenant.t :=
  Tenant.mk (Some "شركة النور مصر"%string) (Some true) None None None None
    None None None None.

(** A tenant whose name has 38 characters, some of two bytes. *)
Definition long_name_tenant : Tenant.t :=
  Tenant.mk (Some "Société Générale de Télécommunications"%string) (Some true)
    None None None None None None None None.

End Sample.

(** * Properties *)

(** ** Python primitives *)

Lemma sum_ones_from {A : Type} (p : A -> bool) (xs : list A) (start : Z) :
  fold_left (fun acc x => if p x then (acc + 1)%Z else acc) xs start
  = (start + Z.of_nat (length (List.filter p xs)))%Z.
Proof.
  revert start; induction xs as [|x xs IH]; intros start; simpl.
  - lia.
  - rewrite IH. destruct (p x); simpl; lia.
Qed.

Lemma sum_ones_filter {A : Type} (p : A -> bool) (xs : list A) :
  sum_ones p xs = Z.of_nat (length (List.filter p xs)).
Proof. unfold sum_ones. rewrite sum_ones_from. lia. Qed.

Lemma filter_length_le {A : Type} (p : A -> bool) (xs : list A) :
  (length (List.filter p xs) <= length xs)%nat.
Proof. induction xs as [|x xs IH]; simpl; [lia|]. destruct (p x); simpl; lia. Qed.

Lemma truediv_ok (a b : Q) : ~ b == 0 -> truediv a b = Ok (a / b).
Proof.
  intros Hb. unfold truediv.
  destruct (Qeq_bool b 0) eqn:E; [|reflexivity].
  apply Qeq_bool_eq in E. contradiction.
Qed.

Lemma truediv_zero (a b : Q) : b == 0 -> truediv a b = Raise ZeroDivisionError.
Proof. intros Hb. unfold truediv. now rewrite (Qeq_eq_bool _ _ Hb). Qed.

Lemma inject_Z_nonzero (z : Z) : z <> 0%Z -> ~ inject_Z z == 0.
Proof. intros Hz H. apply Hz. unfold Qeq in H; simpl in H. lia. Qed.

Lemma len_cons_nonzero {A : Type} (x : A) (xs : list A) :
  ~ inject_Z (len (x :: xs)) == 0.
Proof. apply inject_Z_nonzero. unfold len; simpl; lia. Qed.

Lemma Qltb_lt (a b : Q) : Qltb a b = true <-> a < b.
Proof.
  unfold Qltb. rewrite negb_true_iff, <- not_true_iff_false, Qle_bool_iff.
  split; [apply Qnot_le_lt | apply Qlt_not_le].
Qed.

Lemma Qltb_ge (a b : Q) : Qltb a b = false <-> b <= a.
Proof. unfold Qltb. rewrite negb_false_iff. apply Qle_bool_iff. Qed.

Lemma Qgeb_ge (a b : Q) : Qgeb a b = true <-> b <= a.
Proof. apply Qle_bool_iff. Qed.

Lemma Qgeb_lt (a b : Q) : Qgeb a b = false <-> a < b.
Proof.
  unfold Qgeb. rewrite <- not_true_iff_false, Qle_bool_iff.
  split; [apply Qnot_le_lt | apply Qlt_not_le].
Qed.

Lemma Qgtb_gt (a b : Q) : Qgtb a b = true <-> b < a.
Proof. unfold Qgtb. apply (Qltb_lt b a). Qed.

Lemma Qgtb_le (a b : Q) : Qgtb a b = false <-> a <= b.
Proof. unfold Qgtb. apply (Qltb_ge b a). Qed.

Lemma min_is_Qmin (a b : Q) : Py.min a b == Qmin a b.
Proof.
  unfold Py.min. destruct (Qltb b a) eqn:E.
  - apply Qltb_lt in E. symmetry. apply Q.min_r. lra.
  - apply Qltb_ge in E. symmetry. apply Q.min_l. exact E.
Qed.

Lemma min_le_r (a b : Q) : Py.min a b <= b.
Proof. rewrite min_is_Qmin. apply Q.le_min_r. Qed.

(** [Counter] has one key per distinct element. *)
Lemma Counter_dom_from (keys : list string) (m : gmap string nat) :
  dom (fold_left (fun m k => <[k := S (dict_get (m !! k) 0%nat)]> m) keys m)
  = list_to_set keys ∪ dom m.
Proof.
  revert m; induction keys as [|k keys IH]; intros m; simpl.
  - now rewrite (left_id_L ∅ (∪)).
  - rewrite IH, dom_insert_L, (assoc_L (∪)).
    now rewrite (comm_L (∪) (list_to_set keys) {[k]}).
Qed.

Lemma size_Counter (keys : list string) :
  size (Counter keys) = length (remove_dups keys).
Proof.
  unfold Counter.
  rewrite <- size_dom, Counter_dom_from, dom_empty_L, (right_id_L ∅ (∪)).
  assert (E : (list_to_set keys : gset string) = list_to_set (remove_dups keys)).
  { apply set_eq; intros k. rewrite !elem_of_list_to_set, elem_of_remove_dups. tauto. }
  rewrite E. apply size_list_to_set, NoDup_remove_dups.
Qed.

Lemma bind_Ok {A B : Type} (f : A -> result B) (a : A) : (Ok a ≫= f) = f a.
Proof. reflexivity. Qed.

Lemma ret_Ok {A : Type} (a : A) : mret a = Ok a.
Proof. reflexivity. Qed.

(** ** Rates and ratios: the guarded divisions *)

Lemma guarded_percentage {A : Type} (p : A -> bool) (xs : list A) :
  (if nonempty xs
   then q ← truediv (inject_Z (sum_ones p xs)) (inject_Z (len xs)); mret (q * 100)
   else mret 0)
  = Ok (Spec.activation_rate xs p).
Proof.
  destruct xs as [|x xs]; [reflexivity|].
  cbn [nonempty]. rewrite truediv_ok by apply len_cons_nonzero.
  rewrite bind_Ok, sum_ones_filter. reflexivity.
Qed.

Lemma guarded_ratio {A : Type} (numerator : Q) (xs : list A) :
  (if nonempty xs then truediv numerator (inject_Z (len xs)) else mret 0)
  = Ok (Spec.ratio numerator xs).
Proof.
  destruct xs as [|x xs]; [reflexivity|].
  cbn [nonempty]. now rewrite truediv_ok by apply len_cons_nonzero.
Qed.

Lemma activation_rate_range {A : Type} (p : A -> bool) (xs : list A) :
  0 <= Spec.activation_rate xs p <= 100.
Proof.
  destruct xs as [|x xs]; [simpl; lra|].
  unfold Spec.activation_rate, Spec.count.
  pose proof (filter_length_le p (x :: xs)) as Hle.
  set (k := length (List.filter p (x :: xs))) in *.
  set (n := length (x :: xs)) in *.
  assert (Hn : (0 < n)%nat) by (subst n; simpl; lia).
  assert (Hk : 0 <= inject_Z (Z.of_nat k)) by (change 0 with (inject_Z 0); rewrite <- Zle_Qle; lia).
  assert (Hn' : 0 < inject_Z (Z.of_nat n)) by (change 0 with (inject_Z 0); rewrite <- Zlt_Qlt; lia).
  assert (Hkn : inject_Z (Z.of_nat k) <= inject_Z (Z.of_nat n)) by (rewrite <- Zle_Qle; lia).
  assert (H0 : 0 <= inject_Z (Z.of_nat k) / inject_Z (Z.of_nat n)).
  { apply Qle_shift_div_l; [exact Hn'|]. lra. }
  assert (H1 : inject_Z (Z.of_nat k) / inject_Z (Z.of_nat n) <= 1).
  { apply Qle_shift_div_r; [exact Hn'|]. lra. }
  lra.
Qed.

(** ** Health score *)

(** What one iteration of the health loop computes, in closed form. *)
Lemma components_closed_form (c : Company.t) :
  Health.components c
  = Ok (let ua := Spec.activation_rate (Spec.users c)
                    (fun u => dict_get (User.isActive u) false) in
        let iu := Spec.activation_rate (Spec.instances c)
                    (fun i => dict_get (Instance.active i) false) in
        let td := inject_Z (Z.of_nat (size (Counter (map Spec.type_name (Spec.users c)))))
                  / 4 * 100 in
        let ad := td * 0.4 + (if (0 <? Spec.broadcasts c)%Z then 100 else 0) * 0.3
                  + (if (0 <? len (Spec.channels c))%Z then 100 else 0) * 0.3 in
        let upc := Spec.usersPerChannel c in
        let bpi := Spec.broadcastsPerInstance c in
        let gp := Py.min (upc / 10 * 50 + bpi / 5 * 50) 100 in
        Health.mkComponents ua iu (ua * 0.6 + iu * 0.4) td ad upc bpi gp
          (Health.weighted (ua * 0.6 + iu * 0.4) ad gp)).
Proof.
  unfold Health.components. cbv zeta.
  rewrite !guarded_percentage, !bind_Ok.
  rewrite (truediv_ok _ 4) by (intros H; discriminate H).
  rewrite bind_Ok, !guarded_ratio, !bind_Ok.
  rewrite (truediv_ok _ 10) by (intros H; discriminate H).
  rewrite (truediv_ok _ 5) by (intros H; discriminate H).
  reflexivity.
Qed.

Lemma type_diversity_formula (c : Company.t) :
  inject_Z (Z.of_nat (size (Counter (map Spec.type_name (Spec.users c))))) / 4 * 100
  == Spec.typeDiversity c.
Proof. unfold Spec.typeDiversity, Spec.distinct_types. now rewrite size_Counter. Qed.

Lemma adoption_formula (c : Company.t) :
  inject_Z (Z.of_nat (size (Counter (map Spec.type_name (Spec.users c))))) / 4 * 100 * 0.4
  + (if (0 <? Spec.broadcasts c)%Z then 100 else 0) * 0.3
  + (if (0 <? len (Spec.channels c))%Z then 100 else 0) * 0.3
  == Spec.adoption c.
Proof.
  unfold Spec.adoption. rewrite type_diversity_formula.
  destruct (Spec.channels c) as [|ch chs]; reflexivity.
Qed.

Lemma overall_health_formula (c : Company.t) :
  Health.weighted
    (Spec.activation_rate (Spec.users c) (fun u => dict_get (User.isActive u) false) * 0.6
     + Spec.activation_rate (Spec.instances c)
         (fun i => dict_get (Instance.active i) false) * 0.4)
    (inject_Z (Z.of_nat (size (Counter (map Spec.type_name (Spec.users c))))) / 4 * 100
     * 0.4
     + (if (0 <? Spec.broadcasts c)%Z then 100 else 0) * 0.3
     + (if (0 <? len (Spec.channels c))%Z then 100 else 0) * 0.3)
    (Py.min (Spec.usersPerChannel c / 10 * 50 + Spec.broadcastsPerInstance c / 5 * 50) 100)
  == Spec.overallHealth c.
Proof.
  unfold Health.weighted, Spec.overallHealth.
  rewrite adoption_formula, min_is_Qmin. reflexivity.
Qed.

Lemma weighted_monotone (e e' a a' g g' : Q) :
  e <= e' -> a <= a' -> g <= g' -> Health.weighted e a g <= Health.weighted e' a' g'.
Proof. unfold Health.weighted. intros. lra. Qed.

(** The overall score stays in [0, 100] as long as the company has at most
    four distinct user types and a non-negative broadcast counter. *)
Lemma overall_health_range_four_types (c : Company.t) :
  (Spec.distinct_types c <= 4)%nat -> (0 <= Spec.broadcasts c)%Z ->
  exists r, Health.components c = Ok r /\ 0 <= Health.overall_health r <= 100.
Proof.
  intros Htypes Hb.
  eexists. split; [apply components_closed_form|].
  cbv zeta. cbn [Health.overall_health]. rewrite overall_health_formula.
  unfold Spec.overallHealth, Spec.engagement, Spec.adoption, Spec.growthPotential,
    Spec.typeDiversity, Spec.userActivation, Spec.instanceUtilization.
  pose proof (activation_rate_range Spec.isActive_flag (Spec.users c)) as Hu.
  pose proof (activation_rate_range Spec.instance_active (Spec.instances c)) as Hi.
  set (ua := Spec.activation_rate (Spec.users c) _) in *.
  set (iu := Spec.activation_rate (Spec.instances c) _) in *.
  assert (Ht : 0 <= inject_Z (Z.of_nat (Spec.distinct_types c)) <= 4).
  { split.
    - change 0 with (inject_Z 0). rewrite <- Zle_Qle. lia.
    - change 4 with (inject_Z 4). rewrite <- Zle_Qle. lia. }
  set (t := inject_Z (Z.of_nat (Spec.distinct_types c))) in *.
  assert (Ht' : 0 <= t / 4 * 100 <= 100).
  { setoid_replace (t / 4) with (t * (1 # 4)) using relation Qeq by field. lra. }
  set (hb := if (0 <? Spec.broadcasts c)%Z then 100 else 0).
  assert (Hhb : 0 <= hb <= 100) by (subst hb; destruct (0 <? _)%Z; lra).
  set (hc := match Spec.channels c with [] => 0 | _ :: _ => 100 end).
  assert (Hhc : 0 <= hc <= 100) by (subst hc; destruct (Spec.channels c); lra).
  assert (Hupc : 0 <= Spec.usersPerChannel c).
  { unfold Spec.usersPerChannel, Spec.ratio, Spec.count.
    destruct (Spec.channels c) as [|ch chs]; [lra|].
    apply Qle_shift_div_l.
    - change 0 with (inject_Z 0). rewrite <- Zlt_Qlt. simpl. lia.
    - rewrite Qmult_0_l. change 0 with (inject_Z 0). rewrite <- Zle_Qle. lia. }
  assert (Hbpi : 0 <= Spec.broadcastsPerInstance c).
  { unfold Spec.broadcastsPerInstance, Spec.ratio, Spec.count.
    destruct (Spec.instances c) as [|i rest]; [lra|].
    apply Qle_shift_div_l.
    - change 0 with (inject_Z 0). rewrite <- Zlt_Qlt. simpl. lia.
    - rewrite Qmult_0_l. change 0 with (inject_Z 0). rewrite <- Zle_Qle. lia. }
  set (s := Spec.usersPerChannel c / 10 * 50 + Spec.broadcastsPerInstance c / 5 * 50).
  assert (Hs : 0 <= s).
  { subst s.
    setoid_replace (Spec.usersPerChannel c / 10) with (Spec.usersPerChannel c * (1 # 10))
      using relation Qeq by field.
    setoid_replace (Spec.broadcastsPerInstance c / 5)
      with (Spec.broadcastsPerInstance c * (1 # 5)) using relation Qeq by field.
    lra. }
  assert (Hg : 0 <= Qmin s 100 <= 100).
  { split; [apply Q.min_glb; lra | apply Q.le_min_r]. }
  set (g := Qmin s 100) in *.
  lra.
Qed.

(** C2. At a company with five distinct user types the type diversity is
    125, not capped, and the overall health score is 103: above 100, also
    in the row the dashboard shows. *)
Theorem overall_health_exceeds_100 :
  exists r,
    Health.components Example.five_type_company = Ok r
    /\ Spec.distinct_types Example.five_type_company = 5%nat
    /\ Health.engagement_score r == 100
    /\ Health.type_diversity r == 125
    /\ Health.adoption_score r == 110
    /\ Health.growth_potential r == 100
    /\ Health.overall_health r == 103
    /\ ~ Health.overall_health r <= 100
    /\ exists row,
         Health.row Example.five_type_company = Ok row
         /\ Health.Health_Score row == 103
         /\ Health.Adoption_Score row == 110.
Proof.
  eexists. split; [apply components_closed_form|].
  repeat split; try (vm_compute; reflexivity).
  - vm_compute. intros H. apply H. reflexivity.
  - eexists. split; [vm_compute; reflexivity|]. split; reflexivity.
Qed.

Lemma tier_cases (h : Q) :
  (80 <= h /\ Health.tier h
               = Health.mkTier "🟢 Healthy" "🟢" "Low" "Explore upsell opportunities")
  \/ (60 <= h < 80 /\ Health.tier h
                      = Health.mkTier "🟡 Stable" "🟡" "Medium" "Monitor engagement trends")
  \/ (40 <= h < 60 /\ Health.tier h
                      = Health.mkTier "🟠 At Risk" "🟠" "High"
                          "Increase engagement, provide training")
  \/ (h < 40 /\ Health.tier h
                = Health.mkTier "🔴 Critical" "🔴" "Critical"
                    "Immediate intervention required").
Proof.
  unfold Health.tier.
  destruct (Qgeb h 80) eqn:E80; [apply Qgeb_ge in E80; left; split; [lra|reflexivity]|].
  apply Qgeb_lt in E80.
  destruct (Qgeb h 60) eqn:E60;
    [apply Qgeb_ge in E60; right; left; split; [lra|reflexivity]|].
  apply Qgeb_lt in E60.
  destruct (Qgeb h 40) eqn:E40;
    [apply Qgeb_ge in E40; right; right; left; split; [lra|reflexivity]|].
  apply Qgeb_lt in E40. right; right; right. split; [lra|reflexivity].
Qed.

(** C7. The row of every company carries the tier of its overall health,
    with inclusive lower bounds 80, 60 and 40 tried from the highest; 80
    is Healthy, 79.99 and 60 are Stable, 40 is At Risk and 39.99 is
    Critical, each with its risk level and recommendation.  The status
    string is the tier's label after its colour mark. *)
Theorem health_tier_boundaries :
  (forall c : Company.t,
      exists k r label,
        Health.components c = Ok k
        /\ Health.row c = Ok r
        /\ Health.Status r = Health.Status_Emoji r +:+ " " +:+ label
        /\ Spec.health_tier (Health.overall_health k) label
             (Health.Risk_Level r) (Health.Recommendation r))
  /\ Health.tier 80
     = Health.mkTier "🟢 Healthy" "🟢" "Low" "Explore upsell opportunities"
  /\ Health.tier 79.99
     = Health.mkTier "🟡 Stable" "🟡" "Medium" "Monitor engagement trends"
  /\ Health.tier 60
     = Health.mkTier "🟡 Stable" "🟡" "Medium" "Monitor engagement trends"
  /\ Health.tier 40
     = Health.mkTier "🟠 At Risk" "🟠" "High" "Increase engagement, provide training"
  /\ Health.tier 39.99
     = Health.mkTier "🔴 Critical" "🔴" "Critical" "Immediate intervention required".
Proof.
  split; [|repeat split; reflexivity].
  intros c.
  destruct (Health.components c) as [k|e] eqn:Hk;
    [|rewrite components_closed_form in Hk; discriminate].
  destruct (Health.row c) as [r|e] eqn:Hrow;
    unfold Health.row in Hrow; rewrite Hk, bind_Ok, ret_Ok in Hrow; [|discriminate].
  injection Hrow as <-.
  exists k. unfold Spec.health_tier.
  destruct (tier_cases (Health.overall_health k))
    as [[Hh E]|[[Hh E]|[[Hh E]|[Hh E]]]]; rewrite E; cbn.
  - eexists. exists "Healthy"%string.
    split; [reflexivity|split; [reflexivity|split; [reflexivity|]]].
    left. repeat split; cbn; auto.
  - eexists. exists "Stable"%string.
    split; [reflexivity|split; [reflexivity|split; [reflexivity|]]].
    right; left. repeat split; cbn; tauto.
  - eexists. exists "At Risk"%string.
    split; [reflexivity|split; [reflexivity|split; [reflexivity|]]].
    right; right; left. repeat split; cbn; tauto.
  - eexists. exists "Critical"%string.
    split; [reflexivity|split; [reflexivity|split; [reflexivity|]]].
    right; right; right. repeat split; cbn; auto.
Qed.

(** ** Revenue *)

(** C4. For every company the revenue row has monthly revenue
    users_count x 10 + instances_count x 50 + broadcasts_count x 0.01,
    annual revenue twelve times that, ARPU monthly / users_count (0 when
    there are no users) and the first matching tier from the highest
    bound down; 100 users, 2 instances and 500 broadcasts give 1105 and
    Professional. *)
Theorem revenue_model :
  (forall c : Company.t,
      let u := dict_get (Company.users_count c) 0%Z in
      let i := dict_get (Company.instances_count c) 0%Z in
      let b := dict_get (Company.broadcasts_count c) 0%Z in
      exists r,
        Revenue.row c = Ok r
        /\ Revenue.Monthly_Revenue r == Spec.monthly u i b
        /\ Revenue.Annual_Revenue r == Spec.monthly u i b * 12
        /\ Spec.arpu (Spec.monthly u i b) u (Revenue.ARPU r)
        /\ Spec.revenue_tier (Spec.monthly u i b) (Revenue.Tier r))
  /\ (exists r,
        Revenue.row Example.professional_company = Ok r
        /\ Revenue.Monthly_Revenue r == 1105
        /\ Revenue.Tier r = "Professional"%string).
Proof.
  split.
  - intros c u i b. unfold Revenue.row. fold u i b. cbv zeta.
    set (m := inject_Z (u * Revenue.PRICE_PER_USER)
              + inject_Z (i * Revenue.PRICE_PER_INSTANCE)
              + inject_Z b * Revenue.PRICE_PER_BROADCAST).
    assert (Hm : m == Spec.monthly u i b).
    { subst m. unfold Spec.monthly, Revenue.PRICE_PER_USER, Revenue.PRICE_PER_INSTANCE,
        Revenue.PRICE_PER_BROADCAST.
      rewrite !inject_Z_mult. reflexivity. }
    assert (Htier : Spec.revenue_tier (Spec.monthly u i b) (Revenue.tier m)).
    { unfold Spec.revenue_tier, Revenue.tier. rewrite <- Hm.
      destruct (Qgeb m 5000) eqn:E1; [apply Qgeb_ge in E1; left; split; [lra|reflexivity]|].
      apply Qgeb_lt in E1.
      destruct (Qgeb m 1000) eqn:E2;
        [apply Qgeb_ge in E2; right; left; split; [lra|reflexivity]|].
      apply Qgeb_lt in E2.
      destruct (Qgeb m 100) eqn:E3;
        [apply Qgeb_ge in E3; right; right; left; split; [lra|reflexivity]|].
      apply Qgeb_lt in E3. right; right; right. split; [lra|reflexivity]. }
    destruct (0 <? u)%Z eqn:Eu.
    + apply Z.ltb_lt in Eu.
      rewrite truediv_ok by (apply inject_Z_nonzero; lia).
      rewrite bind_Ok, ret_Ok. eexists. split; [reflexivity|].
      cbn [Revenue.Monthly_Revenue Revenue.Annual_Revenue Revenue.ARPU Revenue.Tier].
      split; [exact Hm|]. split; [now rewrite Hm|]. split; [|exact Htier].
      left. split; [exact Eu|]. now rewrite Hm.
    + apply Z.ltb_ge in Eu.
      rewrite ret_Ok, bind_Ok, ret_Ok. eexists. split; [reflexivity|].
      cbn [Revenue.Monthly_Revenue Revenue.Annual_Revenue Revenue.ARPU Revenue.Tier].
      split; [exact Hm|]. split; [now rewrite Hm|]. split; [|exact Htier].
      right. destruct (Z.eq_dec u 0%Z) as [E0|N0]; [left|right]; split;
        first [reflexivity | assumption | lia].
  - eexists. split; [reflexivity|]. split; reflexivity.
Qed.

(** ** Alert rules *)

Lemma percentage_closed_form {A : Type} (p : A -> bool) (x : A) (xs : list A) :
  inject_Z (sum_ones p (x :: xs)) / inject_Z (len (x :: xs)) * 100
  = Spec.activation_rate (x :: xs) p.
Proof. now rewrite sum_ones_filter. Qed.

Lemma firing_two (c : Company.t) (r1 r2 : Spec.rule) :
  filter (fun r => Spec.condition r c) [r1; r2]
  = filter (fun r => Spec.condition r c) [r1] ++ filter (fun r => Spec.condition r c) [r2].
Proof. apply (filter_app _ [r1] [r2]). Qed.

Lemma firing_one_true (c : Company.t) (r : Spec.rule) :
  Spec.condition r c -> filter (fun r => Spec.condition r c) [r] = [r].
Proof. intros H. rewrite filter_cons, filter_nil. now rewrite decide_True. Qed.

Lemma firing_one_false (c : Company.t) (r : Spec.rule) :
  ~ Spec.condition r c -> filter (fun r => Spec.condition r c) [r] = [].
Proof. intros H. rewrite filter_cons, filter_nil. now rewrite decide_False. Qed.

Ltac emit_with before after :=
  cbn [app]; constructor; [|constructor];
  unfold Spec.emits;
  cbn [Alerts.Company_ Alerts.Category Alerts.Severity Alerts.Message Alerts.Action
       Spec.category Spec.severity Spec.quoted_metric];
  repeat split; try reflexivity; try discriminate;
  exists before, after; reflexivity.

Lemma alert1_rules (c : Company.t) (acc : list Alerts.Alert) :
  exists e,
    Alerts.alert1 c acc = Ok (acc ++ e)
    /\ Forall2 (Spec.emits c)
         (filter (fun r => Spec.condition r c)
            [Spec.LowActivation; Spec.ModerateActivation]) e.
Proof.
  unfold Alerts.alert1. cbv zeta. rewrite firing_two.
  change (dict_get (Company.users c) []) with (Spec.users c).
  destruct (Spec.users c) as [|u us] eqn:Hu.
  - exists []. rewrite app_nil_r. split; [reflexivity|].
    rewrite !firing_one_false by (simpl; rewrite Hu; tauto).
    cbn [app]; constructor.
  - cbn [nonempty]. rewrite truediv_ok by apply len_cons_nonzero.
    rewrite bind_Ok, percentage_closed_form.
    assert (Hrate : Spec.userActivation c
                    = Spec.activation_rate (u :: us)
                        (fun u => dict_get (User.isActive u) false))
      by (unfold Spec.userActivation; now rewrite Hu).
    rewrite <- Hrate. clear Hrate. set (rate := Spec.userActivation c).
    destruct (Qltb rate 50) eqn:E50.
    + apply Qltb_lt in E50. eexists. split; [reflexivity|].
      rewrite firing_one_true by (simpl; rewrite Hu; split; [discriminate|exact E50]).
      rewrite firing_one_false by (simpl; subst rate; lra).
      emit_with "Only "%string "% of users are active"%string.
    + apply Qltb_ge in E50. destruct (Qltb rate 70) eqn:E70.
      * apply Qltb_lt in E70. eexists. split; [reflexivity|].
        rewrite firing_one_false by (simpl; subst rate; lra).
        rewrite firing_one_true
          by (simpl; rewrite Hu; split; [discriminate|split; assumption]).
        emit_with "User activation rate at "%string "%"%string.
      * apply Qltb_ge in E70. exists []. rewrite app_nil_r. split; [reflexivity|].
        rewrite !firing_one_false by (simpl; subst rate; lra).
        cbn [app]; constructor.
Qed.

Lemma alert2_rules (c : Company.t) (acc : list Alerts.Alert) :
  exists e,
    Alerts.alert2 c acc = Ok (acc ++ e)
    /\ Forall2 (Spec.emits c)
         (filter (fun r => Spec.condition r c) [Spec.ZeroBroadcasts]) e.
Proof.
  unfold Alerts.alert2. cbv zeta.
  change (dict_get (Company.instances c) []) with (Spec.instances c).
  change (dict_get (Company.broadcasts_count c) 0%Z) with (Spec.broadcasts c).
  destruct (Spec.instances c) as [|i rest] eqn:Hi.
  - exists []. rewrite app_nil_r. split; [reflexivity|].
    rewrite firing_one_false by (simpl; rewrite Hi; tauto). constructor.
  - cbn [nonempty andb]. destruct (Spec.broadcasts c =? 0)%Z eqn:Eb.
    + apply Z.eqb_eq in Eb. eexists. split; [reflexivity|].
      rewrite firing_one_true by (simpl; rewrite Hi; split; [discriminate|exact Eb]).
      rewrite <- Hi. emit_with ""%string " instances but no broadcasts"%string.
    + apply Z.eqb_neq in Eb. exists []. rewrite app_nil_r. split; [reflexivity|].
      rewrite firing_one_false by (simpl; tauto). constructor.
Qed.

Lemma alert3_rules (c : Company.t) (acc : list Alerts.Alert) :
  exists e,
    Alerts.alert3 c acc = Ok (acc ++ e)
    /\ Forall2 (Spec.emits c)
         (filter (fun r => Spec.condition r c) [Spec.IdleInstancePool]) e.
Proof.
  unfold Alerts.alert3. cbv zeta.
  change (dict_get (Company.instances c) []) with (Spec.instances c).
  destruct (Spec.instances c) as [|i rest] eqn:Hi.
  - exists []. rewrite app_nil_r. split; [reflexivity|].
    rewrite firing_one_false by (simpl; rewrite Hi; tauto). constructor.
  - cbn [nonempty]. rewrite truediv_ok by apply len_cons_nonzero.
    rewrite bind_Ok, sum_ones_filter, <- Hi.
    change (Z.of_nat (length (List.filter (fun i => negb (dict_get (Instance.active i) false))
                                (Spec.instances c))))
      with (len (List.filter (fun i => negb (Spec.instance_active i)) (Spec.instances c))).
    set (idle := len (List.filter _ (Spec.instances c))).
    assert (Hq : inject_Z idle / inject_Z (len (Spec.instances c))
                 = Spec.inactiveInstances c / Spec.count (Spec.instances c))
      by reflexivity.
    rewrite Hq.
    destruct (Qgtb (Spec.inactiveInstances c / Spec.count (Spec.instances c)) 0.5) eqn:E.
    + apply Qgtb_gt in E. eexists. split; [reflexivity|].
      rewrite firing_one_true by (simpl; rewrite Hi at 1; split; [discriminate|exact E]).
      emit_with ""%string (" of " +:+ str (len (Spec.instances c))
                             +:+ " instances are inactive")%string.
    + apply Qgtb_le in E. exists []. rewrite app_nil_r. split; [reflexivity|].
      rewrite firing_one_false by (simpl; intros [_ H]; lra). constructor.
Qed.

Lemma alert4_rules (c : Company.t) (acc : list Alerts.Alert) :
  exists e,
    Alerts.alert4 c acc = Ok (acc ++ e)
    /\ Forall2 (Spec.emits c)
         (filter (fun r => Spec.condition r c) [Spec.MissingChannels]) e.
Proof.
  unfold Alerts.alert4. cbv zeta.
  change (dict_get (Company.users c) []) with (Spec.users c).
  change (dict_get (Company.channels c) []) with (Spec.channels c).
  destruct ((10 <? len (Spec.users c))%Z && (len (Spec.channels c) =? 0)%Z) eqn:E.
  - apply andb_true_iff in E as [E1 E2].
    apply Z.ltb_lt in E1. apply Z.eqb_eq in E2. unfold len in E1, E2.
    eexists. split; [reflexivity|].
    rewrite firing_one_true by (simpl; lia).
    emit_with ""%string " users but no channels configured"%string.
  - exists []. rewrite app_nil_r. split; [reflexivity|].
    rewrite firing_one_false; [constructor|].
    simpl. intros [H1 H2]. apply andb_false_iff in E as [E|E].
    + apply Z.ltb_ge in E. unfold len in E. lia.
    + apply Z.eqb_neq in E. unfold len in E. lia.
Qed.

Lemma alert5_rules (c : Company.t) (acc : list Alerts.Alert) :
  exists e,
    Alerts.alert5 c acc = Ok (acc ++ e)
    /\ Forall2 (Spec.emits c)
         (filter (fun r => Spec.condition r c) [Spec.HighUserInstanceRatio]) e.
Proof.
  unfold Alerts.alert5. cbv zeta.
  change (dict_get (Company.users c) []) with (Spec.users c).
  change (dict_get (Company.instances c) []) with (Spec.instances c).
  destruct (Spec.instances c) as [|i rest] eqn:Hi.
  - exists []. rewrite app_nil_r. split; [reflexivity|].
    rewrite firing_one_false by (simpl; rewrite Hi; tauto). constructor.
  - cbn [nonempty]. rewrite truediv_ok by apply len_cons_nonzero.
    rewrite bind_Ok, <- Hi.
    change (inject_Z (len (Spec.users c)) / inject_Z (len (Spec.instances c)))
      with (Spec.count (Spec.users c) / Spec.count (Spec.instances c)).
    destruct (Qgtb (Spec.count (Spec.users c) / Spec.count (Spec.instances c)) 20) eqn:E.
    + apply Qgtb_gt in E. eexists. split; [reflexivity|].
      rewrite firing_one_true by (simpl; rewrite Hi at 1; split; [discriminate|exact E]).
      emit_with "High user-to-instance ratio ("%string ":1)"%string.
    + apply Qgtb_le in E. exists []. rewrite app_nil_r. split; [reflexivity|].
      rewrite firing_one_false by (simpl; intros [_ H]; lra). constructor.
Qed.

Lemma alert6_rules (c : Company.t) (acc : list Alerts.Alert) :
  exists e,
    Alerts.alert6 c acc = Ok (acc ++ e)
    /\ Forall2 (Spec.emits c) (filter (fun r => Spec.condition r c) [Spec.NoUsers]) e.
Proof.
  unfold Alerts.alert6. cbv zeta.
  change (dict_get (Company.users c) []) with (Spec.users c).
  destruct (len (Spec.users c) =? 0)%Z eqn:E.
  - apply Z.eqb_eq in E. unfold len in E. eexists. split; [reflexivity|].
    rewrite firing_one_true by (simpl; lia).
    emit_with "Company has no users"%string ""%string.
  - apply Z.eqb_neq in E. unfold len in E. exists []. rewrite app_nil_r.
    split; [reflexivity|].
    rewrite firing_one_false by (simpl; lia). constructor.
Qed.

(** One iteration of the alert loop appends, in table order, one alert per
    rule whose condition holds. *)
Lemma check_company_rules (c : Company.t) (acc : list Alerts.Alert) :
  exists emitted,
    Alerts.check_company c acc = Ok (acc ++ emitted)
    /\ Forall2 (Spec.emits c) (Spec.firing c) emitted.
Proof.
  unfold Alerts.check_company.
  destruct (alert1_rules c acc) as (e1 & H1 & F1). rewrite H1, bind_Ok.
  destruct (alert2_rules c (acc ++ e1)) as (e2 & H2 & F2). rewrite H2, bind_Ok.
  destruct (alert3_rules c ((acc ++ e1) ++ e2)) as (e3 & H3 & F3). rewrite H3, bind_Ok.
  destruct (alert4_rules c (((acc ++ e1) ++ e2) ++ e3)) as (e4 & H4 & F4).
  rewrite H4, bind_Ok.
  destruct (alert5_rules c ((((acc ++ e1) ++ e2) ++ e3) ++ e4)) as (e5 & H5 & F5).
  rewrite H5, bind_Ok.
  destruct (alert6_rules c (((((acc ++ e1) ++ e2) ++ e3) ++ e4) ++ e5))
    as (e6 & H6 & F6).
  rewrite H6.
  exists (e1 ++ e2 ++ e3 ++ e4 ++ e5 ++ e6). split.
  - now rewrite <- !app_assoc.
  - unfold Spec.firing.
    change Spec.all_rules
      with ([Spec.LowActivation; Spec.ModerateActivation] ++ [Spec.ZeroBroadcasts]
            ++ [Spec.IdleInstancePool] ++ [Spec.MissingChannels]
            ++ [Spec.HighUserInstanceRatio] ++ [Spec.NoUsers]).
    rewrite !filter_app.
    repeat (apply Forall2_app; [assumption|]). assumption.
Qed.

Lemma for_each_append {A B : Type} (f : A -> list B -> result (list B))
      (g : A -> list B -> Prop) (xs : list A) (acc : list B) :
  (forall x acc, exists e, f x acc = Ok (acc ++ e) /\ g x e) ->
  exists groups,
    for_each f xs acc = Ok (acc ++ concat groups) /\ Forall2 g xs groups.
Proof.
  intros Hf. revert acc. induction xs as [|x xs IH]; intros acc.
  - exists []. simpl. rewrite app_nil_r. split; [reflexivity|constructor].
  - destruct (Hf x acc) as (e & He & Hg).
    destruct (IH (acc ++ e)) as (groups & Hrest & Hall).
    exists (e :: groups). cbn [for_each]. rewrite He, bind_Ok, Hrest.
    split; [simpl; now rewrite app_assoc | now constructor].
Qed.

Lemma for_each_singletons {A B : Type} (f : A -> list B -> result (list B))
      (g : A -> B -> Prop) (xs : list A) (acc : list B) :
  (forall x acc, In x xs -> exists y, f x acc = Ok (acc ++ [y]) /\ g x y) ->
  exists ys, for_each f xs acc = Ok (acc ++ ys) /\ Forall2 g xs ys.
Proof.
  revert acc. induction xs as [|x xs IH]; intros acc Hf.
  - exists []. simpl. rewrite app_nil_r. split; [reflexivity|constructor].
  - destruct (Hf x acc (or_introl eq_refl)) as (y & Hy & Hg).
    destruct (IH (acc ++ [y])) as (ys & Hrest & Hall).
    { intros x' acc' Hin. apply Hf. now right. }
    exists (y :: ys). cbn [for_each]. rewrite Hy, bind_Ok, Hrest.
    split; [now rewrite <- app_assoc | now constructor].
Qed.

(** ** Empty collections *)

(** C10. For every company the rate computations of the health loop, the
    benchmark loop, the activity heat map and the chart generator return
    without raising, and every rate whose denominator collection is empty
    is 0: user activation and broadcasts per user for no users, instance
    utilization and broadcasts per instance for no instances, channel
    activity and users per channel for no channels. *)
Theorem empty_collection_rates_are_zero (c : Company.t) :
  exists h b m u,
    Health.components c = Ok h
    /\ Benchmark.metrics c = Ok b
    /\ Heatmap.rates c = Ok m
    /\ Charts.active_users_pct c = Ok u
    /\ (Spec.users c = [] ->
        Health.user_activity_rate h = 0 /\ Benchmark.user_activation b = 0
        /\ Benchmark.broadcasts_per_user b = 0 /\ Heatmap.active_users_pct m = 0
        /\ u = 0)
    /\ (Spec.instances c = [] ->
        Health.instance_activity_rate h = 0 /\ Health.broadcasts_per_instance h = 0
        /\ Benchmark.instance_utilization b = 0
        /\ Benchmark.broadcasts_per_instance b = 0
        /\ Heatmap.active_instances_pct m = 0)
    /\ (Spec.channels c = [] ->
        Health.users_per_channel h = 0 /\ Benchmark.users_per_channel b = 0
        /\ Heatmap.active_channels_pct m = 0).
Proof.
  do 4 eexists.
  split; [apply components_closed_form|].
  split.
  { unfold Benchmark.metrics. cbv zeta.
    rewrite !guarded_percentage, !bind_Ok, !guarded_ratio, !bind_Ok. reflexivity. }
  split.
  { unfold Heatmap.rates. cbv zeta. rewrite !guarded_percentage, !bind_Ok. reflexivity. }
  split.
  { unfold Charts.active_users_pct. cbv zeta. apply guarded_percentage. }
  cbv zeta. cbn [Health.user_activity_rate Health.instance_activity_rate
    Health.broadcasts_per_instance Health.users_per_channel
    Benchmark.user_activation Benchmark.broadcasts_per_user
    Benchmark.instance_utilization Benchmark.broadcasts_per_instance
    Benchmark.users_per_channel Heatmap.active_users_pct
    Heatmap.active_instances_pct Heatmap.active_channels_pct].
  unfold Spec.usersPerChannel, Spec.broadcastsPerInstance.
  change (dict_get (Company.users c) []) with (Spec.users c).
  change (dict_get (Company.instances c) []) with (Spec.instances c).
  change (dict_get (Company.channels c) []) with (Spec.channels c).
  split; [|split]; intros ->; repeat split; reflexivity.
Qed.

(** The instantiation of C10 at a company without any collection. *)
Lemma empty_collection_rates_witness :
  exists h b m u,
    Health.components Example.professional_company = Ok h
    /\ Benchmark.metrics Example.professional_company = Ok b
    /\ Heatmap.rates Example.professional_company = Ok m
    /\ Charts.active_users_pct Example.professional_company = Ok u
    /\ Health.user_activity_rate h = 0
    /\ Health.broadcasts_per_instance h = 0
    /\ Benchmark.users_per_channel b = 0
    /\ Heatmap.active_channels_pct m = 0
    /\ u = 0.
Proof.
  destruct (empty_collection_rates_are_zero Example.professional_company)
    as (h & b & m & u & Hh & Hb & Hm & Hu & Husers & Hinstances & Hchannels).
  destruct (Husers eq_refl) as (H1 & _ & _ & _ & H5).
  destruct (Hinstances eq_refl) as (_ & H2 & _).
  destruct (Hchannels eq_refl) as (_ & H3 & H4).
  exists h, b, m, u. repeat split; assumption.
Defined.

(** ** Which users count as active *)

Lemma status_first_flag (u : User.t) :
  dict_get (User.user_status u) (dict_get (User.isActive u) false) = Spec.activity_flag u.
Proof. unfold Spec.activity_flag. now destruct (User.user_status u). Qed.

(** The console report counts by [user_status] first. *)
Lemma analyze_users_counts (users : list User.t) :
  Console.active_count (Console.analyze_users users)
  = len (List.filter Spec.activity_flag users)
  /\ Console.inactive_count (Console.analyze_users users)
     = len (List.filter (fun u => negb (Spec.activity_flag u)) users).
Proof.
  unfold Console.analyze_users.
  set (step := fun (st : Console.UserBreakdown) (user : User.t) => _).
  assert (G : forall us st,
             Console.active_count (fold_left step us st)
             = (Console.active_count st + len (List.filter Spec.activity_flag us))%Z
             /\ Console.inactive_count (fold_left step us st)
                = (Console.inactive_count st
                   + len (List.filter (fun u => negb (Spec.activity_flag u)) us))%Z).
  { induction us as [|u us IH]; intros st; cbn [fold_left List.filter].
    - unfold len; simpl. lia.
    - destruct (IH (step st u)) as [Ha Hi]. rewrite Ha, Hi. subst step. cbv beta.
      rewrite status_first_flag.
      destruct (Spec.activity_flag u); unfold len; simpl; lia. }
  destruct (G users (Console.mkUserBreakdown ∅ 0%Z 0%Z)) as [Ha Hi].
  rewrite Ha, Hi. simpl. lia.
Qed.

(** The dashboard's health loop counts by [isActive] alone. *)
Lemma health_counts_isActive_only (c : Company.t) :
  exists h,
    Health.components c = Ok h
    /\ Health.user_activity_rate h
       = Spec.activation_rate (Spec.users c) Spec.isActive_flag.
Proof. eexists. split; [apply components_closed_form|reflexivity]. Qed.

(** C9. A user whose [user_status] is set and whose [isActive] is false is
    active by the specification's flag and is counted as active by the
    console report and the chart generator, but as inactive by the
    dashboard's health, benchmark and alert loops, which then raise the
    low-activation alert at 0%. *)
Theorem active_flag_disagreement :
  Spec.activity_flag Example.status_only_user = true
  /\ Console.active_count (Console.analyze_users [Example.status_only_user]) = 1%Z
  /\ (exists q, Charts.active_users_pct Example.status_only_company = Ok q /\ q == 100)
  /\ (exists h, Health.components Example.status_only_company = Ok h
                /\ Health.user_activity_rate h == 0)
  /\ (exists b, Benchmark.metrics Example.status_only_company = Ok b
                /\ Benchmark.user_activation b == 0)
  /\ (exists emitted,
        Alerts.check_company Example.status_only_company [] = Ok emitted
        /\ map Alerts.Message emitted = ["Only 0% of users are active"%string]).
Proof.
  split; [reflexivity|]. split; [reflexivity|].
  split; [eexists; split; [reflexivity|reflexivity]|].
  split; [eexists; split; [apply components_closed_form|reflexivity]|].
  split; [eexists; split; [reflexivity|reflexivity]|].
  eexists. split; [vm_compute; reflexivity|reflexivity].
Qed.

(** ** The empty company set *)

(** C8. On an empty company list the benchmark view raises the key error
    of its first column lookup, while the health, alert, revenue and
    benchmark loops return empty lists. *)
Theorem empty_company_set :
  Benchmark.view [] = Raise (KeyError "User Activation %")
  /\ Benchmark.benchmark_data [] = Ok []
  /\ Health.health_scores [] = Ok []
  /\ Alerts.alerts [] = Ok []
  /\ Revenue.revenue_data [] = Ok [].
Proof. repeat split. Qed.

(** ** Percentiles *)

Lemma insert_sorted_perm (x : Q) (xs : list Q) :
  Permutation (Pandas.insert_sorted x xs) (x :: xs).
Proof.
  induction xs as [|y ys IH]; simpl; [reflexivity|].
  destruct (Qle_bool x y); [reflexivity|].
  rewrite IH. apply perm_swap.
Qed.

Lemma sort_values_perm (xs : list Q) : Permutation (Pandas.sort_values xs) xs.
Proof.
  induction xs as [|x xs IH]; simpl; [reflexivity|].
  rewrite insert_sorted_perm. now constructor.
Qed.

Lemma insert_sorted_sorted (x : Q) (xs : list Q) :
  Sorted Qle xs -> Sorted Qle (Pandas.insert_sorted x xs).
Proof.
  induction xs as [|y ys IH]; intros Hs; simpl.
  - repeat constructor.
  - destruct (Qle_bool x y) eqn:E.
    + apply Qle_bool_iff in E. constructor; [exact Hs|now constructor].
    + assert (Hyx : y <= x).
      { destruct (Qlt_le_dec y x) as [H|H]; [now apply Qlt_le_weak|].
        apply Qle_bool_iff in H. congruence. }
      inversion Hs as [|? ? Hs' Hhd]; subst.
      constructor; [now apply IH|].
      destruct ys as [|z zs]; simpl; [now constructor|].
      destruct (Qle_bool x z); constructor; [exact Hyx|].
      now inversion Hhd.
Qed.

Lemma sort_values_sorted (xs : list Q) : Sorted Qle (Pandas.sort_values xs).
Proof.
  induction xs as [|x xs IH]; simpl; [constructor|].
  now apply insert_sorted_sorted.
Qed.

Lemma sort_values_length (xs : list Q) : length (Pandas.sort_values xs) = length xs.
Proof. apply Permutation_length, sort_values_perm. Qed.

Lemma Qfloor_half (m : Z) : Qfloor (inject_Z m * 0.5) = (m * 5 / 10)%Z.
Proof. reflexivity. Qed.

(** The median is the 50th percentile of the linear-interpolation rule. *)
Lemma median_is_quantile_half (xs : list Q) :
  Pandas.float_eq (Pandas.median xs) (Pandas.quantile xs 0.5).
Proof.
  unfold Pandas.median, Pandas.quantile.
  destruct (Pandas.sort_values xs) as [|x0 rest]; [exact I|].
  set (s := x0 :: rest).
  assert (Hn : (1 <= length s)%nat) by (subst s; simpl; lia).
  clearbody s. cbv zeta. rewrite Qfloor_half. unfold len.
  set (n := length s) in *.
  destruct (Nat.even n) eqn:En; unfold Pandas.float_eq.
  - apply Nat.even_spec in En. destruct En as [k Hk].
    assert (Hi : ((Z.of_nat n - 1) * 5 / 10 = Z.of_nat k - 1)%Z).
    { symmetry. apply (Z.div_unique _ _ _ 5); lia. }
    rewrite Hi.
    replace (Z.to_nat (Z.of_nat k - 1)) with (n / 2 - 1)%nat
      by (rewrite Hk, Nat.mul_comm, Nat.div_mul by lia; lia).
    replace (Z.to_nat (Z.min (Z.of_nat k - 1 + 1) (Z.of_nat n - 1))) with (n / 2)%nat
      by (rewrite Hk, Nat.mul_comm, Nat.div_mul by lia; lia).
    set (lo := nth (n / 2 - 1) s x0). set (hi := nth (n / 2) s x0).
    assert (Hf : inject_Z (Z.of_nat n - 1) * 0.5 - inject_Z (Z.of_nat k - 1) == 1 # 2).
    { unfold Qeq, Qminus, Qplus, Qmult, Qopp, inject_Z; simpl. lia. }
    rewrite Hf. field.
  - assert (Ho : Nat.odd n = true) by (rewrite <- Nat.negb_even, En; reflexivity).
    apply Nat.odd_spec in Ho. destruct Ho as [k Hk].
    assert (Hi : ((Z.of_nat n - 1) * 5 / 10 = Z.of_nat k)%Z).
    { symmetry. apply (Z.div_unique _ _ _ 0); lia. }
    rewrite Hi.
    replace (Z.to_nat (Z.of_nat k)) with (n / 2)%nat.
    2:{ rewrite Hk, Nat2Z.id. symmetry.
        apply (Nat.div_unique _ _ _ 1); lia. }
    set (lo := nth (n / 2) s x0).
    assert (Hf : inject_Z (Z.of_nat n - 1) * 0.5 - inject_Z (Z.of_nat k) == 0).
    { unfold Qeq, Qminus, Qplus, Qmult, Qopp, inject_Z; simpl. lia. }
    rewrite Hf. ring.
Qed.

(** A single value is every percentile of itself. *)
Lemma quantile_singleton (v q : Q) : Pandas.float_eq (Pandas.quantile [v] q) (Pandas.fin v).
Proof.
  unfold Pandas.quantile, Pandas.float_eq.
  cbn [Pandas.sort_values fold_right Pandas.insert_sorted]. cbv zeta.
  assert (H0 : Qfloor (inject_Z (len [v] - 1) * q) = 0%Z) by (destruct q; reflexivity).
  rewrite H0.
  change (v + (v - v) * (inject_Z (len [v] - 1) * q - inject_Z 0) == v).
  ring.
Qed.

Lemma median_singleton (v : Q) : Pandas.median [v] = Pandas.fin v.
Proof. reflexivity. Qed.

Lemma metrics_closed_form (c : Company.t) :
  Benchmark.metrics c
  = Ok (Benchmark.mkMetrics
          (Spec.activation_rate (Spec.users c) (fun u => dict_get (User.isActive u) false))
          (Spec.activation_rate (Spec.instances c)
             (fun i => dict_get (Instance.active i) false))
          (Spec.usersPerChannel c) (Spec.broadcastsPerUser c)
          (Spec.broadcastsPerInstance c)).
Proof.
  unfold Benchmark.metrics. cbv zeta.
  rewrite !guarded_percentage, !bind_Ok, !guarded_ratio, !bind_Ok. reflexivity.
Qed.

Lemma percentiles_nonempty (r : Benchmark.Row) (rows : list Benchmark.Row)
      (label : string) (field : Benchmark.Row -> Q) :
  Benchmark.percentiles (r :: rows) label field
  = Ok (Benchmark.mkPercentiles
          (Pandas.quantile (map field (r :: rows)) 0.75)
          (Pandas.median (map field (r :: rows)))
          (Pandas.quantile (map field (r :: rows)) 0.25)).
Proof. reflexivity. Qed.

Lemma benchmark_rows (companies : list Company.t) :
  exists rows,
    Benchmark.benchmark_data companies = Ok rows
    /\ Forall2 (fun c r => Benchmark.row c = Ok r) companies rows.
Proof.
  unfold Benchmark.benchmark_data.
  apply (for_each_singletons _ _ companies []).
  intros c acc _. unfold Benchmark.row at 1. rewrite metrics_closed_form, bind_Ok.
  eexists. split; [reflexivity|].
  unfold Benchmark.row. now rewrite metrics_closed_form.
Qed.

(** ** Forecast back-fill *)

Lemma growth_factor_positive (rand : nat -> Q) (i : nat) :
  0 <= rand i -> 1 <= Forecast.growth_factor rand i.
Proof.
  intros Hr. unfold Forecast.growth_factor.
  assert (Hi : 0 <= inject_Z (Z.of_nat i))
    by (change 0 with (inject_Z 0); rewrite <- Zle_Qle; lia).
  nra.
Qed.

Lemma backfill_returns (base : Z) (factor : Q) :
  1 <= factor -> exists v, Forecast.backfill base factor = Ok v.
Proof.
  intros Hf. unfold Forecast.backfill. destruct (0 <? base)%Z.
  - rewrite truediv_ok by (intros H; rewrite H in Hf; lra). eexists. reflexivity.
  - eexists. reflexivity.
Qed.

(** The back-fill returns twelve points; the point built at loop index [i]
    carries the [i]-th month label and the totals divided by the [i]-th
    growth factor. *)
Lemma historical_data_by_index (rand : nat -> Q) (metadata : Forecast.Metadata) :
  (forall i, 0 <= rand i) ->
  exists points,
    Forecast.historical_data rand metadata = Ok points
    /\ Forall2
         (fun (entry : nat * Z) (p : Forecast.Point) =>
            Forecast.Month p = snd entry
            /\ Forecast.backfill (dict_get (Forecast.total_users metadata) 0%Z)
                 (Forecast.growth_factor rand (fst entry)) = Ok (Forecast.Users p)
            /\ Forecast.backfill (dict_get (Forecast.total_companies metadata) 0%Z)
                 (Forecast.growth_factor rand (fst entry)) = Ok (Forecast.Companies p)
            /\ Forecast.backfill (dict_get (Forecast.total_instances metadata) 0%Z)
                 (Forecast.growth_factor rand (fst entry)) = Ok (Forecast.Instances p)
            /\ Forecast.backfill (dict_get (Forecast.total_broadcasts metadata) 0%Z)
                 (Forecast.growth_factor rand (fst entry)) = Ok (Forecast.Broadcasts p))
         (Forecast.enumerate Forecast.months) points.
Proof.
  intros Hrand. unfold Forecast.historical_data.
  apply (for_each_singletons _ _ (Forecast.enumerate Forecast.months) []).
  intros [i month] acc _. unfold Forecast.historical_point. cbv zeta.
  pose proof (growth_factor_positive rand i (Hrand i)) as Hf.
  destruct (backfill_returns (dict_get (Forecast.total_users metadata) 0%Z) _ Hf)
    as (u & Hu).
  destruct (backfill_returns (dict_get (Forecast.total_companies metadata) 0%Z) _ Hf)
    as (c & Hc).
  destruct (backfill_returns (dict_get (Forecast.total_instances metadata) 0%Z) _ Hf)
    as (n & Hn).
  destruct (backfill_returns (dict_get (Forecast.total_broadcasts metadata) 0%Z) _ Hf)
    as (b & Hb).
  rewrite Hu, bind_Ok, Hc, bind_Ok, Hn, bind_Ok, Hb, bind_Ok.
  eexists. split; [reflexivity|]. cbn. auto.
Qed.

Lemma int_is_floor (x : Q) : 0 <= x -> Py.int x = Qfloor x.
Proof.
  intros Hx. unfold Py.int, Qfloor. destruct x as [n d].
  apply Z.quot_div_nonneg; [|lia].
  unfold Qle in Hx; simpl in Hx. lia.
Qed.

(** Dividing by a larger factor gives a smaller back-filled value. *)
Lemma backfill_antitone (base : Z) (f1 f2 : Q) (a b : Z) :
  1 <= f1 -> f1 <= f2 ->
  Forecast.backfill base f1 = Ok a -> Forecast.backfill base f2 = Ok b -> (b <= a)%Z.
Proof.
  intros H1 H12. unfold Forecast.backfill. destruct (0 <? base)%Z eqn:Eb.
  - apply Z.ltb_lt in Eb.
    rewrite !truediv_ok by (intros H; rewrite H in *; lra).
    rewrite !bind_Ok, !ret_Ok. intros [= <-] [= <-].
    assert (Hb : 0 < inject_Z base)
      by (change 0 with (inject_Z 0); rewrite <- Zlt_Qlt; exact Eb).
    assert (Hq2 : 0 <= inject_Z base / f2) by (apply Qle_shift_div_l; lra).
    assert (Hq : inject_Z base / f2 <= inject_Z base / f1).
    { apply Qle_shift_div_l; [lra|].
      setoid_replace (inject_Z base / f2 * f1) with ((inject_Z base * f1) / f2)
        using relation Qeq by (field; intros H; rewrite H in *; lra).
      apply Qle_shift_div_r; [lra|]. nra. }
    rewrite !int_is_floor by lra. now apply Qfloor_resp_le.
  - intros [= <-] [= <-]. lia.
Qed.

(** Whatever the random draws in [0, 1), the factor of the most recent
    synthesized month exceeds the factor of the oldest one. *)
Lemma growth_factor_grows_with_index (rand : nat -> Q) :
  (forall i, 0 <= rand i < 1) ->
  Forecast.growth_factor rand 0 < Forecast.growth_factor rand 11.
Proof.
  intros Hr. unfold Forecast.growth_factor.
  pose proof (Hr 0%nat) as H0. pose proof (Hr 11%nat) as H11.
  change (inject_Z (Z.of_nat 0)) with 0. change (inject_Z (Z.of_nat 11)) with 11.
  lra.
Qed.

Lemma predictions_nonnegative (column : list Z) :
  Forall (fun p => 0 <= p) (Forecast.predictions column).
Proof.
  unfold Forecast.predictions. cbv zeta. apply Forall_map, Forall_map.
  apply Forall_forall. intros x _. unfold Py.maximum.
  destruct (Qltb _ 0) eqn:E; [lra|]. now apply Qltb_ge in E.
Qed.

(** C6. With totals of 1000 users and no random perturbation, the month
    twelve periods ago is back-filled with factor 1 and the month one
    period ago with factor 1.55: the synthesized users fall from 1000 to
    645 toward the present, the current total 1000 is the thirteenth
    point, and the fitted line forecasts 685, 667 and 648 users. *)
Theorem backfill_runs_backwards :
  exists points,
    Forecast.df_historical Example.no_noise Example.totals = Ok points
    /\ map (fun p => (Forecast.Month p, Forecast.Users p)) points
       = [(-12, 1000); (-11, 952); (-10, 909); (-9, 869); (-8, 833); (-7, 800);
          (-6, 769); (-5, 740); (-4, 714); (-3, 689); (-2, 666); (-1, 645);
          (0, 1000)]%Z
    /\ Forecast.growth_factor Example.no_noise 0 == 1
    /\ Forecast.growth_factor Example.no_noise 11 == 1.55
    /\ map Forecast.Users (Forecast.forecast_data points) = [685; 667; 648]%Z.
Proof.
  eexists. split; [vm_compute; reflexivity|].
  split; [reflexivity|]. split; [reflexivity|]. split; [reflexivity|].
  vm_compute. reflexivity.
Qed.

(** Whatever the random draws in [0, 1), the month one period ago is
    back-filled with no more users than the month twelve periods ago. *)
Lemma synthesized_history_declines (rand : nat -> Q) (metadata : Forecast.Metadata) :
  (forall i, 0 <= rand i < 1) ->
  exists points oldest newest,
    Forecast.historical_data rand metadata = Ok points
    /\ points !! 0%nat = Some oldest /\ Forecast.Month oldest = (-12)%Z
    /\ points !! 11%nat = Some newest /\ Forecast.Month newest = (-1)%Z
    /\ (Forecast.Users newest <= Forecast.Users oldest)%Z.
Proof.
  intros Hr.
  destruct (historical_data_by_index rand metadata (fun i => proj1 (Hr i)))
    as (points & Hpts & Hall).
  destruct (Forall2_lookup_l _ _ _ 0%nat (0%nat, (-12)%Z) Hall eq_refl)
    as (oldest & Ho & Hmo & Huo & _).
  destruct (Forall2_lookup_l _ _ _ 11%nat (11%nat, (-1)%Z) Hall eq_refl)
    as (newest & Hn & Hmn & Hun & _).
  exists points, oldest, newest. repeat split; try assumption.
  cbn [fst] in Huo, Hun.
  apply (backfill_antitone _ _ _ _ _
           (growth_factor_positive rand 0 (proj1 (Hr 0%nat)))
           (Qlt_le_weak _ _ (growth_factor_grows_with_index rand Hr)) Huo Hun).
Qed.

(** * Properties of the further views *)

(** ** Performance scorecard *)

Lemma scores_closed_form (c : Company.t) :
  Scorecard.scores c
  = Ok (let ua := Spec.activation_rate (Spec.users c)
                    (fun u => dict_get (User.isActive u) false) in
        let ia := Spec.activation_rate (Spec.instances c)
                    (fun i => dict_get (Instance.active i) false) in
        let ru := inject_Z (len (Spec.users c) + len (Spec.instances c)
                            + Spec.broadcasts c)%Z / 3 in
        Scorecard.mkScores ua ia ru (ua * 0.3 + ia * 0.3 + Py.min ru 100 * 0.4)).
Proof.
  unfold Scorecard.scores. cbv zeta.
  rewrite !guarded_percentage, !bind_Ok.
  rewrite (truediv_ok _ 3) by (intros H; discriminate H).
  reflexivity.
Qed.

Lemma min_range (a b : Q) : 0 <= a -> 0 <= b -> 0 <= Py.min a b <= b.
Proof.
  intros Ha Hb. unfold Py.min. destruct (Qltb b a) eqn:E.
  - lra.
  - apply Qltb_ge in E. lra.
Qed.

(** X1. The scorecard's overall score lies in [0, 100] for every company
    whose broadcast counter is not negative, and computing it never
    raises. *)
Theorem scorecard_score_range (c : Company.t) :
  (0 <= dict_get (Company.broadcasts_count c) 0)%Z ->
  exists s, Scorecard.scores c = Ok s /\ 0 <= Scorecard.overall_score s <= 100.
Proof.
  intros Hb. eexists. split; [apply scores_closed_form|].
  cbv zeta. cbn [Scorecard.overall_score].
  pose proof (activation_rate_range (fun u => dict_get (User.isActive u) false)
                (Spec.users c)) as Hu.
  pose proof (activation_rate_range (fun i => dict_get (Instance.active i) false)
                (Spec.instances c)) as Hi.
  set (ua := Spec.activation_rate (Spec.users c) _) in *.
  set (ia := Spec.activation_rate (Spec.instances c) _) in *.
  assert (Hru : 0 <= inject_Z (len (Spec.users c) + len (Spec.instances c)
                               + Spec.broadcasts c)%Z / 3).
  { apply Qle_shift_div_l; [lra|]. rewrite Qmult_0_l.
    change 0 with (inject_Z 0). rewrite <- Zle_Qle.
    unfold len, Spec.broadcasts. lia. }
  pose proof (min_range _ 100 Hru ltac:(lra)) as Hm.
  set (m := Py.min _ 100) in *. lra.
Qed.

Lemma scorecard_score_range_witness :
  exists s,
    Scorecard.scores Example.five_type_company = Ok s
    /\ 0 <= Scorecard.overall_score s <= 100.
Proof.
  apply (scorecard_score_range Example.five_type_company). simpl. lia.
Defined.

(** ** The per-company loops *)

Lemma Forall2_map_eq {A B C : Type} (f : B -> C) (g : A -> C) (xs : list A) (ys : list B) :
  Forall2 (fun x y => f y = g x) xs ys -> map f ys = map g xs.
Proof. induction 1 as [|x y xs ys H _ IH]; simpl; [reflexivity|]. now rewrite H, IH. Qed.

Lemma health_row_returns (c : Company.t) :
  exists r,
    Health.row c = Ok r
    /\ Health.Company_ r = dict_get (Company.name c) "Unknown"%string.
Proof.
  unfold Health.row. rewrite components_closed_form, bind_Ok.
  eexists. split; reflexivity.
Qed.

Lemma revenue_row_returns (c : Company.t) :
  exists r,
    Revenue.row c = Ok r
    /\ Revenue.Company_ r = dict_get (Company.name c) "Unknown"%string
    /\ Revenue.Monthly_Revenue r
       == inject_Z (Revenue.User_Revenue r) + inject_Z (Revenue.Instance_Revenue r)
          + Revenue.Broadcast_Revenue r.
Proof.
  unfold Revenue.row. cbv zeta.
  destruct (0 <? dict_get (Company.users_count c) 0)%Z eqn:Eu.
  - apply Z.ltb_lt in Eu. rewrite truediv_ok by (apply inject_Z_nonzero; lia).
    rewrite bind_Ok. eexists. split; [reflexivity|]. split; reflexivity.
  - eexists. split; [reflexivity|]. split; reflexivity.
Qed.

Lemma scorecard_row_returns (c : Company.t) :
  exists r,
    Scorecard.row c = Ok r
    /\ Scorecard.Company_ r = dict_get (Company.name c) "Unknown"%string.
Proof.
  unfold Scorecard.row. rewrite scores_closed_form, bind_Ok.
  eexists. split; reflexivity.
Qed.

Lemma benchmark_row_returns (c : Company.t) :
  exists r,
    Benchmark.row c = Ok r
    /\ Benchmark.Company_ r = dict_get (Company.name c) "Unknown"%string.
Proof.
  unfold Benchmark.row. rewrite metrics_closed_form, bind_Ok.
  eexists. split; reflexivity.
Qed.

Lemma row_loop {R : Type} (row : Company.t -> result R) (P : Company.t -> R -> Prop)
      (companies : list Company.t) :
  (forall c, exists r, row c = Ok r /\ P c r) ->
  exists rows,
    for_each (fun company acc => r ← row company; mret (acc ++ [r])) companies []
    = Ok rows
    /\ Forall2 P companies rows.
Proof.
  intros Hrow.
  apply (for_each_singletons _ P companies []).
  intros c acc _. destruct (Hrow c) as (r & Hr & HP).
  exists r. rewrite Hr, bind_Ok. split; [reflexivity|exact HP].
Qed.

(** X2. For every company list the health, revenue, benchmark and
    scorecard loops return without raising, with exactly one row per
    company, in input order, labelled with the company's name ("Unknown"
    when the name is absent). *)
Theorem loops_keep_one_row_per_company (companies : list Company.t) :
  let names := map (fun c => dict_get (Company.name c) "Unknown"%string) companies in
  exists hs rs bs ss,
    Health.health_scores companies = Ok hs
    /\ Revenue.revenue_data companies = Ok rs
    /\ Benchmark.benchmark_data companies = Ok bs
    /\ Scorecard.company_scores companies = Ok ss
    /\ map Health.Company_ hs = names
    /\ map Revenue.Company_ rs = names
    /\ map Benchmark.Company_ bs = names
    /\ map Scorecard.Company_ ss = names.
Proof.
  intros names.
  destruct (row_loop Health.row
              (fun c r => Health.Company_ r = dict_get (Company.name c) "Unknown"%string)
              companies health_row_returns) as (hs & Hhs & Fh).
  destruct (row_loop Revenue.row
              (fun c r => Revenue.Company_ r = dict_get (Company.name c) "Unknown"%string)
              companies) as (rs & Hrs & Fr).
  { intros c. destruct (revenue_row_returns c) as (r & Hr & Hn & _). eauto. }
  destruct (row_loop Benchmark.row
              (fun c r => Benchmark.Company_ r
                          = dict_get (Company.name c) "Unknown"%string)
              companies benchmark_row_returns) as (bs & Hbs & Fb).
  destruct (row_loop Scorecard.row
              (fun c r => Scorecard.Company_ r
                          = dict_get (Company.name c) "Unknown"%string)
              companies scorecard_row_returns) as (ss & Hss & Fs).
  exists hs, rs, bs, ss.
  repeat split; try assumption; now apply Forall2_map_eq.
Qed.

(** ** Revenue summary *)

Lemma insert_desc_perm {R : Type} (key : R -> Q) (x : R) (rows : list R) :
  Permutation (RevenueSummary.insert_desc key x rows) (x :: rows).
Proof.
  induction rows as [|y rest IH]; simpl; [reflexivity|].
  destruct (Qle_bool (key y) (key x)); [reflexivity|].
  rewrite IH. apply perm_swap.
Qed.

Lemma sort_desc_perm {R : Type} (key : R -> Q) (rows : list R) :
  Permutation (fold_right (RevenueSummary.insert_desc key) [] rows) rows.
Proof.
  induction rows as [|x rest IH]; simpl; [reflexivity|].
  rewrite insert_desc_perm. now constructor.
Qed.

Lemma column_sum_from {R : Type} (column : R -> Q) (df : list R) (start : Q) :
  fold_left Qplus (map column df) start
  == start + RevenueSummary.column_sum df column.
Proof.
  unfold RevenueSummary.column_sum. revert start.
  induction df as [|r df IH]; intros start; simpl.
  - ring.
  - rewrite IH, (IH (0 + column r)). ring.
Qed.

Lemma column_sum_cons {R : Type} (column : R -> Q) (r : R) (df : list R) :
  RevenueSummary.column_sum (r :: df) column
  == column r + RevenueSummary.column_sum df column.
Proof.
  unfold RevenueSummary.column_sum at 1. simpl. rewrite column_sum_from. ring.
Qed.

(** A column that is row by row the sum of three others has their sums
    as its sum. *)
Lemma column_sum_parts {R : Type} (whole a b c : R -> Q) (df : list R) :
  Forall (fun r => whole r == a r + b r + c r) df ->
  RevenueSummary.column_sum df whole
  == RevenueSummary.column_sum df a + RevenueSummary.column_sum df b
     + RevenueSummary.column_sum df c.
Proof.
  induction 1 as [|r df Hr _ IH].
  - reflexivity.
  - rewrite !column_sum_cons, IH, Hr. ring.
Qed.

Lemma revenue_rows_parts (companies : list Company.t) :
  exists rows,
    Revenue.revenue_data companies = Ok rows
    /\ length rows = length companies
    /\ Forall (fun r => Revenue.Monthly_Revenue r
                        == inject_Z (Revenue.User_Revenue r)
                           + inject_Z (Revenue.Instance_Revenue r)
                           + Revenue.Broadcast_Revenue r) rows.
Proof.
  destruct (row_loop Revenue.row
              (fun _ r => Revenue.Monthly_Revenue r
                          == inject_Z (Revenue.User_Revenue r)
                             + inject_Z (Revenue.Instance_Revenue r)
                             + Revenue.Broadcast_Revenue r)
              companies) as (rows & Hrows & Hall).
  { intros c. destruct (revenue_row_returns c) as (r & Hr & _ & Hp). eauto. }
  exists rows. split; [exact Hrows|]. split.
  - symmetry. eapply Forall2_length, Hall.
  - clear Hrows. induction Hall; constructor; assumption.
Qed.

Lemma numpy_share (part whole : Q) :
  ~ whole == 0 ->
  Numpy.scale (Numpy.truediv part whole) 100 = Numpy.fin (part / whole * 100).
Proof.
  intros Hw. unfold Numpy.truediv.
  destruct (Qeq_bool whole 0) eqn:E; [apply Qeq_bool_eq in E; contradiction|].
  reflexivity.
Qed.

(** X3. Whenever the revenue view returns, the monthly recurring revenue
    is the sum of the user, instance and broadcast revenue totals, the
    annual figure is twelve times it, and, unless the monthly total is
    zero, the three shares of the revenue mix are finite and add up to
    100. *)
Theorem revenue_mix_adds_up (companies : list Company.t) (s : RevenueSummary.Summary) :
  RevenueSummary.view companies = Ok s ->
  RevenueSummary.total_mrr s
  == RevenueSummary.total_user_rev s + RevenueSummary.total_instance_rev s
     + RevenueSummary.total_broadcast_rev s
  /\ RevenueSummary.total_arr s == RevenueSummary.total_mrr s * 12
  /\ (~ RevenueSummary.total_mrr s == 0 ->
      exists p1 p2 p3,
        RevenueSummary.Percentage s = [Numpy.fin p1; Numpy.fin p2; Numpy.fin p3]
        /\ p1 + p2 + p3 == 100).
Proof.
  unfold RevenueSummary.view.
  destruct (revenue_rows_parts companies) as (rows & Hrows & _ & Hparts).
  rewrite Hrows, bind_Ok.
  destruct rows as [|r rows]; [discriminate|].
  cbn [RevenueSummary.sort_values_desc]. rewrite bind_Ok.
  set (df := fold_right _ [] (r :: rows)).
  assert (Hdf : Forall (fun r => Revenue.Monthly_Revenue r
                                 == inject_Z (Revenue.User_Revenue r)
                                    + inject_Z (Revenue.Instance_Revenue r)
                                    + Revenue.Broadcast_Revenue r) df).
  { eapply Permutation_Forall; [|exact Hparts]. symmetry. apply sort_desc_perm. }
  intros [= <-]. unfold RevenueSummary.summary. cbv zeta.
  cbn [RevenueSummary.total_mrr RevenueSummary.total_arr RevenueSummary.total_user_rev
       RevenueSummary.total_instance_rev RevenueSummary.total_broadcast_rev
       RevenueSummary.Percentage].
  pose proof (column_sum_parts Revenue.Monthly_Revenue
                (fun r => inject_Z (Revenue.User_Revenue r))
                (fun r => inject_Z (Revenue.Instance_Revenue r))
                Revenue.Broadcast_Revenue df Hdf) as Hsum.
  set (m := RevenueSummary.column_sum df Revenue.Monthly_Revenue) in *.
  set (u := RevenueSummary.column_sum df _) in *.
  set (i := RevenueSummary.column_sum df (fun r => inject_Z (Revenue.Instance_Revenue r)))
    in *.
  set (b := RevenueSummary.column_sum df Revenue.Broadcast_Revenue) in *.
  split; [exact Hsum|]. split; [reflexivity|].
  intros Hm. rewrite !numpy_share by exact Hm.
  do 3 eexists. split; [reflexivity|].
  rewrite Hsum in Hm |- *. field. exact Hm.
Qed.

Lemma revenue_mix_witness :
  exists s,
    RevenueSummary.view [Example.professional_company] = Ok s
    /\ RevenueSummary.total_mrr s
       == RevenueSummary.total_user_rev s + RevenueSummary.total_instance_rev s
          + RevenueSummary.total_broadcast_rev s
    /\ RevenueSummary.total_arr s == RevenueSummary.total_mrr s * 12.
Proof.
  eexists. split; [reflexivity|].
  destruct (revenue_mix_adds_up [Example.professional_company] _ eq_refl)
    as (H1 & H2 & _).
  split; assumption.
Defined.

(** X4. The revenue view raises the key error of its sort column exactly
    when the company list is empty; on every non-empty list it returns a
    summary. *)
Theorem revenue_view_needs_a_company :
  RevenueSummary.view [] = Raise (KeyError "Monthly Revenue")
  /\ forall (c : Company.t) (cs : list Company.t),
       exists s, RevenueSummary.view (c :: cs) = Ok s.
Proof.
  split; [reflexivity|].
  intros c cs. unfold RevenueSummary.view.
  destruct (revenue_rows_parts (c :: cs)) as (rows & Hrows & Hlen & _).
  rewrite Hrows, bind_Ok.
  destruct rows as [|r rows]; [discriminate Hlen|].
  eexists. reflexivity.
Qed.

(** ** Alert volume and summary *)

Lemma firing_at_most_five (c : Company.t) : (length (Spec.firing c) <= 5)%nat.
Proof.
  unfold Spec.firing, Spec.all_rules.
  rewrite !filter_cons, filter_nil.
  destruct (decide (Spec.condition Spec.NoUsers c)) as [Hn|Hn].
  - assert (Hl : ~ Spec.condition Spec.LowActivation c).
    { simpl in *. intros [Hne _]. destruct (Spec.users c); [tauto|discriminate]. }
    assert (Hm : ~ Spec.condition Spec.ModerateActivation c).
    { simpl in *. intros [Hne _]. destruct (Spec.users c); [tauto|discriminate]. }
    rewrite (decide_False _ _ Hl), (decide_False _ _ Hm).
    repeat case_decide; simpl; lia.
  - destruct (decide (Spec.condition Spec.LowActivation c)) as [Hl|Hl].
    + assert (Hm : ~ Spec.condition Spec.ModerateActivation c)
        by (simpl in *; intros [_ [H _]]; destruct Hl as [_ Hl]; lra).
      rewrite (decide_False _ _ Hm).
      repeat case_decide; simpl; lia.
    + repeat case_decide; simpl; lia.
Qed.

(** X5. One company never gets more than five of the seven alerts, so a
    run over [n] companies emits at most [5 n] alerts; five are reached,
    by a company with 21 inactive users, an inactive instance, no
    broadcast and no channel. *)
Theorem at_most_five_alerts_per_company :
  (forall (c : Company.t) (acc : list Alerts.Alert),
      exists emitted,
        Alerts.check_company c acc = Ok (acc ++ emitted)
        /\ (length emitted <= 5)%nat)
  /\ (forall companies : list Company.t,
        exists alerts,
          Alerts.alerts companies = Ok alerts
          /\ (length alerts <= 5 * length companies)%nat)
  /\ exists emitted,
       Alerts.check_company Sample.neglected_company [] = Ok emitted
       /\ length emitted = 5%nat.
Proof.
  cut ((forall (c : Company.t) (acc : list Alerts.Alert),
           exists emitted,
             Alerts.check_company c acc = Ok (acc ++ emitted)
             /\ (length emitted <= 5)%nat)
       /\ (forall companies : list Company.t,
             exists alerts,
               Alerts.alerts companies = Ok alerts
               /\ (length alerts <= 5 * length companies)%nat)).
  { intros [H1 H2]. split; [exact H1|]. split; [exact H2|].
    eexists. split; [vm_compute; reflexivity|reflexivity]. }
  assert (Hone : forall c acc,
             exists emitted,
               Alerts.check_company c acc = Ok (acc ++ emitted)
               /\ (length emitted <= 5)%nat).
  { intros c acc. destruct (check_company_rules c acc) as (e & He & Hall).
    exists e. split; [exact He|].
    rewrite <- (Forall2_length _ _ _ Hall). apply firing_at_most_five. }
  split; [exact Hone|].
  intros companies. unfold Alerts.alerts.
  destruct (for_each_append Alerts.check_company
              (fun _ emitted => (length emitted <= 5)%nat) companies [] Hone)
    as (groups & Hrun & Hall).
  exists (concat groups). split; [exact Hrun|].
  clear Hrun. induction Hall as [|c e cs gs He _ IH]; simpl; [lia|].
  rewrite length_app. lia.
Qed.

Lemma severity_is_one_of_four (r : Spec.rule) :
  Spec.severity r = "Critical"%string \/ Spec.severity r = "High"%string
  \/ Spec.severity r = "Medium"%string \/ Spec.severity r = "Low"%string.
Proof. destruct r; simpl; tauto. Qed.

Lemma severity_counts_partition (alerts : list Alerts.Alert) :
  Forall (fun a => Alerts.Severity a = "Critical"%string
                   \/ Alerts.Severity a = "High"%string
                   \/ Alerts.Severity a = "Medium"%string
                   \/ Alerts.Severity a = "Low"%string) alerts ->
  (AlertSummary.count_severity alerts "Critical"
   + AlertSummary.count_severity alerts "High"
   + AlertSummary.count_severity alerts "Medium"
   + AlertSummary.count_severity alerts "Low" = len alerts)%Z.
Proof.
  unfold AlertSummary.count_severity, len.
  induction 1 as [|a alerts Ha _ IH]; [reflexivity|].
  cbn [List.filter length].
  destruct Ha as [-> | [-> | [-> | ->]]]; cbn [String.eqb Ascii.eqb Bool.eqb];
    simpl; lia.
Qed.

(** X6. The alert summary exists exactly when at least one alert was
    emitted, and then its Critical, High, Medium and Low counters add up
    to the number of alerts: no alert falls outside the four
    severities. *)
Theorem alert_summary_counts_every_alert (companies : list Company.t) :
  exists alerts,
    Alerts.alerts companies = Ok alerts
    /\ match AlertSummary.summary alerts with
       | Some k =>
           alerts <> []
           /\ (AlertSummary.critical_count k + AlertSummary.high_count k
               + AlertSummary.medium_count k + AlertSummary.low_count k
               = len alerts)%Z
       | None => alerts = []
       end.
Proof.
  unfold Alerts.alerts.
  destruct (for_each_append Alerts.check_company
              (fun c emitted => Forall2 (Spec.emits c) (Spec.firing c) emitted)
              companies [] check_company_rules)
    as (groups & Hrun & Hall).
  exists (concat groups). split; [exact Hrun|].
  assert (Hsev : Forall (fun a => Alerts.Severity a = "Critical"%string
                                  \/ Alerts.Severity a = "High"%string
                                  \/ Alerts.Severity a = "Medium"%string
                                  \/ Alerts.Severity a = "Low"%string)
                   (concat groups)).
  { clear Hrun. induction Hall as [|c e cs gs He _ IH]; simpl; [constructor|].
    apply Forall_app. split; [|exact IH].
    clear IH. induction He as [|r a rs e (_ & _ & Hs & _) _ IHe]; constructor.
    - rewrite Hs. apply severity_is_one_of_four.
    - exact IHe. }
  unfold AlertSummary.summary.
  destruct (concat groups) as [|a rest] eqn:E; [reflexivity|].
  cbn [nonempty]. split; [discriminate|].
  cbn [AlertSummary.critical_count AlertSummary.high_count AlertSummary.medium_count
       AlertSummary.low_count].
  now apply severity_counts_partition.
Qed.

(** * Properties of the console report *)

(** ** Counting users *)

Lemma bump_lookup (counter : gmap string nat) (key k : string) :
  dict_get (Report.bump counter key !! k) 0%nat
  = (dict_get (counter !! k) 0 + if String.eqb key k then 1 else 0)%nat.
Proof.
  unfold Report.bump. destruct (String.eqb key k) eqn:E.
  - apply String.eqb_eq in E. subst k. rewrite lookup_insert_eq. simpl. lia.
  - apply String.eqb_neq in E. rewrite lookup_insert_ne by exact E. lia.
Qed.

Lemma bump_fold_lookup (keys : list string) (counter : gmap string nat) (k : string) :
  dict_get (fold_left Report.bump keys counter !! k) 0%nat
  = (dict_get (counter !! k) 0
     + length (List.filter (fun key => String.eqb key k) keys))%nat.
Proof.
  revert counter. induction keys as [|key keys IH]; intros counter; simpl.
  - lia.
  - rewrite IH, bump_lookup. destruct (String.eqb key k); simpl; lia.
Qed.

Lemma analyze_users_type_counts (users : list User.t) :
  Console.type_counts (Console.analyze_users users)
  = fold_left Report.bump (map Spec.type_name users) ∅.
Proof.
  unfold Console.analyze_users.
  set (step := fun (st : Console.UserBreakdown) (user : User.t) => _).
  assert (G : forall us st,
             Console.type_counts (fold_left step us st)
             = fold_left Report.bump (map Spec.type_name us) (Console.type_counts st)).
  { induction us as [|u us IH]; intros st; [reflexivity|].
    cbn [fold_left map]. rewrite IH. subst step. cbv beta zeta.
    destruct (dict_get (User.user_status u) _); reflexivity. }
  apply G.
Qed.

Lemma filter_map_length {A B : Type} (f : A -> B) (p : B -> bool) (xs : list A) :
  length (List.filter p (map f xs)) = length (List.filter (fun x => p (f x)) xs).
Proof.
  induction xs as [|x xs IH]; simpl; [reflexivity|].
  destruct (p (f x)); simpl; now rewrite IH.
Qed.

(** X7. After the counting loop of [analyze_users], the counter of every
    type name holds the number of users of that type, a user without a
    type counting as "Unknown"; a name no user carries reads as 0. *)
Theorem type_counts_count_users (users : list User.t) (t : string) :
  dict_get (Console.type_counts (Console.analyze_users users) !! t) 0%nat
  = length (List.filter
              (fun u => String.eqb (dict_get (User.user_type_name u) "Unknown"%string) t)
              users).
Proof.
  rewrite analyze_users_type_counts, bump_fold_lookup, lookup_empty.
  cbn [dict_get]. rewrite (filter_map_length Spec.type_name). reflexivity.
Qed.

Lemma filter_partition_length {A : Type} (p : A -> bool) (xs : list A) :
  (length (List.filter p xs) + length (List.filter (fun x => negb (p x)) xs)
   = length xs)%nat.
Proof.
  induction xs as [|x xs IH]; simpl; [reflexivity|].
  destruct (p x); simpl; lia.
Qed.

(** X8. On a non-empty user list [analyze_users] returns; every user is
    counted exactly once, as active when its [user_status] (or, without
    one, its [isActive]) holds and as inactive otherwise, so that the two
    counts add up to the number of users; each of the two rates lies
    between 0 and 100. *)
Theorem analyze_users_partitions (u : User.t) (us : list User.t) :
  exists r,
    Report.analyze_users (u :: us) = Ok r
    /\ Report.active_users r = len (List.filter Spec.activity_flag (u :: us))
    /\ Report.inactive_users r
       = len (List.filter (fun x => negb (Spec.activity_flag x)) (u :: us))
    /\ (Report.active_users r + Report.inactive_users r = len (u :: us))%Z
    /\ 0 <= Report.active_users_pct r <= 100
    /\ 0 <= Report.inactive_users_pct r <= 100.
Proof.
  unfold Report.analyze_users. cbv zeta.
  rewrite !truediv_ok by apply len_cons_nonzero. rewrite !bind_Ok.
  eexists. split; [reflexivity|].
  cbn [Report.active_users Report.inactive_users Report.active_users_pct
       Report.inactive_users_pct].
  destruct (analyze_users_counts (u :: us)) as [Ha Hi]. rewrite Ha, Hi.
  split; [reflexivity|]. split; [reflexivity|]. split.
  - pose proof (filter_partition_length Spec.activity_flag (u :: us)) as Hsum.
    unfold len. lia.
  - split.
    + apply (activation_rate_range Spec.activity_flag (u :: us)).
    + apply (activation_rate_range (fun x => negb (Spec.activity_flag x)) (u :: us)).
Qed.

(** ** The guards of [analyze_companies] *)

Lemma analyze_users_returns (u : User.t) (us : list User.t) :
  exists r, Report.analyze_users (u :: us) = Ok r.
Proof.
  unfold Report.analyze_users. cbv zeta.
  rewrite !truediv_ok by apply len_cons_nonzero. eexists. reflexivity.
Qed.

Lemma analyze_instances_returns (i : InstanceInfo.t) (rest : list InstanceInfo.t) :
  exists r, Report.analyze_instances (i :: rest) = Ok r.
Proof.
  unfold Report.analyze_instances. cbv zeta.
  rewrite truediv_ok by apply len_cons_nonzero. eexists. reflexivity.
Qed.

Lemma analyze_channels_returns (ch : ChannelInfo.t) (rest : list ChannelInfo.t) :
  exists r, Report.analyze_channels (ch :: rest) = Ok r.
Proof.
  unfold Report.analyze_channels. cbv zeta.
  rewrite truediv_ok by apply len_cons_nonzero. eexists. reflexivity.
Qed.

Lemma when_present_returns {A B : Type} (field : option (list A))
      (analyse : list A -> result B) :
  (forall x xs, exists r, analyse (x :: xs) = Ok r) ->
  exists o,
    Report.when_present field analyse = Ok o
    /\ (o = None <-> dict_get field [] = []).
Proof.
  intros Hok. destruct field as [[|x xs]|]; simpl.
  - exists None. tauto.
  - destruct (Hok x xs) as (r & Hr). rewrite Hr. exists (Some r).
    split; [reflexivity|]. split; discriminate.
  - exists None. tauto.
Qed.

Lemma analyze_company_returns (c : Tenant.t) :
  exists r,
    Report.analyze_company c = Ok r
    /\ (Report.user_lines r = None <-> dict_get (Tenant.users c) [] = [])
    /\ (Report.instance_lines r = None <-> dict_get (Tenant.instances c) [] = [])
    /\ (Report.channel_lines r = None <-> dict_get (Tenant.channels c) [] = [])
    /\ (Report.broadcast_lines r = None <-> dict_get (Tenant.broadcasts c) [] = []).
Proof.
  unfold Report.analyze_company.
  destruct (when_present_returns (Tenant.users c) Report.analyze_users
              analyze_users_returns) as (u & Hu & Eu).
  destruct (when_present_returns (Tenant.instances c) Report.analyze_instances
              analyze_instances_returns) as (i & Hi & Ei).
  destruct (when_present_returns (Tenant.channels c) Report.analyze_channels
              analyze_channels_returns) as (ch & Hch & Ech).
  destruct (when_present_returns (Tenant.broadcasts c)
              (fun bs => mret (Report.analyze_broadcasts bs)))
    as (b & Hb & Eb).
  { intros x xs. eexists. reflexivity. }
  rewrite Hu, bind_Ok, Hi, bind_Ok, Hch, bind_Ok, Hb, bind_Ok.
  eexists. split; [reflexivity|]. cbn. tauto.
Qed.

(** X9. Called on an empty list, [analyze_users], [analyze_instances] and
    [analyze_channels] divide by zero; [analyze_companies] calls each one
    only on a present, non-empty collection, so it returns for every
    company list, with one entry per company whose sections are missing
    exactly for the absent or empty collections. *)
Theorem analyze_companies_never_divides_by_zero :
  Report.analyze_users [] = Raise ZeroDivisionError
  /\ Report.analyze_instances [] = Raise ZeroDivisionError
  /\ Report.analyze_channels [] = Raise ZeroDivisionError
  /\ forall companies : list Tenant.t,
       exists lines,
         Report.analyze_companies companies = Ok lines
         /\ Forall2
              (fun c r =>
                 (Report.user_lines r = None <-> dict_get (Tenant.users c) [] = [])
                 /\ (Report.instance_lines r = None
                     <-> dict_get (Tenant.instances c) [] = [])
                 /\ (Report.channel_lines r = None
                     <-> dict_get (Tenant.channels c) [] = [])
                 /\ (Report.broadcast_lines r = None
                     <-> dict_get (Tenant.broadcasts c) [] = []))
              companies lines.
Proof.
  split; [reflexivity|]. split; [reflexivity|]. split; [reflexivity|].
  intros companies. unfold Report.analyze_companies.
  apply (for_each_singletons _ _ companies []).
  intros c acc _. destruct (analyze_company_returns c) as (r & Hr & Hsections).
  exists r. rewrite Hr, bind_Ok. split; [reflexivity|exact Hsections].
Qed.

(** ** Top channels *)

Lemma insert_desc_sorted {R : Type} (key : R -> Q) (x : R) (rows : list R) :
  StronglySorted (fun a b => key b <= key a) rows ->
  StronglySorted (fun a b => key b <= key a) (RevenueSummary.insert_desc key x rows).
Proof.
  induction rows as [|y rest IH]; intros Hs; simpl.
  - repeat constructor.
  - inversion Hs as [|? ? Hrest Hy]; subst.
    destruct (Qle_bool (key y) (key x)) eqn:E.
    + apply Qle_bool_iff in E. constructor; [exact Hs|].
      constructor; [exact E|].
      eapply Forall_impl; [exact Hy|]. intros b Hb. simpl in Hb. lra.
    + assert (Hxy : key x <= key y).
      { destruct (Qlt_le_dec (key x) (key y)) as [H|H]; [lra|].
        apply Qle_bool_iff in H. congruence. }
      constructor; [now apply IH|].
      eapply Permutation_Forall; [symmetry; apply insert_desc_perm|].
      constructor; assumption.
Qed.

Lemma sort_desc_sorted {R : Type} (key : R -> Q) (rows : list R) :
  StronglySorted (fun a b => key b <= key a)
    (fold_right (RevenueSummary.insert_desc key) [] rows).
Proof.
  induction rows as [|x rest IH]; simpl; [constructor|].
  now apply insert_desc_sorted.
Qed.

Lemma sorted_take_dominates_drop {A : Type} (R : A -> A -> Prop) (l : list A) (n : nat) :
  StronglySorted R l ->
  StronglySorted R (take n l)
  /\ Forall (fun a => Forall (R a) (drop n l)) (take n l).
Proof.
  intros Hs. revert n. induction Hs as [|a l Hs IH Ha]; intros n.
  - destruct n; simpl; split; constructor.
  - destruct n as [|n]; simpl; [split; constructor|].
    destruct (IH n) as [IH1 IH2]. split.
    + constructor; [exact IH1|].
      rewrite <- (take_drop n l) in Ha. now apply Forall_app in Ha.
    + constructor; [|exact IH2].
      rewrite <- (take_drop n l) in Ha. now apply Forall_app in Ha.
Qed.

(** X10. On a non-empty channel list [analyze_channels] returns, and its
    "top channels" are [min 5 n] of the [n] channels, listed by
    descending speed-message count; the channels left out are exactly
    the remaining ones, none of which has more speed messages than a
    listed one. *)
Theorem top_channels_are_the_top (ch : ChannelInfo.t) (rest : list ChannelInfo.t) :
  exists r others,
    Report.analyze_channels (ch :: rest) = Ok r
    /\ length (Report.channels_by_msgs r) = Nat.min 5 (length (ch :: rest))
    /\ Permutation (Report.channels_by_msgs r ++ others) (ch :: rest)
    /\ StronglySorted
         (fun a b => (Report.speed_messages b <= Report.speed_messages a)%Z)
         (Report.channels_by_msgs r)
    /\ Forall
         (fun a =>
            Forall (fun b => (Report.speed_messages b <= Report.speed_messages a)%Z)
              others)
         (Report.channels_by_msgs r).
Proof.
  unfold Report.analyze_channels. cbv zeta.
  rewrite truediv_ok by apply len_cons_nonzero. rewrite bind_Ok.
  eexists. exists (drop 5 (Report.sorted_by_msgs (ch :: rest))).
  split; [reflexivity|]. cbn [Report.channels_by_msgs].
  assert (Hperm : Permutation (Report.sorted_by_msgs (ch :: rest)) (ch :: rest))
    by apply sort_desc_perm.
  split.
  { rewrite length_take, (Permutation_length Hperm). reflexivity. }
  split; [now rewrite take_drop|].
  pose proof (sort_desc_sorted (fun c => inject_Z (Report.speed_messages c)) (ch :: rest))
    as Hsorted.
  fold (Report.sorted_by_msgs (ch :: rest)) in Hsorted.
  assert (Hz : StronglySorted
                 (fun a b => (Report.speed_messages b <= Report.speed_messages a)%Z)
                 (Report.sorted_by_msgs (ch :: rest))).
  { clear Hperm. induction Hsorted as [|a l _ IH Ha]; constructor; [exact IH|].
    eapply Forall_impl; [exact Ha|]. intros b Hb. simpl in Hb.
    now rewrite <- Zle_Qle in Hb. }
  apply sorted_take_dominates_drop. exact Hz.
Qed.

(** ** Recommendations against dashboard alerts *)

Lemma core_instances (c : Tenant.t) :
  Spec.instances (Tenant.core c)
  = map InstanceInfo.core (dict_get (Tenant.instances c) []).
Proof. unfold Spec.instances, Tenant.core. simpl. now destruct (Tenant.instances c). Qed.

Lemma core_users (c : Tenant.t) :
  Spec.users (Tenant.core c) = dict_get (Tenant.users c) [].
Proof. reflexivity. Qed.

Lemma half_of_count (a n : Z) :
  inject_Z a < inject_Z n * 0.5 <-> (2 * a < n)%Z.
Proof. unfold Qlt. simpl. lia. Qed.

Lemma ratio_above (k : Q) (i n : Z) :
  (0 < n)%Z -> (k < inject_Z i / inject_Z n <-> k * inject_Z n < inject_Z i).
Proof.
  intros Hn.
  assert (Hpos : 0 < inject_Z n) by (change 0 with (inject_Z 0); now rewrite <- Zlt_Qlt).
  assert (Hmul : inject_Z i / inject_Z n * inject_Z n == inject_Z i) by (field; lra).
  rewrite <- (Qmult_lt_r k (inject_Z i / inject_Z n) (inject_Z n) Hpos).
  now rewrite Hmul.
Qed.

(** X11. The console report recommends reviewing inactive instances for
    a company exactly when the dashboard raises its idle-instance alert
    for the same company: "fewer than half active" and "more than half
    inactive" are the same test. *)
Theorem low_utilization_matches_idle_alert (c : Tenant.t) (recs : list string) :
  (Spec.condition Spec.IdleInstancePool (Tenant.core c)
   /\ exists msg, Report.check_instances c recs = recs ++ [msg])
  \/ (~ Spec.condition Spec.IdleInstancePool (Tenant.core c)
      /\ Report.check_instances c recs = recs).
Proof.
  unfold Report.check_instances. cbv zeta.
  cbn [Spec.condition]. unfold Spec.inactiveInstances, Spec.count.
  rewrite core_instances.
  destruct (dict_get (Tenant.instances c) []) as [|i rest].
  - right. split; [|reflexivity]. simpl. tauto.
  - cbn [nonempty]. set (l := i :: rest).
    rewrite sum_ones_filter.
    rewrite (filter_map_length InstanceInfo.core), length_map.
    pose proof (filter_partition_length
                  (fun i => dict_get (InstanceInfo.active i) false) l) as Hsum.
    change (fun x => negb (Spec.instance_active (InstanceInfo.core x)))
      with (fun x : InstanceInfo.t => negb (dict_get (InstanceInfo.active x) false)).
    set (a := length (List.filter (fun i => dict_get (InstanceInfo.active i) false) l))
      in *.
    set (k := length (List.filter
                        (fun x => negb (dict_get (InstanceInfo.active x) false)) l)) in *.
    assert (Hn : (0 < Z.of_nat (length l))%Z) by (subst l; simpl; lia).
    assert (Hne : map InstanceInfo.core l <> []) by (subst l; discriminate).
    unfold len. set (n := length l) in *. clearbody a k n. clearbody l.
    assert (Hiff : 0.5 < inject_Z (Z.of_nat k) / inject_Z (Z.of_nat n)
                   <-> inject_Z (Z.of_nat a) < inject_Z (Z.of_nat n) * 0.5).
    { rewrite (ratio_above 0.5 _ _ Hn), half_of_count.
      unfold Qlt. cbn. lia. }
    destruct (Qltb (inject_Z (Z.of_nat a)) (inject_Z (Z.of_nat n) * 0.5)) eqn:E.
    + apply Qltb_lt in E. left. split; [|eexists; reflexivity].
      split; [exact Hne|]. now apply Hiff.
    + apply Qltb_ge in E. right. split; [|reflexivity].
      intros [_ H]. apply Hiff in H. lra.
Qed.

Lemma filter_ext_Forall {A : Type} (p q : A -> bool) (xs : list A) :
  Forall (fun x => p x = q x) xs -> List.filter p xs = List.filter q xs.
Proof.
  induction 1 as [|x xs Hx _ IH]; simpl; [reflexivity|]. now rewrite Hx, IH.
Qed.

(** X12. For a company none of whose users carries a [user_status], the
    console report flags a high inactive-user rate exactly when the
    dashboard raises a low or moderate activation alert: "more than 30%
    inactive" and "less than 70% active" are the same test. *)
Theorem inactive_rate_matches_activation_alert (c : Tenant.t) (recs : list string) :
  Forall (fun u => User.user_status u = None) (dict_get (Tenant.users c) []) ->
  ((Spec.condition Spec.LowActivation (Tenant.core c)
    \/ Spec.condition Spec.ModerateActivation (Tenant.core c))
   /\ exists msg, Report.check_users c recs = recs ++ [msg])
  \/ (~ (Spec.condition Spec.LowActivation (Tenant.core c)
         \/ Spec.condition Spec.ModerateActivation (Tenant.core c))
      /\ Report.check_users c recs = recs).
Proof.
  intros Hstatus. unfold Report.check_users. cbv zeta.
  cbn [Spec.condition]. unfold Spec.userActivation. rewrite core_users.
  destruct (dict_get (Tenant.users c) []) as [|u us].
  - right. split; [|reflexivity]. simpl. tauto.
  - cbn [nonempty]. set (l := u :: us) in *.
    rewrite sum_ones_filter.
    assert (Hflag : List.filter
                      (fun u => negb (dict_get (User.user_status u)
                                        (dict_get (User.isActive u) false))) l
                    = List.filter (fun u => negb (Spec.isActive_flag u)) l).
    { apply filter_ext_Forall. eapply Forall_impl; [exact Hstatus|].
      intros x Hx. simpl in Hx. unfold Spec.isActive_flag. now rewrite Hx. }
    rewrite Hflag.
    pose proof (filter_partition_length Spec.isActive_flag l) as Hsum.
    assert (Hrate : Spec.activation_rate l Spec.isActive_flag
                    = inject_Z (Z.of_nat (length (List.filter Spec.isActive_flag l)))
                      / inject_Z (Z.of_nat (length l)) * 100) by reflexivity.
    rewrite Hrate.
    set (a := length (List.filter Spec.isActive_flag l)) in *.
    set (k := length (List.filter (fun u => negb (Spec.isActive_flag u)) l)) in *.
    assert (Hn : (0 < Z.of_nat (length l))%Z) by (subst l; simpl; lia).
    assert (Hne : l <> []) by (subst l; discriminate).
    unfold len. set (n := length l) in *. clearbody a k n. clearbody l.
    assert (Hpos : 0 < inject_Z (Z.of_nat n))
      by (change 0 with (inject_Z 0); now rewrite <- Zlt_Qlt).
    assert (Hiff : inject_Z (Z.of_nat a) / inject_Z (Z.of_nat n) * 100 < 70
                   <-> inject_Z (Z.of_nat n) * 0.3 < inject_Z (Z.of_nat k)).
    { assert (Hk : inject_Z (Z.of_nat k)
                   == inject_Z (Z.of_nat n) - inject_Z (Z.of_nat a)).
      { unfold Qeq. simpl. lia. }
      rewrite Hk.
      assert (Hmul : inject_Z (Z.of_nat a) / inject_Z (Z.of_nat n) * inject_Z (Z.of_nat n)
                     == inject_Z (Z.of_nat a)) by (field; lra).
      set (q := inject_Z (Z.of_nat a) / inject_Z (Z.of_nat n)) in *.
      set (N := inject_Z (Z.of_nat n)) in *. set (A := inject_Z (Z.of_nat a)) in *.
      split; intros H; nra. }
    destruct (Qgtb (inject_Z (Z.of_nat k)) (inject_Z (Z.of_nat n) * 0.3)) eqn:E.
    + apply Qgtb_gt in E. apply Hiff in E. left. split; [|eexists; reflexivity].
      destruct (Qlt_le_dec (inject_Z (Z.of_nat a) / inject_Z (Z.of_nat n) * 100) 50)
        as [Hlow|Hmid]; [left|right]; split; auto.
    + apply Qgtb_le in E. right. split; [|reflexivity].
      intros [[_ H]|[_ [_ H]]]; [assert (H' := H)|assert (H' := H)];
        (assert (Hlt : inject_Z (Z.of_nat a) / inject_Z (Z.of_nat n) * 100 < 70) by lra);
        apply Hiff in Hlt; lra.
Qed.

Lemma inactive_rate_witness :
  (Spec.condition Spec.LowActivation (Tenant.core Sample.quiet_tenant)
   \/ Spec.condition Spec.ModerateActivation (Tenant.core Sample.quiet_tenant))
  /\ exists msg, Report.check_users Sample.quiet_tenant [] = [msg].
Proof.
  destruct (inactive_rate_matches_activation_alert Sample.quiet_tenant [])
    as [H|[_ H]].
  - repeat constructor.
  - exact H.
  - discriminate H.
Defined.

(** ** Platform activity summary *)

Lemma count_users_inner (us : list User.t) (st : Z * Z) :
  fold_left
    (fun st user =>
       let total_users := (snd st + 1)%Z in
       if dict_get (User.user_status user) (dict_get (User.isActive user) false)
       then ((fst st + 1)%Z, total_users)
       else (fst st, total_users))
    us st
  = ((fst st + len (List.filter Spec.activity_flag us))%Z, (snd st + len us)%Z).
Proof.
  revert st. induction us as [|u us IH]; intros [a t]; simpl.
  - unfold len; simpl. f_equal; lia.
  - rewrite IH, status_first_flag.
    destruct (Spec.activity_flag u); unfold len; simpl; f_equal; lia.
Qed.

Lemma count_users_outer (companies : list Tenant.t) (st : Z * Z) :
  fold_left
    (fun outer c =>
       fold_left
         (fun st user =>
            let total_users := (snd st + 1)%Z in
            if dict_get (User.user_status user) (dict_get (User.isActive user) false)
            then ((fst st + 1)%Z, total_users)
            else (fst st, total_users))
         (dict_get (Tenant.users c) []) outer)
    companies st
  = ((fst st
      + len (List.filter Spec.activity_flag
               (flat_map (fun c => dict_get (Tenant.users c) []) companies)))%Z,
     (snd st + len (flat_map (fun c => dict_get (Tenant.users c) []) companies))%Z).
Proof.
  revert st. induction companies as [|c cs IH]; intros [a t].
  - unfold len; simpl. f_equal; lia.
  - cbn [fold_left flat_map]. rewrite count_users_inner, IH.
    rewrite List.filter_app. unfold len. rewrite !length_app. simpl. f_equal; lia.
Qed.

(** X13. The activity summary of the console report returns for every
    company list: it counts every user of every company once, the active
    ones by [user_status] first, so the active total never exceeds the
    user total; the platform percentage is printed exactly when there is
    at least one user, and then lies between 0 and 100. *)
Theorem activity_summary_totals (companies : list Tenant.t) :
  let everyone := flat_map (fun c => dict_get (Tenant.users c) []) companies in
  exists s,
    Report.activity_summary companies = Ok s
    /\ Report.total_users s = len everyone
    /\ Report.total_active_users s = len (List.filter Spec.activity_flag everyone)
    /\ (0 <= Report.total_active_users s <= Report.total_users s)%Z
    /\ (0 <= Report.active_companies s <= Report.total_companies s)%Z
    /\ match Report.platform_active_pct s with
       | Some p => everyone <> [] /\ 0 <= p <= 100
       | None => everyone = []
       end.
Proof.
  intros everyone. unfold Report.activity_summary. cbv zeta.
  rewrite count_users_outer. cbn [fst snd]. fold everyone.
  rewrite !Z.add_0_l.
  pose proof (filter_length_le Spec.activity_flag everyone) as Hle.
  assert (Hcomp : (0 <= sum_ones (fun c => dict_get (Tenant.isActive c) false) companies
                   <= len companies)%Z).
  { rewrite sum_ones_filter. unfold len.
    pose proof (filter_length_le (fun c => dict_get (Tenant.isActive c) false) companies).
    lia. }
  destruct everyone as [|u us] eqn:Eall.
  - cbn. eexists. split; [reflexivity|]. cbn. repeat split; try lia; reflexivity.
  - assert (Hpos : (0 <? len (u :: us))%Z = true)
      by (apply Z.ltb_lt; unfold len; simpl; lia).
    rewrite Hpos, truediv_ok by apply len_cons_nonzero.
    rewrite bind_Ok. eexists. split; [reflexivity|].
    cbn [Report.total_users Report.total_active_users Report.active_companies
         Report.total_companies Report.platform_active_pct].
    unfold len in *.
    split; [reflexivity|]. split; [reflexivity|]. split; [lia|]. split; [exact Hcomp|].
    split; [discriminate|].
    apply (activation_rate_range Spec.activity_flag (u :: us)).
Qed.

(** ** Labels *)

Lemma text_prefix_len (n : nat) (s : string) :
  Text.len (Text.prefix n s) = Nat.min n (Text.len s).
Proof.
  revert n. induction s as [|b s IH]; intros n; simpl.
  - now rewrite Nat.min_0_r.
  - destruct (Text.is_continuation b) eqn:E; simpl.
    + rewrite E. apply IH.
    + destruct n as [|n]; simpl; [reflexivity|]. rewrite E. now rewrite IH.
Qed.

Lemma text_len_app (s t : string) :
  Text.len (s +:+ t) = (Text.len s + Text.len t)%nat.
Proof.
  induction s as [|b s IH]; simpl; [reflexivity|].
  destruct (Text.is_continuation b); simpl; now rewrite IH.
Qed.

(** X14. Counted in characters, not bytes, a chart label never has more
    than 15 characters and a label of the console comparison table never
    more than 20, the width of its column.  A name within the limit is
    shown unchanged, also when its characters take several bytes each; a
    longer one is cut to exactly 15, respectively 20, characters, the
    last three being the ellipsis. *)
Theorem labels_fit (c : Tenant.t) :
  (Text.len (Plots.chart_label c) <= 15)%nat
  /\ (Text.len (Report.table_label c) <= 20)%nat
  /\ (forall name, Tenant.name c = Some name ->
        ((Text.len name <= 15)%nat -> Plots.chart_label c = name)
        /\ ((15 < Text.len name)%nat ->
            Plots.chart_label c = Text.prefix 12 name +:+ "..."
            /\ Text.len (Plots.chart_label c) = 15%nat)
        /\ ((Text.len name <= 20)%nat -> Report.table_label c = name)
        /\ ((20 < Text.len name)%nat ->
            Report.table_label c = Text.prefix 17 name +:+ "..."
            /\ Text.len (Report.table_label c) = 20%nat))
  /\ Plots.chart_label Sample.two_byte_tenant = "شركة النور مصر"%string
  /\ Plots.chart_label Sample.long_name_tenant = "Société Géné..."%string
  /\ Report.table_label Sample.long_name_tenant = "Société Générale ..."%string.
Proof.
  assert (Hdots : Text.len "..." = 3%nat) by reflexivity.
  unfold Plots.chart_label, Report.table_label. cbv zeta.
  split; [|split; [|split]].
  - destruct (15 <? _)%Z eqn:E.
    + apply Z.ltb_lt in E. rewrite text_len_app, text_prefix_len, Hdots. lia.
    + apply Z.ltb_ge in E. lia.
  - destruct (Tenant.name c) as [name|]; cbn [dict_get].
    + destruct (20 <? _)%Z eqn:E.
      * apply Z.ltb_lt in E. rewrite text_len_app, text_prefix_len, Hdots. lia.
      * apply Z.ltb_ge in E. lia.
    + simpl. lia.
  - intros name ->. cbn [dict_get].
    split; [|split; [|split]]; intros Hlen.
    + destruct (15 <? _)%Z eqn:E; [apply Z.ltb_lt in E; lia|reflexivity].
    + destruct (15 <? _)%Z eqn:E; [|apply Z.ltb_ge in E; lia].
      split; [reflexivity|]. rewrite text_len_app, text_prefix_len, Hdots. lia.
    + destruct (20 <? _)%Z eqn:E; [apply Z.ltb_lt in E; lia|reflexivity].
    + destruct (20 <? _)%Z eqn:E; [|apply Z.ltb_ge in E; lia].
      split; [reflexivity|]. rewrite text_len_app, text_prefix_len, Hdots. lia.
  - repeat split; vm_compute; reflexivity.
Qed.

(** ** Resource utilization chart *)

(** X15. The resource-utilization figures of the chart generator never
    raise: a counter that is zero or negative gives a ratio of 0, an
    absent channel or instance counter is read as 1, so that the ratio is
    the numerator itself, and the instance utilization lies between 0 and
    100, being 0 without instances. *)
Theorem chart_utilization_is_guarded (c : Tenant.t) :
  exists r,
    Plots.utilization c = Ok r
    /\ ((dict_get (Tenant.channels_count c) 1 <= 0)%Z -> Plots.users_per_channel r = 0)
    /\ (Tenant.channels_count c = None ->
        Plots.users_per_channel r == inject_Z (dict_get (Tenant.users_count c) 0%Z))
    /\ ((dict_get (Tenant.instances_count c) 1 <= 0)%Z ->
        Plots.broadcasts_per_instance r = 0)
    /\ (Tenant.instances_count c = None ->
        Plots.broadcasts_per_instance r
        == inject_Z (dict_get (Tenant.broadcasts_count c) 0%Z))
    /\ 0 <= Plots.instances_utilization r <= 100
    /\ (dict_get (Tenant.instances c) [] = [] -> Plots.instances_utilization r = 0).
Proof.
  unfold Plots.utilization. cbv zeta.
  rewrite (guarded_percentage (fun i => dict_get (InstanceInfo.active i) false)).
  set (ch := dict_get (Tenant.channels_count c) 1%Z).
  set (ic := dict_get (Tenant.instances_count c) 1%Z).
  assert (Hch : forall num,
             exists v,
               (if (0 <? ch)%Z then truediv (inject_Z num) (inject_Z ch) else mret 0)
               = Ok v
               /\ ((ch <= 0)%Z -> v = 0) /\ (ch = 1%Z -> v == inject_Z num)).
  { intros num. destruct (0 <? ch)%Z eqn:E.
    - apply Z.ltb_lt in E. rewrite truediv_ok by (apply inject_Z_nonzero; lia).
      eexists. split; [reflexivity|]. split; [lia|]. intros ->. field.
    - apply Z.ltb_ge in E. eexists. split; [reflexivity|]. split; [reflexivity|]. lia. }
  assert (Hic : forall num,
             exists v,
               (if (0 <? ic)%Z then truediv (inject_Z num) (inject_Z ic) else mret 0)
               = Ok v
               /\ ((ic <= 0)%Z -> v = 0) /\ (ic = 1%Z -> v == inject_Z num)).
  { intros num. destruct (0 <? ic)%Z eqn:E.
    - apply Z.ltb_lt in E. rewrite truediv_ok by (apply inject_Z_nonzero; lia).
      eexists. split; [reflexivity|]. split; [lia|]. intros ->. field.
    - apply Z.ltb_ge in E. eexists. split; [reflexivity|]. split; [reflexivity|]. lia. }
  destruct (Hch (dict_get (Tenant.users_count c) 0%Z)) as (u & Hu & Hu0 & Hu1).
  destruct (Hic (dict_get (Tenant.broadcasts_count c) 0%Z)) as (b & Hb & Hb0 & Hb1).
  rewrite Hu, !bind_Ok, Hb, bind_Ok.
  eexists. split; [reflexivity|].
  cbn [Plots.users_per_channel Plots.broadcasts_per_instance Plots.instances_utilization].
  split; [exact Hu0|]. split.
  { intros Hnone. apply Hu1. subst ch. now rewrite Hnone. }
  split; [exact Hb0|]. split.
  { intros Hnone. apply Hb1. subst ic. now rewrite Hnone. }
  split; [apply activation_rate_range|].
  intros ->. reflexivity.
Qed.

(** * Properties of the forecast figures *)

Lemma int_nonnegative (x : Q) : 0 <= x -> (0 <= Py.int x)%Z.
Proof. intros Hx. rewrite int_is_floor by exact Hx. now apply (Qfloor_resp_le 0 x). Qed.

Lemma backfill_bounds (base : Z) (factor : Q) (v : Z) :
  1 <= factor -> Forecast.backfill base factor = Ok v ->
  (0 <= v <= Z.max 0 base)%Z.
Proof.
  intros Hf. unfold Forecast.backfill. destruct (0 <? base)%Z eqn:Eb.
  - apply Z.ltb_lt in Eb.
    rewrite truediv_ok by (intros H; rewrite H in Hf; lra).
    rewrite bind_Ok, ret_Ok. intros [= <-].
    assert (Hb : 0 < inject_Z base)
      by (change 0 with (inject_Z 0); now rewrite <- Zlt_Qlt).
    assert (H0 : 0 <= inject_Z base / factor) by (apply Qle_shift_div_l; lra).
    assert (H1 : inject_Z base / factor <= inject_Z base)
      by (apply Qle_shift_div_r; [lra|nra]).
    split; [now apply int_nonnegative|].
    rewrite int_is_floor by exact H0.
    apply (Qfloor_resp_le _ _) in H1. rewrite Qfloor_Z in H1. lia.
  - apply Z.ltb_ge in Eb. intros [= <-]. lia.
Qed.

(** X16. For every random source with non-negative draws, each of the
    twelve synthesized months carries, for every metric, a value between
    0 and the current total: the back-fill never invents more than the
    present and never goes negative. *)
Theorem backfill_stays_below_current (rand : nat -> Q) (metadata : Forecast.Metadata) :
  (forall i, 0 <= rand i) ->
  exists points,
    Forecast.historical_data rand metadata = Ok points
    /\ length points = 12%nat
    /\ Forall
         (fun p =>
            (0 <= Forecast.Users p
             <= Z.max 0 (dict_get (Forecast.total_users metadata) 0))%Z
            /\ (0 <= Forecast.Companies p
                <= Z.max 0 (dict_get (Forecast.total_companies metadata) 0))%Z
            /\ (0 <= Forecast.Instances p
                <= Z.max 0 (dict_get (Forecast.total_instances metadata) 0))%Z
            /\ (0 <= Forecast.Broadcasts p
                <= Z.max 0 (dict_get (Forecast.total_broadcasts metadata) 0))%Z)
         points.
Proof.
  intros Hrand.
  destruct (historical_data_by_index rand metadata Hrand) as (points & Hpts & Hall).
  exists points. split; [exact Hpts|]. split.
  - rewrite <- (Forall2_length _ _ _ Hall). reflexivity.
  - clear Hpts. induction Hall as [|[i month] p es ps (_ & Hu & Hc & Hi & Hb) _ IH];
      constructor; [|exact IH].
    pose proof (growth_factor_positive rand i (Hrand i)) as Hf.
    cbn [fst] in *.
    repeat split; eapply backfill_bounds; eauto.
Qed.

Lemma backfill_stays_below_current_witness :
  exists points,
    Forecast.historical_data Example.no_noise Example.totals = Ok points
    /\ length points = 12%nat.
Proof.
  destruct (backfill_stays_below_current Example.no_noise Example.totals)
    as (points & Hpts & Hlen & _).
  - intros i. unfold Example.no_noise. lra.
  - exists points. split; assumption.
Defined.

Lemma growth_returns (current forecast : Z) :
  (0 <= forecast)%Z -> exists g, Growth.growth current forecast = Ok g /\ -100 <= g.
Proof.
  intros Hf. unfold Growth.growth. destruct (0 <? current)%Z eqn:Ec.
  - apply Z.ltb_lt in Ec. rewrite truediv_ok by (apply inject_Z_nonzero; lia).
    rewrite bind_Ok. eexists. split; [reflexivity|].
    assert (Hc : 0 < inject_Z current)
      by (change 0 with (inject_Z 0); now rewrite <- Zlt_Qlt).
    assert (Hq : -1 <= inject_Z (forecast - current) / inject_Z current).
    { apply Qle_shift_div_l; [exact Hc|].
      assert (H : inject_Z (- current) <= inject_Z (forecast - current))
        by (rewrite <- Zle_Qle; lia).
      rewrite inject_Z_opp in H. lra. }
    lra.
  - eexists. split; [reflexivity|]. simpl. lra.
Qed.

Lemma last_nonnegative (column : list Z) :
  Forall (fun v => (0 <= v)%Z) column -> (0 <= Growth.iloc_last column)%Z.
Proof.
  unfold Growth.iloc_last. induction 1 as [|v vs Hv Hvs IH]; simpl; [lia|].
  destruct vs; [exact Hv|exact IH].
Qed.

Lemma forecast_rows_nonnegative (df : list Forecast.Point) :
  length (Forecast.forecast_data df) = 3%nat
  /\ Forall (fun p => (0 <= Forecast.Users p)%Z /\ (0 <= Forecast.Companies p)%Z
                      /\ (0 <= Forecast.Instances p)%Z
                      /\ (0 <= Forecast.Broadcasts p)%Z)
       (Forecast.forecast_data df).
Proof.
  split; [reflexivity|].
  assert (Hnth : forall column i, (0 <= Py.int (nth i (Forecast.predictions column) 0%Q))%Z).
  { intros column i. apply int_nonnegative.
    pose proof (predictions_nonnegative column) as Hall.
    destruct (nth_in_or_default i (Forecast.predictions column) 0) as [Hin | Hd]; [|rewrite Hd; lra].
    rewrite Forall_forall in Hall. apply Hall. now apply list_elem_of_In. }
  unfold Forecast.forecast_data. cbv zeta. cbn [seq map].
  repeat constructor; apply Hnth.
Qed.

Lemma round_half_even_nonnegative (x : Q) : 0 <= x -> (0 <= round_half_even x)%Z.
Proof.
  intros Hx. unfold round_half_even.
  pose proof (Qfloor_resp_le 0 x Hx) as Hfl. change (Qfloor 0) with 0%Z in Hfl.
  repeat destruct (Qltb _ _); try destruct (Z.even _); lia.
Qed.

Lemma round1_nonnegative (x : Q) : 0 <= x -> 0 <= round1 x.
Proof.
  intros Hx. unfold round1.
  assert (H : (0 <= round_half_even (x * 10))%Z)
    by (apply round_half_even_nonnegative; lra).
  apply Qle_shift_div_l; [lra|]. rewrite Qmult_0_l.
  change 0 with (inject_Z 0). now rewrite <- Zle_Qle.
Qed.

Lemma growth_rate_returns (metric : string) (column : list Z) :
  ((0 < Growth.iloc_first column)%Z ->
   (Growth.iloc_first column <= Growth.iloc_last column)%Z) ->
  exists r,
    Growth.growth_rate metric column = Ok r
    /\ Growth.Metric r = metric /\ 0 <= Growth.Growth_12M r.
Proof.
  intros Hle. unfold Growth.growth_rate. cbv zeta.
  destruct (0 <? Growth.iloc_first column)%Z eqn:E.
  - apply Z.ltb_lt in E. specialize (Hle E).
    rewrite truediv_ok by (apply inject_Z_nonzero; lia).
    rewrite !bind_Ok. eexists. split; [reflexivity|]. split; [reflexivity|].
    cbn [Growth.Growth_12M]. apply round1_nonnegative.
    assert (Hc : 0 < inject_Z (Growth.iloc_first column))
      by (change 0 with (inject_Z 0); now rewrite <- Zlt_Qlt).
    assert (Hq : 0 <= inject_Z (Growth.iloc_last column - Growth.iloc_first column)
                      / inject_Z (Growth.iloc_first column)).
    { apply Qle_shift_div_l; [exact Hc|]. rewrite Qmult_0_l.
      change 0 with (inject_Z 0). rewrite <- Zle_Qle. lia. }
    lra.
  - rewrite !bind_Ok. eexists. split; [reflexivity|]. split; [reflexivity|].
    cbn [Growth.Growth_12M]. apply round1_nonnegative. lra.
Qed.

Lemma capacity_gaps_positive (metadata : Forecast.Metadata) (df : list Forecast.Point) :
  Forall (fun r => (0 < Growth.Gap r)%Z
                   /\ (Growth.Needed r = Growth.Current r + Growth.Gap r)%Z)
    (Growth.capacity_recs metadata df).
Proof.
  unfold Growth.capacity_recs. cbv zeta.
  destruct (0 <? _ - dict_get (Forecast.total_instances metadata) 0)%Z eqn:Ei;
    destruct (0 <? _ - dict_get (Forecast.total_users metadata) 0)%Z eqn:Eu;
    try apply Z.ltb_lt in Ei; try apply Z.ltb_lt in Eu;
    repeat constructor; cbn; lia.
Qed.

(** The first and last entries of every column of [df_historical]: the
    first is back-filled and bounded by the current total, the last is
    the current total. *)
Lemma historical_first_last (rand : nat -> Q) (metadata : Forecast.Metadata) :
  (forall i, 0 <= rand i) ->
  exists df,
    Forecast.df_historical rand metadata = Ok df
    /\ Forall
         (fun column : (Forecast.Point -> Z) * Z =>
            Growth.iloc_last (map (fst column) df) = snd column
            /\ ((0 < Growth.iloc_first (map (fst column) df))%Z ->
                (Growth.iloc_first (map (fst column) df)
                 <= Growth.iloc_last (map (fst column) df))%Z))
         [(Forecast.Users, dict_get (Forecast.total_users metadata) 0%Z);
          (Forecast.Companies, dict_get (Forecast.total_companies metadata) 0%Z);
          (Forecast.Instances, dict_get (Forecast.total_instances metadata) 0%Z);
          (Forecast.Broadcasts, dict_get (Forecast.total_broadcasts metadata) 0%Z)].
Proof.
  intros Hrand.
  destruct (historical_data_by_index rand metadata Hrand) as (points & Hpts & Hall).
  unfold Forecast.df_historical. rewrite Hpts, bind_Ok. eexists. split; [reflexivity|].
  assert (Hlast : forall f : Forecast.Point -> Z, forall cur,
             Growth.iloc_last (map f (points ++ [cur])) = f cur).
  { intros f cur. unfold Growth.iloc_last. rewrite map_app. apply List.last_last. }
  destruct points as [|p0 points]; [inversion Hall|].
  apply Forall2_cons_1 in Hall as [(_ & Hu & Hc & Hi & Hb) _].
  cbn [fst] in *.
  pose proof (growth_factor_positive rand 0 (Hrand 0%nat)) as Hf.
  repeat constructor; cbn [fst snd]; try apply Hlast;
    rewrite Hlast; cbn [map app Growth.iloc_first hd Forecast.Users Forecast.Companies
                        Forecast.Instances Forecast.Broadcasts]; intros Hpos.
  - pose proof (backfill_bounds _ _ _ Hf Hu). lia.
  - pose proof (backfill_bounds _ _ _ Hf Hc). lia.
  - pose proof (backfill_bounds _ _ _ Hf Hi). lia.
  - pose proof (backfill_bounds _ _ _ Hf Hb). lia.
Qed.

(** X17. For every random source with non-negative draws and every
    metadata the predictive view returns: it forecasts three months whose
    figures are never negative, so no predicted growth is below -100%;
    a capacity recommendation is made only for a positive gap, and its
    needed figure is the current one plus the gap; and the four 12-month
    growth rates are never negative. *)
Theorem forecast_view_figures (rand : nat -> Q) (metadata : Forecast.Metadata) :
  (forall i, 0 <= rand i) ->
  exists v,
    Growth.view rand metadata = Ok v
    /\ length (Growth.df_forecast v) = 3%nat
    /\ Forall (fun p => (0 <= Forecast.Users p)%Z /\ (0 <= Forecast.Companies p)%Z
                        /\ (0 <= Forecast.Instances p)%Z
                        /\ (0 <= Forecast.Broadcasts p)%Z)
         (Growth.df_forecast v)
    /\ Forall (fun g => -100 <= g)
         [Growth.user_growth (Growth.predicted v);
          Growth.company_growth (Growth.predicted v);
          Growth.instances_growth (Growth.predicted v);
          Growth.broadcasts_growth (Growth.predicted v)]
    /\ Forall (fun r => (0 < Growth.Gap r)%Z
                        /\ (Growth.Needed r = Growth.Current r + Growth.Gap r)%Z)
         (Growth.capacity v)
    /\ map Growth.Metric (Growth.trend v)
       = ["Users"; "Companies"; "Instances"; "Broadcasts"]%string
    /\ Forall (fun r => 0 <= Growth.Growth_12M r) (Growth.trend v).
Proof.
  intros Hrand.
  destruct (historical_first_last rand metadata Hrand) as (df & Hdf & Hcols).
  unfold Growth.view. rewrite Hdf, bind_Ok. cbv zeta.
  set (fc := Forecast.forecast_data df).
  destruct (forecast_rows_nonnegative df) as [Hlen Hnn]. fold fc in Hlen, Hnn.
  assert (Hlast : (0 <= Growth.iloc_last (map Forecast.Users fc))%Z
                  /\ (0 <= Growth.iloc_last (map Forecast.Companies fc))%Z
                  /\ (0 <= Growth.iloc_last (map Forecast.Instances fc))%Z
                  /\ (0 <= Growth.iloc_last (map Forecast.Broadcasts fc))%Z).
  { repeat split; apply last_nonnegative, Forall_map;
      (eapply Forall_impl; [exact Hnn|]); intros p Hp; simpl in Hp; tauto. }
  destruct Hlast as (Lu & Lc & Li & Lb).
  unfold Growth.predicted_growth.
  destruct (growth_returns (Growth.iloc_last (map Forecast.Users df)) _ Lu)
    as (gu & Hgu & Bu).
  destruct (growth_returns (Growth.iloc_last (map Forecast.Companies df)) _ Lc)
    as (gc & Hgc & Bc).
  destruct (growth_returns (Growth.iloc_last (map Forecast.Instances df)) _ Li)
    as (gi & Hgi & Bi).
  destruct (growth_returns (Growth.iloc_last (map Forecast.Broadcasts df)) _ Lb)
    as (gb & Hgb & Bb).
  rewrite Hgu, bind_Ok, Hgc, bind_Ok, Hgi, bind_Ok, Hgb, !bind_Ok.
  apply Forall_cons_1 in Hcols as [[_ Cu] Hcols].
  apply Forall_cons_1 in Hcols as [[_ Cc] Hcols].
  apply Forall_cons_1 in Hcols as [[_ Ci] Hcols].
  apply Forall_cons_1 in Hcols as [[_ Cb] _].
  cbn [fst] in *.
  unfold Growth.growth_rates.
  destruct (growth_rate_returns "Users" _ Cu) as (ru & Hru & Mu & Nu).
  destruct (growth_rate_returns "Companies" _ Cc) as (rc & Hrc & Mc & Nc).
  destruct (growth_rate_returns "Instances" _ Ci) as (ri & Hri & Mi & Ni).
  destruct (growth_rate_returns "Broadcasts" _ Cb) as (rb & Hrb & Mb & Nb).
  rewrite Hru, bind_Ok, Hrc, bind_Ok, Hri, bind_Ok, Hrb, !bind_Ok.
  eexists. split; [reflexivity|].
  cbn [Growth.df_forecast Growth.predicted Growth.capacity Growth.trend
       Growth.user_growth Growth.company_growth Growth.instances_growth
       Growth.broadcasts_growth].
  split; [exact Hlen|]. split; [exact Hnn|].
  split; [repeat constructor; assumption|].
  split; [apply capacity_gaps_positive|].
  split; [cbn [map]; now rewrite Mu, Mc, Mi, Mb|].
  repeat constructor; assumption.
Qed.

Lemma forecast_view_figures_witness :
  exists v,
    Growth.view Example.no_noise Example.totals = Ok v
    /\ length (Growth.df_forecast v) = 3%nat.
Proof.
  destruct (forecast_view_figures Example.no_noise Example.totals)
    as (v & Hv & Hlen & _).
  - intros i. unfold Example.no_noise. lra.
  - exists v. split; assumption.
Defined.

(** * Properties of the benchmarks *)

Lemma sorted_nth_monotone (s : list Q) (d : Q) (a b : nat) :
  StronglySorted Qle s -> (a <= b)%nat -> (b < length s)%nat ->
  nth a s d <= nth b s d.
Proof.
  intros Hs. revert a b. induction Hs as [|x s Hs IH Hx]; intros a b Hab Hb.
  - simpl in Hb. lia.
  - destruct a as [|a], b as [|b]; simpl in *; try lia.
    + lra.
    + rewrite Forall_forall in Hx. apply Hx, list_elem_of_In, nth_In. lia.
    + apply IH; lia.
Qed.

Lemma interpolation_between (lo hi f : Q) :
  lo <= hi -> 0 <= f -> f <= 1 -> lo <= lo + (hi - lo) * f <= hi.
Proof. intros. split; nra. Qed.

(** The linear-interpolation quantile does not decrease with the rank. *)
Lemma quantile_monotone (xs : list Q) (q1 q2 : Q) :
  0 <= q1 -> q1 <= q2 -> q2 <= 1 ->
  match Pandas.quantile xs q1, Pandas.quantile xs q2 with
  | Pandas.fin a, Pandas.fin b => a <= b
  | Pandas.nan, Pandas.nan => True
  | _, _ => False
  end.
Proof.
  intros H0 H12 H1. unfold Pandas.quantile.
  pose proof (sort_values_sorted xs) as Hsorted.
  apply Sorted_StronglySorted in Hsorted; [|intros x y z; apply Qle_trans].
  destruct (Pandas.sort_values xs) as [|x0 rest]; [exact I|].
  set (s := x0 :: rest) in *.
  assert (Hn : (1 <= length s)%nat) by (subst s; simpl; lia).
  clearbody s. cbv zeta. unfold len.
  set (n := length s) in *.
  set (m := inject_Z (Z.of_nat n - 1)).
  assert (Hm : 0 <= m)
    by (subst m; change 0 with (inject_Z 0); rewrite <- Zle_Qle; lia).
  set (p1 := m * q1). set (p2 := m * q2).
  assert (Hp1 : 0 <= p1) by (subst p1; nra).
  assert (Hp12 : p1 <= p2) by (subst p1 p2; nra).
  assert (Hp2 : p2 <= m) by (subst p2; nra).
  set (i1 := Qfloor p1). set (i2 := Qfloor p2).
  assert (Hi1 : (0 <= i1)%Z) by (apply (Qfloor_resp_le 0 p1 Hp1)).
  assert (Hi12 : (i1 <= i2)%Z) by (apply Qfloor_resp_le; exact Hp12).
  assert (Hi2 : (i2 <= Z.of_nat n - 1)%Z).
  { subst i2. rewrite <- (Qfloor_Z (Z.of_nat n - 1)). apply Qfloor_resp_le. exact Hp2. }
  pose proof (Qfloor_le p1) as Hf1. pose proof (Qlt_floor p1) as Hc1.
  pose proof (Qfloor_le p2) as Hf2. pose proof (Qlt_floor p2) as Hc2.
  fold i1 in Hf1, Hc1. fold i2 in Hf2, Hc2.
  rewrite inject_Z_plus in Hc1, Hc2. change (inject_Z 1) with 1 in Hc1, Hc2.
  set (f1 := p1 - inject_Z i1). set (f2 := p2 - inject_Z i2).
  assert (Hfr1 : 0 <= f1 /\ f1 <= 1) by (subst f1; split; lra).
  assert (Hfr2 : 0 <= f2 /\ f2 <= 1) by (subst f2; split; lra).
  set (lo1 := nth (Z.to_nat i1) s x0).
  set (hi1 := nth (Z.to_nat (Z.min (i1 + 1) (Z.of_nat n - 1))) s x0).
  set (lo2 := nth (Z.to_nat i2) s x0).
  set (hi2 := nth (Z.to_nat (Z.min (i2 + 1) (Z.of_nat n - 1))) s x0).
  assert (Hlh1 : lo1 <= hi1) by (apply sorted_nth_monotone; [assumption|lia|lia]).
  assert (Hlh2 : lo2 <= hi2) by (apply sorted_nth_monotone; [assumption|lia|lia]).
  pose proof (interpolation_between lo1 hi1 f1 Hlh1 (proj1 Hfr1) (proj2 Hfr1)) as Hv1.
  pose proof (interpolation_between lo2 hi2 f2 Hlh2 (proj1 Hfr2) (proj2 Hfr2)) as Hv2.
  destruct (Z.eq_dec i1 i2) as [Heq|Hne].
  - assert (Hlo : lo2 = lo1) by (subst lo1 lo2; now rewrite Heq).
    assert (Hhi : hi2 = hi1) by (subst hi1 hi2; now rewrite Heq).
    assert (Hff : f1 <= f2) by (subst f1 f2; rewrite Heq; lra).
    rewrite Hlo, Hhi. nra.
  - assert (Hstep : hi1 <= lo2) by (apply sorted_nth_monotone; [assumption|lia|lia]).
    lra.
Qed.

Lemma quantile_of_values (x : Q) (xs : list Q) (q : Q) :
  exists v, Pandas.quantile (x :: xs) q = Pandas.fin v.
Proof.
  unfold Pandas.quantile.
  pose proof (sort_values_length (x :: xs)) as Hlen.
  destruct (Pandas.sort_values (x :: xs)) as [|x0 rest]; [discriminate Hlen|].
  eexists. reflexivity.
Qed.

Lemma percentiles_ordered (x : Q) (xs : list Q) :
  exists lo mid hi,
    Pandas.quantile (x :: xs) 0.25 = Pandas.fin lo
    /\ Pandas.median (x :: xs) = Pandas.fin mid
    /\ Pandas.quantile (x :: xs) 0.75 = Pandas.fin hi
    /\ lo <= mid /\ mid <= hi.
Proof.
  destruct (quantile_of_values x xs 0.25) as (lo & Hlo).
  destruct (quantile_of_values x xs 0.5) as (half & Hhalf).
  destruct (quantile_of_values x xs 0.75) as (hi & Hhi).
  pose proof (quantile_monotone (x :: xs) 0.25 0.5 ltac:(lra) ltac:(lra) ltac:(lra)) as H1.
  pose proof (quantile_monotone (x :: xs) 0.5 0.75 ltac:(lra) ltac:(lra) ltac:(lra)) as H2.
  pose proof (median_is_quantile_half (x :: xs)) as Hmed.
  rewrite Hlo, Hhalf in H1. rewrite Hhalf, Hhi in H2. rewrite Hhalf in Hmed.
  destruct (Pandas.median (x :: xs)) as [|mid]; [contradiction|].
  simpl in Hmed. exists lo, mid, hi. repeat split; try assumption; lra.
Qed.

(** X19. On every non-empty company set the three benchmarks of each
    metric are numbers, never NaN, and they are ordered: the bottom
    quarter mark is at most the median, which is at most the top quarter
    mark. *)
Theorem benchmarks_are_ordered (c : Company.t) (cs : list Company.t) :
  exists b,
    Benchmark.view (c :: cs) = Ok b
    /\ Forall
         (fun p : Benchmark.Percentiles =>
            exists lo mid hi,
              Benchmark.Bottom_25 p = Pandas.fin lo
              /\ Benchmark.Median p = Pandas.fin mid
              /\ Benchmark.Top_25 p = Pandas.fin hi
              /\ lo <= mid /\ mid <= hi)
         [Benchmark.User_Activation b; Benchmark.Instance_Utilization b;
          Benchmark.Broadcasts_User b].
Proof.
  destruct (benchmark_rows (c :: cs)) as (rows & Hrows & Hall).
  destruct rows as [|r rows]; [inversion Hall|].
  unfold Benchmark.view. rewrite Hrows, bind_Ok. unfold Benchmark.benchmarks.
  rewrite !percentiles_nonempty, !bind_Ok.
  eexists. split; [reflexivity|].
  cbn [Benchmark.User_Activation Benchmark.Instance_Utilization Benchmark.Broadcasts_User].
  assert (Hcol : forall field : Benchmark.Row -> Q,
             exists lo mid hi,
               Pandas.quantile (map field (r :: rows)) 0.25 = Pandas.fin lo
               /\ Pandas.median (map field (r :: rows)) = Pandas.fin mid
               /\ Pandas.quantile (map field (r :: rows)) 0.75 = Pandas.fin hi
               /\ lo <= mid /\ mid <= hi).
  { intros field. cbn [map]. apply percentiles_ordered. }
  repeat constructor; cbn [Benchmark.Bottom_25 Benchmark.Median Benchmark.Top_25];
    apply Hcol.
Qed.

(** * Properties of the key indicators *)

Lemma guarded_rate_range (a t : Z) :
  (0 <= a <= t)%Z ->
  exists v,
    (if (0 <? t)%Z
     then q ← truediv (inject_Z a) (inject_Z t); mret (q * 100)
     else mret 0) = Ok v
    /\ 0 <= v <= 100.
Proof.
  intros Hat. destruct (0 <? t)%Z eqn:E.
  - apply Z.ltb_lt in E. rewrite truediv_ok by (apply inject_Z_nonzero; lia).
    rewrite bind_Ok. eexists. split; [reflexivity|].
    assert (Ht : 0 < inject_Z t) by (change 0 with (inject_Z 0); now rewrite <- Zlt_Qlt).
    assert (H0 : 0 <= inject_Z a / inject_Z t).
    { apply Qle_shift_div_l; [exact Ht|]. rewrite Qmult_0_l.
      change 0 with (inject_Z 0). rewrite <- Zle_Qle. lia. }
    assert (H1 : inject_Z a / inject_Z t <= 1).
    { apply Qle_shift_div_r; [exact Ht|]. rewrite Qmult_1_l. rewrite <- Zle_Qle. lia. }
    lra.
  - eexists. split; [reflexivity|]. simpl. lra.
Qed.

Lemma guarded_average_returns (a t : Z) :
  exists v, (if (0 <? t)%Z then truediv (inject_Z a) (inject_Z t) else mret 0) = Ok v.
Proof.
  destruct (0 <? t)%Z eqn:E; [|eexists; reflexivity].
  apply Z.ltb_lt in E. rewrite truediv_ok by (apply inject_Z_nonzero; lia).
  eexists. reflexivity.
Qed.

(** X20. When the metadata totals are not smaller than the numbers of
    users and instances actually listed, the key indicators are computed
    without raising and the user activation rate, the instance
    utilization and the efficiency score all lie between 0 and 100. *)
Theorem kpi_rates_are_percentages
        (metadata : Forecast.Metadata) (companies : list Company.t) :
  (len (KPI.all_users_list companies) <= dict_get (Forecast.total_users metadata) 0)%Z ->
  (len (KPI.all_instances_list companies)
   <= dict_get (Forecast.total_instances metadata) 0)%Z ->
  exists k,
    KPI.indicators metadata companies = Ok k
    /\ 0 <= KPI.active_user_rate k <= 100
    /\ 0 <= KPI.active_instance_rate k <= 100
    /\ 0 <= KPI.efficiency_score k <= 100.
Proof.
  intros Hu Hi. unfold KPI.indicators. cbv zeta.
  unfold len in Hu, Hi.
  destruct (guarded_rate_range
              (sum_ones (fun u => dict_get (User.isActive u) false)
                 (KPI.all_users_list companies))
              (dict_get (Forecast.total_users metadata) 0%Z)) as (ur & Hur & Bur).
  { rewrite sum_ones_filter.
    pose proof (filter_length_le (fun u => dict_get (User.isActive u) false)
                  (KPI.all_users_list companies)). lia. }
  destruct (guarded_rate_range
              (sum_ones (fun i => dict_get (Instance.active i) false)
                 (KPI.all_instances_list companies))
              (dict_get (Forecast.total_instances metadata) 0%Z)) as (ir & Hir & Bir).
  { rewrite sum_ones_filter.
    pose proof (filter_length_le (fun i => dict_get (Instance.active i) false)
                  (KPI.all_instances_list companies)). lia. }
  destruct (guarded_average_returns (dict_get (Forecast.total_users metadata) 0%Z)
              (dict_get (Forecast.total_companies metadata) 0%Z)) as (au & Hau).
  destruct (guarded_average_returns (dict_get (Forecast.total_broadcasts metadata) 0%Z)
              (dict_get (Forecast.total_instances metadata) 0%Z)) as (ab & Hab).
  rewrite Hur, bind_Ok, Hir, bind_Ok, Hau, bind_Ok, Hab, bind_Ok.
  eexists. split; [reflexivity|].
  cbn [KPI.active_user_rate KPI.active_instance_rate KPI.efficiency_score].
  repeat split; lra.
Qed.

Lemma kpi_rates_witness :
  exists k,
    KPI.indicators Sample.five_user_totals [Example.five_type_company] = Ok k
    /\ 0 <= KPI.active_user_rate k <= 100
    /\ 0 <= KPI.active_instance_rate k <= 100
    /\ 0 <= KPI.efficiency_score k <= 100.
Proof.
  apply (kpi_rates_are_percentages Sample.five_user_totals [Example.five_type_company]);
    vm_compute; discriminate.
Defined.

(** * Properties of ranking and filtering *)

Lemma tier_rank_monotone (m1 m2 : Q) :
  m1 <= m2 ->
  (Ranking.tier_rank (Revenue.tier m1) <= Ranking.tier_rank (Revenue.tier m2))%nat.
Proof.
  intros Hm. unfold Revenue.tier.
  destruct (Qgeb m1 5000) eqn:A1; destruct (Qgeb m2 5000) eqn:A2;
    destruct (Qgeb m1 1000) eqn:B1; destruct (Qgeb m2 1000) eqn:B2;
    destruct (Qgeb m1 100) eqn:C1; destruct (Qgeb m2 100) eqn:C2;
    try (cbn; lia);
    repeat match goal with
           | H : Qgeb _ _ = true |- _ => apply Qgeb_ge in H
           | H : Qgeb _ _ = false |- _ => apply Qgeb_lt in H
           end; lra.
Qed.

(** X21. A company with at least as many users, instances and broadcasts
    as another never has a smaller monthly revenue nor a lower revenue
    tier. *)
Theorem revenue_tier_is_monotone (c1 c2 : Company.t) (r1 r2 : Revenue.Row) :
  (dict_get (Company.users_count c1) 0 <= dict_get (Company.users_count c2) 0)%Z ->
  (dict_get (Company.instances_count c1) 0
   <= dict_get (Company.instances_count c2) 0)%Z ->
  (dict_get (Company.broadcasts_count c1) 0
   <= dict_get (Company.broadcasts_count c2) 0)%Z ->
  Revenue.row c1 = Ok r1 -> Revenue.row c2 = Ok r2 ->
  Revenue.Monthly_Revenue r1 <= Revenue.Monthly_Revenue r2
  /\ (Ranking.tier_rank (Revenue.Tier r1) <= Ranking.tier_rank (Revenue.Tier r2))%nat.
Proof.
  intros Hu Hi Hb.
  assert (Hrow : forall c r,
             Revenue.row c = Ok r ->
             Revenue.Monthly_Revenue r
             = inject_Z (dict_get (Company.users_count c) 0 * Revenue.PRICE_PER_USER)%Z
               + inject_Z (dict_get (Company.instances_count c) 0
                           * Revenue.PRICE_PER_INSTANCE)%Z
               + inject_Z (dict_get (Company.broadcasts_count c) 0%Z)
                 * Revenue.PRICE_PER_BROADCAST
             /\ Revenue.Tier r = Revenue.tier (Revenue.Monthly_Revenue r)).
  { intros c r. unfold Revenue.row. cbv zeta.
    destruct (0 <? dict_get (Company.users_count c) 0)%Z eqn:E.
    - apply Z.ltb_lt in E. rewrite truediv_ok by (apply inject_Z_nonzero; lia).
      rewrite bind_Ok, ret_Ok. intros [= <-]. split; reflexivity.
    - rewrite ret_Ok, bind_Ok, ret_Ok. intros [= <-]. split; reflexivity. }
  intros H1 H2. destruct (Hrow c1 r1 H1) as [M1 T1]. destruct (Hrow c2 r2 H2) as [M2 T2].
  assert (Hm : Revenue.Monthly_Revenue r1 <= Revenue.Monthly_Revenue r2).
  { rewrite M1, M2.
    unfold Revenue.PRICE_PER_USER, Revenue.PRICE_PER_INSTANCE, Revenue.PRICE_PER_BROADCAST.
    rewrite !inject_Z_mult. rewrite Zle_Qle in Hu, Hi, Hb.
    change (inject_Z 10) with 10. change (inject_Z 50) with 50. lra. }
  split; [exact Hm|]. rewrite T1, T2. now apply tier_rank_monotone.
Qed.

Lemma revenue_tier_witness :
  exists r1 r2,
    Revenue.row Example.five_type_company = Ok r1
    /\ Revenue.row Example.professional_company = Ok r2
    /\ Revenue.Monthly_Revenue r1 <= Revenue.Monthly_Revenue r2
    /\ (Ranking.tier_rank (Revenue.Tier r1) <= Ranking.tier_rank (Revenue.Tier r2))%nat.
Proof.
  do 2 eexists. split; [reflexivity|]. split; [reflexivity|].
  apply (revenue_tier_is_monotone Example.five_type_company Example.professional_company);
    first [reflexivity | vm_compute; discriminate].
Defined.

(** X22. The top-15 chart of the scorecard needs at least one company (an
    empty list raises the key error of the sort column); otherwise it
    shows [min 15 n] of the [n] rows by descending overall score, and no
    row left out scores higher than a row shown. *)
Theorem top_scores_are_the_top :
  Ranking.top_scores [] = Raise (KeyError "Overall Score")
  /\ forall (c : Company.t) (cs : list Company.t),
       exists rows top others,
         Scorecard.company_scores (c :: cs) = Ok rows
         /\ Ranking.top_scores (c :: cs) = Ok top
         /\ length top = Nat.min 15 (length (c :: cs))
         /\ Permutation (top ++ others) rows
         /\ StronglySorted
              (fun a b => Scorecard.Overall_Score b <= Scorecard.Overall_Score a) top
         /\ Forall
              (fun a =>
                 Forall (fun b => Scorecard.Overall_Score b <= Scorecard.Overall_Score a)
                   others)
              top.
Proof.
  split; [reflexivity|].
  intros c cs. unfold Ranking.top_scores.
  destruct (row_loop Scorecard.row (fun _ _ => True) (c :: cs)) as (rows & Hrows & Hall).
  { intros c'. destruct (scorecard_row_returns c') as (r & Hr & _). eauto. }
  fold (Scorecard.company_scores (c :: cs)) in Hrows.
  rewrite Hrows, bind_Ok.
  destruct rows as [|r rows]; [inversion Hall|].
  cbn [RevenueSummary.sort_values_desc]. rewrite bind_Ok.
  set (df := fold_right (RevenueSummary.insert_desc Scorecard.Overall_Score) [] (r :: rows)).
  exists (r :: rows), (take 15 df), (drop 15 df).
  assert (Hperm : Permutation df (r :: rows)) by apply sort_desc_perm.
  split; [reflexivity|]. split; [reflexivity|]. split.
  { rewrite length_take, (Permutation_length Hperm), <- (Forall2_length _ _ _ Hall).
    reflexivity. }
  split; [now rewrite take_drop|].
  apply sorted_take_dominates_drop, sort_desc_sorted.
Qed.

(** ** Counting instances and broadcasts *)

Lemma analyze_instances_loop (instances : list InstanceInfo.t)
      (st : gmap string nat * gmap string nat * Z) :
  fold_left
    (fun st instance =>
       let type_counts := Report.bump (fst (fst st)) (Report.type_name instance) in
       let status_counts :=
         Report.bump (snd (fst st))
           (dict_get (InstanceInfo.status instance) "Unknown"%string) in
       if dict_get (InstanceInfo.active instance) false
       then (type_counts, status_counts, (snd st + 1)%Z)
       else (type_counts, status_counts, snd st))
    instances st
  = (fold_left Report.bump (map Report.type_name instances) (fst (fst st)),
     fold_left Report.bump
       (map (fun i => dict_get (InstanceInfo.status i) "Unknown"%string) instances)
       (snd (fst st)),
     (snd st + len (List.filter (fun i => dict_get (InstanceInfo.active i) false)
                      instances))%Z).
Proof.
  revert st. induction instances as [|i rest IH]; intros [[tc sc] a].
  - unfold len; simpl. f_equal. lia.
  - cbn [fold_left map List.filter]. rewrite IH. cbv zeta.
    destruct (dict_get (InstanceInfo.active i) false); cbn [fst snd];
      unfold len; simpl; f_equal; lia.
Qed.

(** X23. On a non-empty instance list [analyze_instances] returns: its
    type counter holds, for every type name, the number of instances of
    that type, an instance whose type details are absent, null or
    nameless counting as "Unknown"; its status counter does the same for
    statuses; and the active percentage lies between 0 and 100. *)
Theorem analyze_instances_counts (i : InstanceInfo.t) (rest : list InstanceInfo.t) :
  exists r,
    Report.analyze_instances (i :: rest) = Ok r
    /\ (forall t,
          dict_get (Report.type_counts r !! t) 0%nat
          = length (List.filter (fun x => String.eqb (Report.type_name x) t) (i :: rest)))
    /\ (forall s,
          dict_get (Report.status_counts r !! s) 0%nat
          = length (List.filter
                      (fun x => String.eqb
                                  (dict_get (InstanceInfo.status x) "Unknown"%string) s)
                      (i :: rest)))
    /\ (forall x,
          InstanceInfo.type_details x = None
          \/ InstanceInfo.type_details x = Some None
          \/ InstanceInfo.type_details x = Some (Some (InstanceInfo.mkTypeDetails None)) ->
          Report.type_name x = "Unknown"%string)
    /\ Report.active_instances r
       = len (List.filter (fun x => dict_get (InstanceInfo.active x) false) (i :: rest))
    /\ 0 <= Report.active_instances_pct r <= 100.
Proof.
  unfold Report.analyze_instances. cbv zeta.
  rewrite analyze_instances_loop. cbn [fst snd]. rewrite Z.add_0_l.
  rewrite truediv_ok by apply len_cons_nonzero. rewrite bind_Ok.
  eexists. split; [reflexivity|].
  cbn [Report.type_counts Report.status_counts Report.active_instances
       Report.active_instances_pct].
  split.
  { intros t. rewrite bump_fold_lookup, lookup_empty. cbn [dict_get].
    now rewrite (filter_map_length Report.type_name). }
  split.
  { intros s. rewrite bump_fold_lookup, lookup_empty. cbn [dict_get].
    now rewrite (filter_map_length
                   (fun x => dict_get (InstanceInfo.status x) "Unknown"%string)). }
  split.
  { intros x [H|[H|H]]; unfold Report.type_name; rewrite H; reflexivity. }
  split; [reflexivity|].
  apply (activation_rate_range (fun x => dict_get (InstanceInfo.active x) false)
           (i :: rest)).
Qed.

Lemma append_each {A B : Type} (f : A -> B) (xs : list A) (acc : list B) :
  fold_left (fun acc x => acc ++ [f x]) xs acc = acc ++ map f xs.
Proof.
  revert acc. induction xs as [|x xs IH]; intros acc; simpl.
  - now rewrite app_nil_r.
  - rewrite IH. now rewrite <- app_assoc.
Qed.

Lemma all_broadcasts_flat (companies : list Tenant.t) :
  BroadcastView.all_broadcasts companies
  = flat_map
      (fun c => map (fun b => BroadcastView.mkBroadcastData b
                                (dict_get (Tenant.name c) "Unknown"%string))
                  (dict_get (Tenant.broadcasts c) []))
      companies.
Proof.
  unfold BroadcastView.all_broadcasts.
  assert (G : forall cs acc,
             fold_left
               (fun acc company =>
                  fold_left
                    (fun acc broadcast =>
                       acc ++ [BroadcastView.mkBroadcastData broadcast
                                 (dict_get (Tenant.name company) "Unknown"%string)])
                    (dict_get (Tenant.broadcasts company) []) acc)
               cs acc
             = acc ++ flat_map
                        (fun c => map (fun b => BroadcastView.mkBroadcastData b
                                                  (dict_get (Tenant.name c)
                                                     "Unknown"%string))
                                    (dict_get (Tenant.broadcasts c) []))
                        cs).
  { induction cs as [|c cs IH]; intros acc; simpl.
    - now rewrite app_nil_r.
    - rewrite (append_each
                 (fun b => BroadcastView.mkBroadcastData b
                             (dict_get (Tenant.name c) "Unknown"%string))).
      rewrite IH. now rewrite <- app_assoc. }
  apply (G companies []).
Qed.

Lemma four_statuses_at_most_all (statuses : list string) :
  (length (List.filter (fun s => String.eqb s "completed") statuses)
   + length (List.filter (fun s => String.eqb s "Completed") statuses)
   + (length (List.filter (fun s => String.eqb s "pending") statuses)
      + length (List.filter (fun s => String.eqb s "Pending") statuses))
   <= length statuses)%nat.
Proof.
  induction statuses as [|s rest IH]; simpl; [lia|].
  destruct (String.eqb s "completed") eqn:E1;
    destruct (String.eqb s "Completed") eqn:E2;
    destruct (String.eqb s "pending") eqn:E3;
    destruct (String.eqb s "Pending") eqn:E4;
    try apply String.eqb_eq in E1; try apply String.eqb_eq in E2;
    try apply String.eqb_eq in E3; try apply String.eqb_eq in E4;
    subst; try discriminate; simpl; lia.
Qed.

(** X24. The broadcast view returns for every company list; its metrics
    are shown exactly when some company has a broadcast.  "Completed"
    counts the broadcasts whose status is spelled "completed" or
    "Completed" and "Pending" those spelled "pending" or "Pending"; the
    two never add up to more than the total, and the completion rate lies
    between 0 and 100. *)
Theorem broadcast_metrics_count_both_spellings (companies : list Tenant.t) :
  let statuses := map BroadcastView.status_of (BroadcastView.all_broadcasts companies) in
  exists shown,
    BroadcastView.metrics companies = Ok shown
    /\ match shown with
       | None => flat_map (fun c => dict_get (Tenant.broadcasts c) []) companies = []
       | Some m =>
           BroadcastView.Total_Broadcasts m
           = len (flat_map (fun c => dict_get (Tenant.broadcasts c) []) companies)
           /\ BroadcastView.Completed m
              = (length (List.filter (fun s => String.eqb s "completed") statuses)
                 + length (List.filter (fun s => String.eqb s "Completed") statuses))%nat
           /\ BroadcastView.Pending m
              = (length (List.filter (fun s => String.eqb s "pending") statuses)
                 + length (List.filter (fun s => String.eqb s "Pending") statuses))%nat
           /\ (Z.of_nat (BroadcastView.Completed m + BroadcastView.Pending m)
               <= BroadcastView.Total_Broadcasts m)%Z
           /\ 0 <= BroadcastView.Completion_Rate m <= 100
       end.
Proof.
  intros statuses. unfold BroadcastView.metrics. cbv zeta.
  assert (Hlen : length (BroadcastView.all_broadcasts companies)
                 = length (flat_map (fun c => dict_get (Tenant.broadcasts c) [])
                             companies)).
  { rewrite all_broadcasts_flat. clear statuses.
    induction companies as [|c cs IH]; simpl; [reflexivity|].
    now rewrite !length_app, length_map, IH. }
  assert (Hcount : forall k,
             dict_get (Counter (map BroadcastView.status_of
                                  (BroadcastView.all_broadcasts companies)) !! k) 0%nat
             = length (List.filter (fun s => String.eqb s k) statuses)).
  { intros k. change (Counter ?keys) with (fold_left Report.bump keys ∅).
    rewrite bump_fold_lookup, lookup_empty. reflexivity. }
  pose proof (four_statuses_at_most_all statuses) as Hfour.
  assert (Hs : length statuses = length (BroadcastView.all_broadcasts companies))
    by (subst statuses; apply length_map).
  destruct (BroadcastView.all_broadcasts companies) as [|b rest] eqn:Eall.
  - eexists. split; [reflexivity|].
    destruct (flat_map _ companies); [reflexivity|discriminate Hlen].
  - cbn [nonempty]. rewrite truediv_ok by apply len_cons_nonzero. rewrite bind_Ok.
    eexists. split; [reflexivity|].
    cbn [BroadcastView.Total_Broadcasts BroadcastView.Completed BroadcastView.Pending
         BroadcastView.Completion_Rate].
    rewrite !Hcount. unfold len. rewrite <- Hlen.
    set (c1 := length (List.filter (fun s => String.eqb s "completed") statuses)) in *.
    set (c2 := length (List.filter (fun s => String.eqb s "Completed") statuses)) in *.
    set (p1 := length (List.filter (fun s => String.eqb s "pending") statuses)) in *.
    set (p2 := length (List.filter (fun s => String.eqb s "Pending") statuses)) in *.
    set (n := length (b :: rest)) in *.
    assert (Hn : (0 < n)%nat) by (subst n; simpl; lia).
    clearbody c1 c2 p1 p2 n.
    split; [reflexivity|]. split; [reflexivity|]. split; [reflexivity|].
    split; [lia|].
    assert (Hpos : 0 < inject_Z (Z.of_nat n))
      by (change 0 with (inject_Z 0); rewrite <- Zlt_Qlt; lia).
    assert (H0 : 0 <= inject_Z (Z.of_nat (c1 + c2)) / inject_Z (Z.of_nat n)).
    { apply Qle_shift_div_l; [exact Hpos|]. rewrite Qmult_0_l.
      change 0 with (inject_Z 0). rewrite <- Zle_Qle. lia. }
    assert (H1 : inject_Z (Z.of_nat (c1 + c2)) / inject_Z (Z.of_nat n) <= 1).
    { apply Qle_shift_div_r; [exact Hpos|]. rewrite Qmult_1_l, <- Zle_Qle. lia. }
    lra.
Qed.

(** ** The user view *)

Lemma filter_all_pass {A : Type} (p : A -> bool) (xs : list A) :
  List.filter p (List.filter p xs) = List.filter p xs.
Proof.
  induction xs as [|x xs IH]; simpl; [reflexivity|].
  destruct (p x) eqn:E; simpl; [rewrite E, IH|]; auto.
Qed.

Lemma combined_users_bound (filtered_companies : list Company.t)
      (orphaned : option (list User.t)) (selected_company : string)
      (selected_user_types : list string) (show_active_only : bool) :
  (length (UserView.combined_users filtered_companies orphaned selected_company
             selected_user_types show_active_only)
   <= length (UserView.all_users filtered_companies)
      + length (UserView.orphaned_users orphaned selected_company))%nat.
Proof.
  unfold UserView.combined_users. cbv zeta. rewrite <- length_app.
  set (both := UserView.all_users filtered_companies
               ++ UserView.orphaned_users orphaned selected_company).
  pose proof (filter_length_le (UserView.type_selected selected_user_types) both) as H1.
  destruct (nonempty selected_user_types), show_active_only; try lia.
  - etransitivity; [apply filter_length_le|exact H1].
  - apply filter_length_le.
Qed.

(** X25. The user view returns for every selection; its metrics are shown
    exactly when some user passes the filters.  The filtered total never
    exceeds the company users plus the orphaned users, the active rate
    lies between 0 and 100 and is exactly 100 when only active users are
    shown, and orphaned users are counted only under "All Companies". *)
Theorem user_view_metrics_are_consistent
        (companies : list Company.t) (orphaned : option (list User.t))
        (selected_company : string) (selected_user_types : list string)
        (show_active_only : bool) :
  let filtered := Filter.filtered_companies Company.name selected_company companies in
  exists shown,
    UserView.metrics filtered orphaned selected_company selected_user_types
      show_active_only = Ok shown
    /\ match shown with
       | None =>
           UserView.combined_users filtered orphaned selected_company
             selected_user_types show_active_only = []
       | Some m =>
           (0 < UserView.Filtered_Total m
            <= UserView.Users_in_Companies m + UserView.Orphaned_Users m)%Z
           /\ 0 <= UserView.Active_Rate m <= 100
           /\ (show_active_only = true -> UserView.Active_Rate m == 100)
           /\ (selected_company <> "All Companies"%string ->
               UserView.Orphaned_Users m = 0%Z)
       end.
Proof.
  intros filtered. unfold UserView.metrics. cbv zeta.
  pose proof (combined_users_bound filtered orphaned selected_company
                selected_user_types show_active_only) as Hbound.
  assert (Hactive : show_active_only = true ->
            List.filter (fun u => dict_get (User.isActive (UserView.user u)) false)
              (UserView.combined_users filtered orphaned selected_company
                 selected_user_types show_active_only)
            = UserView.combined_users filtered orphaned selected_company
                selected_user_types show_active_only).
  { intros ->. unfold UserView.combined_users. cbv zeta. apply filter_all_pass. }
  destruct (UserView.combined_users filtered orphaned selected_company
              selected_user_types show_active_only) as [|u rest] eqn:Ecomb.
  - eexists. split; reflexivity.
  - cbn [nonempty]. rewrite truediv_ok by apply len_cons_nonzero. rewrite bind_Ok.
    eexists. split; [reflexivity|].
    cbn [UserView.Filtered_Total UserView.Users_in_Companies UserView.Orphaned_Users
         UserView.Active_Rate].
    rewrite sum_ones_filter.
    pose proof (filter_length_le
                  (fun u => dict_get (User.isActive (UserView.user u)) false)
                  (u :: rest)) as Hle.
    unfold len.
    assert (Hn : (0 < length (u :: rest))%nat) by (simpl; lia).
    set (a := length (List.filter _ (u :: rest))) in *.
    set (n := length (u :: rest)) in *.
    assert (Hpos : 0 < inject_Z (Z.of_nat n))
      by (change 0 with (inject_Z 0); rewrite <- Zlt_Qlt; lia).
    split; [lia|]. split; [|split].
    + assert (H0 : 0 <= inject_Z (Z.of_nat a) / inject_Z (Z.of_nat n)).
      { apply Qle_shift_div_l; [exact Hpos|]. rewrite Qmult_0_l.
        change 0 with (inject_Z 0). rewrite <- Zle_Qle. lia. }
      assert (H1 : inject_Z (Z.of_nat a) / inject_Z (Z.of_nat n) <= 1).
      { apply Qle_shift_div_r; [exact Hpos|]. rewrite Qmult_1_l, <- Zle_Qle. lia. }
      lra.
    + intros Hshow. subst a n. rewrite (Hactive Hshow).
      field. intros H. rewrite H in Hpos. now apply Qlt_irrefl in Hpos.
    + intros Hsel. unfold UserView.orphaned_users.
      destruct orphaned as [users|]; [|reflexivity].
      destruct (String.eqb selected_company "All Companies") eqn:E; [|reflexivity].
      apply String.eqb_eq in E. contradiction.
Qed.

(** ** Agreement between the views *)

(** X26. The health score, the benchmark table and the activity heat map
    compute the same figures for a company: the user and instance
    activity rates coincide in all three, and the users-per-channel and
    broadcasts-per-instance ratios coincide in the first two.  Every
    heat-map percentage lies between 0 and 100, and the chart generator's
    user percentage equals the dashboard's whenever no user carries a
    [user_status]. *)
Theorem views_agree_on_rates (c : Company.t) :
  exists h b m u,
    Health.components c = Ok h
    /\ Benchmark.metrics c = Ok b
    /\ Heatmap.rates c = Ok m
    /\ Charts.active_users_pct c = Ok u
    /\ Health.user_activity_rate h = Benchmark.user_activation b
    /\ Benchmark.user_activation b = Heatmap.active_users_pct m
    /\ Health.instance_activity_rate h = Benchmark.instance_utilization b
    /\ Benchmark.instance_utilization b = Heatmap.active_instances_pct m
    /\ Health.users_per_channel h = Benchmark.users_per_channel b
    /\ Health.broadcasts_per_instance h = Benchmark.broadcasts_per_instance b
    /\ 0 <= Heatmap.active_users_pct m <= 100
    /\ 0 <= Heatmap.active_instances_pct m <= 100
    /\ 0 <= Heatmap.active_channels_pct m <= 100
    /\ 0 <= u <= 100
    /\ (Forall (fun x => User.user_status x = None) (dict_get (Company.users c) []) ->
        u = Heatmap.active_users_pct m).
Proof.
  rewrite components_closed_form, metrics_closed_form.
  unfold Heatmap.rates, Charts.active_users_pct. cbv zeta.
  rewrite !guarded_percentage, !bind_Ok.
  do 4 eexists. do 4 (split; [reflexivity|]).
  cbn [Health.user_activity_rate Health.instance_activity_rate Health.users_per_channel
       Health.broadcasts_per_instance Benchmark.user_activation
       Benchmark.instance_utilization Benchmark.users_per_channel
       Benchmark.broadcasts_per_instance Heatmap.active_users_pct
       Heatmap.active_instances_pct Heatmap.active_channels_pct].
  do 6 (split; [reflexivity|]).
  do 4 (split; [apply activation_rate_range|]).
  intros Hnone. unfold Spec.activation_rate.
  destruct (dict_get (Company.users c) []) as [|x xs] eqn:E; [reflexivity|].
  rewrite (filter_ext_Forall
             (fun u => dict_get (User.user_status u) (dict_get (User.isActive u) false))
             (fun u => dict_get (User.isActive u) false)); [reflexivity|].
  eapply Forall_impl; [exact Hnone|]. intros y Hy. cbn beta. now rewrite Hy.
Qed.

(** * The scores and alerts under the specification's activity flag *)

Lemma flags_agree_rate (c : Company.t) :
  Stated.flags_agree c -> Stated.userActivation c = Spec.userActivation c.
Proof.
  unfold Stated.flags_agree, Stated.userActivation, Spec.userActivation,
    Spec.activation_rate.
  intros Hagree. destruct (Spec.users c) as [|u us]; [reflexivity|].
  now rewrite (filter_ext_Forall Spec.activity_flag Spec.isActive_flag (u :: us) Hagree).
Qed.

(** C1. The health loop returns for every company, and all its formulas
    are the specification's but for the user activation they start
    from: instance utilization, type diversity, adoption and growth
    potential are as stated, engagement and overall health are the
    stated weighted sums of the loop's own rates, and the user activation
    is the stated one whenever the two readings of the activity flag
    agree on the company's users.  They do not agree on a user that is
    active by [user_status] alone: for two users, one of them such, with
    an active instance, a channel and ten broadcasts, the loop computes
    an activation of 50, an engagement of 70 and an overall health of 79
    where the specification's formulas give 100, 100 and 91. *)
Theorem health_engagement_ignores_user_status :
  (forall c : Company.t,
      exists r,
        Health.components c = Ok r
        /\ Health.instance_activity_rate r == Spec.instanceUtilization c
        /\ Health.engagement_score r
           == Health.user_activity_rate r * 0.6 + Spec.instanceUtilization c * 0.4
        /\ Health.type_diversity r == Spec.typeDiversity c
        /\ Health.adoption_score r == Spec.adoption c
        /\ Health.growth_potential r == Spec.growthPotential c
        /\ Health.overall_health r
           == Health.engagement_score r * 0.4 + Spec.adoption c * 0.3
              + Spec.growthPotential c * 0.3
        /\ (Stated.flags_agree c ->
            Health.user_activity_rate r == Stated.userActivation c
            /\ Health.engagement_score r == Stated.engagement c
            /\ Health.overall_health r == Stated.overallHealth c))
  /\ (exists r,
        Health.components Sample.half_flagged_company = Ok r
        /\ Health.user_activity_rate r == 50
        /\ Stated.userActivation Sample.half_flagged_company == 100
        /\ Health.instance_activity_rate r == 100
        /\ Health.engagement_score r == 70
        /\ Stated.engagement Sample.half_flagged_company == 100
        /\ Health.adoption_score r == 70
        /\ Health.growth_potential r == 100
        /\ Health.overall_health r == 79
        /\ Stated.overallHealth Sample.half_flagged_company == 91).
Proof.
  split.
  - intros c. eexists. split; [apply components_closed_form|].
    cbv zeta. cbn [Health.user_activity_rate Health.instance_activity_rate
                   Health.engagement_score Health.type_diversity Health.adoption_score
                   Health.growth_potential Health.overall_health].
    split; [reflexivity|]. split; [reflexivity|].
    split; [apply type_diversity_formula|].
    split; [apply adoption_formula|].
    split; [apply min_is_Qmin|].
    split.
    + unfold Health.weighted. rewrite adoption_formula, min_is_Qmin. reflexivity.
    + intros Hagree.
      unfold Stated.overallHealth, Stated.engagement.
      rewrite (flags_agree_rate c Hagree).
      split; [reflexivity|]. split; [reflexivity|].
      apply overall_health_formula.
  - eexists. split; [apply components_closed_form|].
    repeat split; vm_compute; reflexivity.
Qed.

(** ** What an alert carries *)

Lemma round_half_even_nearest (x : Q) : Stated.nearest x (round_half_even x).
Proof.
  unfold Stated.nearest, round_half_even.
  pose proof (Qfloor_le x) as Hlo. pose proof (Qlt_floor x) as Hhi.
  rewrite inject_Z_plus in Hhi. change (inject_Z 1) with 1 in Hhi.
  set (f := inject_Z (Qfloor x)) in *.
  destruct (Qltb (x - f) (1 # 2)) eqn:E1.
  - apply Qltb_lt in E1. fold f. lra.
  - apply Qltb_ge in E1. destruct (Qltb (1 # 2) (x - f)) eqn:E2.
    + apply Qltb_lt in E2. rewrite inject_Z_plus. change (inject_Z 1) with 1.
      fold f. lra.
    + apply Qltb_ge in E2. destruct (Z.even (Qfloor x)).
      * fold f. lra.
      * rewrite inject_Z_plus. change (inject_Z 1) with 1. fold f. lra.
Qed.

Lemma sign_nonnegative (x : Q) : 0 <= x -> sign x = ""%string.
Proof.
  intros Hx. unfold sign. destruct (Qltb x 0) eqn:E; [|reflexivity].
  apply Qltb_lt in E. lra.
Qed.

Lemma format_f0_whole (x : Q) : 0 <= x -> Stated.whole_number x (format_f0 x).
Proof.
  intros Hx. exists (round_half_even x). split; [apply round_half_even_nearest|].
  unfold format_f0. rewrite (sign_nonnegative x Hx).
  rewrite Z.abs_eq by now apply round_half_even_nonnegative. reflexivity.
Qed.

Lemma format_f1_one_decimal (x : Q) : 0 <= x -> Stated.one_decimal x (format_f1 x).
Proof.
  intros Hx. exists (round_half_even (x * 10)).
  split; [apply round_half_even_nearest|].
  unfold format_f1. cbv zeta. rewrite (sign_nonnegative x Hx).
  rewrite Z.abs_eq by (apply round_half_even_nonnegative; lra). reflexivity.
Qed.

Lemma stated_firing_two (c : Company.t) (r1 r2 : Spec.rule) :
  filter (fun r => Stated.condition r c) [r1; r2]
  = filter (fun r => Stated.condition r c) [r1]
    ++ filter (fun r => Stated.condition r c) [r2].
Proof. apply (filter_app _ [r1] [r2]). Qed.

Lemma stated_firing_true (c : Company.t) (r : Spec.rule) :
  Stated.condition r c -> filter (fun r => Stated.condition r c) [r] = [r].
Proof. intros H. rewrite filter_cons, filter_nil. now rewrite decide_True. Qed.

Lemma stated_firing_false (c : Company.t) (r : Spec.rule) :
  ~ Stated.condition r c -> filter (fun r => Stated.condition r c) [r] = [].
Proof. intros H. rewrite filter_cons, filter_nil. now rewrite decide_False. Qed.

Ltac carries_fields :=
  cbn [app]; constructor; [|constructor];
  unfold Stated.carries;
  cbn [Alerts.Company_ Alerts.Category Alerts.Severity Alerts.Message Alerts.Metric
       Alerts.Action Spec.category Spec.severity Stated.message Stated.metric];
  split; [reflexivity|]; split; [reflexivity|]; split; [reflexivity|].

Lemma alert1_carries (c : Company.t) (acc : list Alerts.Alert) :
  Stated.flags_agree c ->
  exists e,
    Alerts.alert1 c acc = Ok (acc ++ e)
    /\ Forall2 (Stated.carries c)
         (filter (fun r => Stated.condition r c)
            [Spec.LowActivation; Spec.ModerateActivation]) e.
Proof.
  intros Hagree. pose proof (flags_agree_rate c Hagree) as Hsame.
  assert (Hactive : List.filter (fun u => dict_get (User.isActive u) false) (Spec.users c)
                    = Stated.active_users c).
  { unfold Stated.active_users. symmetry.
    apply (filter_ext_Forall Spec.activity_flag Spec.isActive_flag). exact Hagree. }
  unfold Alerts.alert1. cbv zeta. rewrite stated_firing_two.
  change (dict_get (Company.users c) []) with (Spec.users c).
  rewrite sum_ones_filter, Hactive.
  destruct (Spec.users c) as [|u us] eqn:Hu.
  - exists []. rewrite app_nil_r. split; [reflexivity|].
    rewrite !stated_firing_false by (simpl; rewrite Hu; tauto).
    cbn [app]; constructor.
  - cbn [nonempty]. rewrite truediv_ok by apply len_cons_nonzero. rewrite bind_Ok.
    assert (Hrate : inject_Z (Z.of_nat (length (Stated.active_users c)))
                    / inject_Z (len (u :: us)) * 100
                    = Stated.userActivation c).
    { unfold Stated.userActivation, Stated.active_users, Spec.activation_rate.
      rewrite Hu. reflexivity. }
    rewrite Hrate.
    pose proof (activation_rate_range Spec.activity_flag (Spec.users c)) as Hrange.
    fold (Stated.userActivation c) in Hrange.
    set (rate := Stated.userActivation c) in *.
    destruct (Qltb rate 50) eqn:E50.
    + apply Qltb_lt in E50. eexists. split; [reflexivity|].
      rewrite stated_firing_true by (simpl; rewrite Hu; split; [discriminate|exact E50]).
      rewrite stated_firing_false by (simpl; fold rate; lra).
      carries_fields. split; [|split; [|discriminate]].
      * exists (format_f0 rate). split; [apply format_f0_whole; lra|reflexivity].
      * rewrite <- Hu. reflexivity.
    + apply Qltb_ge in E50. destruct (Qltb rate 70) eqn:E70.
      * apply Qltb_lt in E70. eexists. split; [reflexivity|].
        rewrite stated_firing_false by (simpl; fold rate; lra).
        rewrite stated_firing_true
          by (simpl; rewrite Hu; split; [discriminate|split; assumption]).
        carries_fields. split; [|split; [|discriminate]].
        -- exists (format_f0 rate). split; [apply format_f0_whole; lra|reflexivity].
        -- rewrite <- Hu. reflexivity.
      * apply Qltb_ge in E70. exists []. rewrite app_nil_r. split; [reflexivity|].
        rewrite !stated_firing_false by (simpl; fold rate; lra).
        cbn [app]; constructor.
Qed.

Lemma alert2_carries (c : Company.t) (acc : list Alerts.Alert) :
  exists e,
    Alerts.alert2 c acc = Ok (acc ++ e)
    /\ Forall2 (Stated.carries c)
         (filter (fun r => Stated.condition r c) [Spec.ZeroBroadcasts]) e.
Proof.
  unfold Alerts.alert2. cbv zeta.
  change (dict_get (Company.instances c) []) with (Spec.instances c).
  change (dict_get (Company.broadcasts_count c) 0%Z) with (Spec.broadcasts c).
  destruct (Spec.instances c) as [|i rest] eqn:Hi.
  - exists []. rewrite app_nil_r. split; [reflexivity|].
    rewrite stated_firing_false by (simpl; rewrite Hi; tauto). constructor.
  - cbn [nonempty andb]. destruct (Spec.broadcasts c =? 0)%Z eqn:Eb.
    + apply Z.eqb_eq in Eb. eexists. split; [reflexivity|].
      rewrite stated_firing_true by (simpl; rewrite Hi; split; [discriminate|exact Eb]).
      carries_fields. rewrite Hi.
      split; [reflexivity|]. split; [reflexivity|discriminate].
    + apply Z.eqb_neq in Eb. exists []. rewrite app_nil_r. split; [reflexivity|].
      rewrite stated_firing_false by (simpl; tauto). constructor.
Qed.

Lemma alert3_carries (c : Company.t) (acc : list Alerts.Alert) :
  exists e,
    Alerts.alert3 c acc = Ok (acc ++ e)
    /\ Forall2 (Stated.carries c)
         (filter (fun r => Stated.condition r c) [Spec.IdleInstancePool]) e.
Proof.
  unfold Alerts.alert3. cbv zeta.
  change (dict_get (Company.instances c) []) with (Spec.instances c).
  destruct (Spec.instances c) as [|i rest] eqn:Hi.
  - exists []. rewrite app_nil_r. split; [reflexivity|].
    rewrite stated_firing_false by (simpl; rewrite Hi; tauto). constructor.
  - cbn [nonempty]. rewrite truediv_ok by apply len_cons_nonzero.
    rewrite bind_Ok, sum_ones_filter, <- Hi.
    change (List.filter (fun i => negb (dict_get (Instance.active i) false))
              (Spec.instances c))
      with (Stated.inactive_instances c).
    assert (Hq : inject_Z (Z.of_nat (length (Stated.inactive_instances c)))
                 / inject_Z (len (Spec.instances c))
                 = Spec.inactiveInstances c / Spec.count (Spec.instances c))
      by reflexivity.
    rewrite Hq.
    destruct (Qgtb (Spec.inactiveInstances c / Spec.count (Spec.instances c)) 0.5) eqn:E.
    + apply Qgtb_gt in E. eexists. split; [reflexivity|].
      rewrite stated_firing_true
        by (simpl; rewrite Hi at 1; split; [discriminate|exact E]).
      carries_fields. split; [reflexivity|]. split; [reflexivity|discriminate].
    + apply Qgtb_le in E. exists []. rewrite app_nil_r. split; [reflexivity|].
      rewrite stated_firing_false by (simpl; intros [_ H]; lra). constructor.
Qed.

Lemma alert4_carries (c : Company.t) (acc : list Alerts.Alert) :
  exists e,
    Alerts.alert4 c acc = Ok (acc ++ e)
    /\ Forall2 (Stated.carries c)
         (filter (fun r => Stated.condition r c) [Spec.MissingChannels]) e.
Proof.
  unfold Alerts.alert4. cbv zeta.
  change (dict_get (Company.users c) []) with (Spec.users c).
  change (dict_get (Company.channels c) []) with (Spec.channels c).
  destruct ((10 <? len (Spec.users c))%Z && (len (Spec.channels c) =? 0)%Z) eqn:E.
  - apply andb_true_iff in E as [E1 E2].
    apply Z.ltb_lt in E1. apply Z.eqb_eq in E2. unfold len in E1, E2.
    eexists. split; [reflexivity|].
    rewrite stated_firing_true by (simpl; lia).
    carries_fields. split; [reflexivity|]. split; [reflexivity|discriminate].
  - exists []. rewrite app_nil_r. split; [reflexivity|].
    rewrite stated_firing_false; [constructor|].
    simpl. intros [H1 H2]. apply andb_false_iff in E as [E|E].
    + apply Z.ltb_ge in E. unfold len in E. lia.
    + apply Z.eqb_neq in E. unfold len in E. lia.
Qed.

Lemma alert5_carries (c : Company.t) (acc : list Alerts.Alert) :
  exists e,
    Alerts.alert5 c acc = Ok (acc ++ e)
    /\ Forall2 (Stated.carries c)
         (filter (fun r => Stated.condition r c) [Spec.HighUserInstanceRatio]) e.
Proof.
  unfold Alerts.alert5. cbv zeta.
  change (dict_get (Company.users c) []) with (Spec.users c).
  change (dict_get (Company.instances c) []) with (Spec.instances c).
  destruct (Spec.instances c) as [|i rest] eqn:Hi.
  - exists []. rewrite app_nil_r. split; [reflexivity|].
    rewrite stated_firing_false by (simpl; rewrite Hi; tauto). constructor.
  - cbn [nonempty]. rewrite truediv_ok by apply len_cons_nonzero.
    rewrite bind_Ok, <- Hi.
    change (inject_Z (len (Spec.users c)) / inject_Z (len (Spec.instances c)))
      with (Spec.count (Spec.users c) / Spec.count (Spec.instances c)).
    set (ratio := Spec.count (Spec.users c) / Spec.count (Spec.instances c)).
    destruct (Qgtb ratio 20) eqn:E.
    + apply Qgtb_gt in E. eexists. split; [reflexivity|].
      rewrite stated_firing_true
        by (simpl; rewrite Hi at 1; split; [discriminate|exact E]).
      carries_fields. split; [|split; [reflexivity|discriminate]].
      exists (format_f1 ratio). split; [apply format_f1_one_decimal; lra|reflexivity].
    + apply Qgtb_le in E. exists []. rewrite app_nil_r. split; [reflexivity|].
      rewrite stated_firing_false by (simpl; intros [_ H]; fold ratio in H; lra).
      constructor.
Qed.

Lemma alert6_carries (c : Company.t) (acc : list Alerts.Alert) :
  exists e,
    Alerts.alert6 c acc = Ok (acc ++ e)
    /\ Forall2 (Stated.carries c) (filter (fun r => Stated.condition r c) [Spec.NoUsers]) e.
Proof.
  unfold Alerts.alert6. cbv zeta.
  change (dict_get (Company.users c) []) with (Spec.users c).
  destruct (len (Spec.users c) =? 0)%Z eqn:E.
  - apply Z.eqb_eq in E. unfold len in E. eexists. split; [reflexivity|].
    rewrite stated_firing_true by (simpl; lia).
    carries_fields. split; [reflexivity|]. split; [reflexivity|discriminate].
  - apply Z.eqb_neq in E. unfold len in E. exists []. rewrite app_nil_r.
    split; [reflexivity|].
    rewrite stated_firing_false by (simpl; lia). constructor.
Qed.

(** One iteration of the alert loop on a company whose flags agree. *)
Lemma check_company_carries (c : Company.t) (acc : list Alerts.Alert) :
  Stated.flags_agree c ->
  exists emitted,
    Alerts.check_company c acc = Ok (acc ++ emitted)
    /\ Forall2 (Stated.carries c) (Stated.firing c) emitted.
Proof.
  intros Hagree. unfold Alerts.check_company.
  destruct (alert1_carries c acc Hagree) as (e1 & H1 & F1). rewrite H1, bind_Ok.
  destruct (alert2_carries c (acc ++ e1)) as (e2 & H2 & F2). rewrite H2, bind_Ok.
  destruct (alert3_carries c ((acc ++ e1) ++ e2)) as (e3 & H3 & F3).
  rewrite H3, bind_Ok.
  destruct (alert4_carries c (((acc ++ e1) ++ e2) ++ e3)) as (e4 & H4 & F4).
  rewrite H4, bind_Ok.
  destruct (alert5_carries c ((((acc ++ e1) ++ e2) ++ e3) ++ e4)) as (e5 & H5 & F5).
  rewrite H5, bind_Ok.
  destruct (alert6_carries c (((((acc ++ e1) ++ e2) ++ e3) ++ e4) ++ e5))
    as (e6 & H6 & F6).
  rewrite H6.
  exists (e1 ++ e2 ++ e3 ++ e4 ++ e5 ++ e6). split.
  - now rewrite <- !app_assoc.
  - unfold Stated.firing.
    change Spec.all_rules
      with ([Spec.LowActivation; Spec.ModerateActivation] ++ [Spec.ZeroBroadcasts]
            ++ [Spec.IdleInstancePool] ++ [Spec.MissingChannels]
            ++ [Spec.HighUserInstanceRatio] ++ [Spec.NoUsers]).
    rewrite !filter_app.
    repeat (apply Forall2_app; [assumption|]). assumption.
Qed.

Lemma for_each_append_on {A B : Type} (f : A -> list B -> result (list B))
      (g : A -> list B -> Prop) (xs : list A) (acc : list B) :
  (forall x acc, In x xs -> exists e, f x acc = Ok (acc ++ e) /\ g x e) ->
  exists groups,
    for_each f xs acc = Ok (acc ++ concat groups) /\ Forall2 g xs groups.
Proof.
  revert acc. induction xs as [|x xs IH]; intros acc Hf.
  - exists []. simpl. rewrite app_nil_r. split; [reflexivity|constructor].
  - destruct (Hf x acc (or_introl eq_refl)) as (e & He & Hg).
    destruct (IH (acc ++ e)) as (groups & Hrest & Hall).
    { intros x' acc' Hin. apply Hf. now right. }
    exists (e :: groups). cbn [for_each]. rewrite He, bind_Ok, Hrest.
    split; [simpl; now rewrite app_assoc | now constructor].
Qed.

Lemma Forall2_elem_of_r {A B : Type} (P : A -> B -> Prop) (l : list A) (k : list B) :
  Forall2 P l k -> forall y, y ∈ k -> exists x, x ∈ l /\ P x y.
Proof.
  induction 1 as [|x y l k Hxy _ IH]; intros y' Hy'.
  - inversion Hy'.
  - apply elem_of_cons in Hy' as [->|Hy'].
    + exists x. split; [left|exact Hxy].
    + destruct (IH y' Hy') as (x' & Hin & HP). exists x'. split; [now right|exact HP].
Qed.

Lemma stated_firing_condition (c : Company.t) (r : Spec.rule) :
  r ∈ Stated.firing c <-> Stated.condition r c.
Proof.
  unfold Stated.firing. rewrite list_elem_of_filter.
  split; [tauto|]. intros H. split; [exact H|].
  destruct r; unfold Spec.all_rules; rewrite !elem_of_cons; tauto.
Qed.

Lemma firing_condition (c : Company.t) (r : Spec.rule) :
  r ∈ Spec.firing c <-> Spec.condition r c.
Proof.
  unfold Spec.firing. rewrite list_elem_of_filter.
  split; [tauto|]. intros H. split; [exact H|].
  destruct r; unfold Spec.all_rules; rewrite !elem_of_cons; tauto.
Qed.

(** Whatever the flags, one company never gets a churn alert together
    with an activation alert. *)
Lemma churn_excludes_activation (c : Company.t) (acc : list Alerts.Alert) :
  exists emitted,
    Alerts.check_company c acc = Ok (acc ++ emitted)
    /\ ~ (Exists (fun a => Alerts.Category a = "Churn Risk"%string) emitted
          /\ Exists (fun a => Alerts.Category a = "User Activation"%string) emitted).
Proof.
  destruct (check_company_rules c acc) as (emitted & Hrun & Hall).
  exists emitted. split; [exact Hrun|]. intros [Hchurn Hact].
  apply Exists_exists in Hchurn as (a1 & Hin1 & Hc1).
  apply Exists_exists in Hact as (a2 & Hin2 & Hc2).
  destruct (Forall2_elem_of_r _ _ _ Hall a1 Hin1) as (r1 & Hr1 & He1).
  destruct (Forall2_elem_of_r _ _ _ Hall a2 Hin2) as (r2 & Hr2 & He2).
  destruct He1 as (_ & Hcat1 & _). destruct He2 as (_ & Hcat2 & _).
  rewrite Hc1 in Hcat1. rewrite Hc2 in Hcat2.
  apply firing_condition in Hr1. apply firing_condition in Hr2.
  destruct r1; try discriminate Hcat1. simpl in Hr1.
  destruct r2; try discriminate Hcat2; simpl in Hr2; destruct Hr2 as [Hne _];
    destruct (Spec.users c); try discriminate Hr1; now apply Hne.
Qed.

(** C3. On every company whose users have the same activity flag under
    both readings, the alert loop emits exactly one alert per rule of the
    seven-rule table whose condition holds, in table order and
    independently of the other rules.  Each alert carries the company,
    the rule's category and severity, a recommended action, the metric,
    and a message around the metric value: the activation percentage as
    a nearest whole number, the ratio as a nearest one-decimal number,
    the counts as they are; the "No users" message alone is a fixed text
    that quotes nothing.  The same holds company by company for the whole
    loop; no company gets the "No users" alert together with an
    activation alert; and three companies show the texts. *)
Theorem alert_rules_on_agreeing_flags :
  (forall (c : Company.t) (acc : list Alerts.Alert),
      Stated.flags_agree c ->
      exists emitted,
        Alerts.check_company c acc = Ok (acc ++ emitted)
        /\ Forall2 (Stated.carries c) (Stated.firing c) emitted)
  /\ (forall (c : Company.t) (r : Spec.rule),
        r ∈ Stated.firing c <-> Stated.condition r c)
  /\ (forall companies : list Company.t,
        Forall Stated.flags_agree companies ->
        exists groups,
          Alerts.alerts companies = Ok (concat groups)
          /\ Forall2 (fun c emitted => Forall2 (Stated.carries c) (Stated.firing c) emitted)
               companies groups)
  /\ (forall c : Company.t,
        ~ (Spec.NoUsers ∈ Stated.firing c /\ Spec.LowActivation ∈ Stated.firing c))
  /\ (forall (c : Company.t) (acc : list Alerts.Alert),
        exists emitted,
          Alerts.check_company c acc = Ok (acc ++ emitted)
          /\ ~ (Exists (fun a => Alerts.Category a = "Churn Risk"%string) emitted
                /\ Exists (fun a => Alerts.Category a = "User Activation"%string)
                     emitted))
  /\ Stated.flags_agree Sample.neglected_company
  /\ Alerts.check_company Sample.neglected_company []
     = Ok [Alerts.mkAlert "Hooli" "🔴 Critical" "User Activation"
             "Only 0% of users are active" "High" "0/21 active"
             "Contact customer success team immediately";
           Alerts.mkAlert "Hooli" "🟠 Warning" "Usage"
             "1 instances but no broadcasts" "Medium" "0 broadcasts"
             "Check if customer needs help setting up campaigns";
           Alerts.mkAlert "Hooli" "🟡 Info" "Resource Optimization"
             "1 of 1 instances are inactive" "Low" "1/1 inactive"
             "Consider downsizing or reactivating instances";
           Alerts.mkAlert "Hooli" "🔴 Critical" "Setup"
             "21 users but no channels configured" "High" "0 channels"
             "Urgent: Complete onboarding process";
           Alerts.mkAlert "Hooli" "🟡 Info" "Capacity"
             "High user-to-instance ratio (21.0:1)" "Low" "21 users / 1 instances"
             "May need additional instances for optimal performance"]%string
  /\ Alerts.check_company Sample.moderate_company []
     = Ok [Alerts.mkAlert "Tenant" "🟠 Warning" "User Activation"
             "User activation rate at 60%" "Medium" "6/10 active"
             "Schedule training session"]%string
  /\ Alerts.check_company Sample.userless_company []
     = Ok [Alerts.mkAlert "Vandelay" "🔴 Critical" "Churn Risk"
             "Company has no users" "Critical" "0 users"
             "Potential churn - reach out immediately"]%string.
Proof.
  split; [exact check_company_carries|].
  split; [exact stated_firing_condition|].
  split.
  { intros companies Hagree. unfold Alerts.alerts.
    apply (for_each_append_on Alerts.check_company
             (fun c emitted => Forall2 (Stated.carries c) (Stated.firing c) emitted)
             companies []).
    intros c acc Hin. apply check_company_carries.
    rewrite Forall_forall in Hagree. apply Hagree. now apply list_elem_of_In. }
  split.
  { intros c [Hn Hl]. apply stated_firing_condition in Hn.
    apply stated_firing_condition in Hl. simpl in Hn, Hl. destruct Hl as [Hne _].
    destruct (Spec.users c); [now apply Hne | discriminate Hn]. }
  split; [exact churn_excludes_activation|].
  split.
  { unfold Stated.flags_agree. cbn. repeat constructor. }
  repeat split; vm_compute; reflexivity.
Qed.

(** Every conjunct with a hypothesis is met by a company: the one with 21
    inactive users, an inactive instance, no broadcast and no channel. *)
Lemma alert_rules_witness :
  Stated.flags_agree Sample.neglected_company
  /\ exists emitted,
       Alerts.check_company Sample.neglected_company [] = Ok ([] ++ emitted)
       /\ Forall2 (Stated.carries Sample.neglected_company)
            (Stated.firing Sample.neglected_company) emitted.
Proof.
  assert (Hagree : Stated.flags_agree Sample.neglected_company)
    by (unfold Stated.flags_agree; cbn; repeat constructor).
  split; [exact Hagree|].
  exact (proj1 alert_rules_on_agreeing_flags Sample.neglected_company [] Hagree).
Defined.

(** The alert of the "No users" rule has a message without any number:
    the text is the same whatever the company. *)
Lemma no_users_message_quotes_no_metric :
  exists a,
    Alerts.check_company Sample.userless_company [] = Ok [a]
    /\ Alerts.Severity a = "Critical"%string
    /\ Alerts.Message a = "Company has no users"%string
    /\ Text.has_digit (Alerts.Message a) = false.
Proof. eexists. repeat split. Qed.

(** * Percentiles of the benchmarked metrics *)

Lemma Forall2_Qeq_refl (l : list Q) : Forall2 Qeq l l.
Proof. induction l; constructor; [reflexivity|assumption]. Qed.

Lemma Forall2_Qeq_trans (l1 l2 l3 : list Q) :
  Forall2 Qeq l1 l2 -> Forall2 Qeq l2 l3 -> Forall2 Qeq l1 l3.
Proof.
  intros H12. revert l3. induction H12 as [|x y l1 l2 Hxy _ IH]; intros l3 H23.
  - inversion H23. constructor.
  - inversion H23 as [|? z ? l3' Hyz Hrest]; subst.
    constructor; [now rewrite Hxy|now apply IH].
Qed.

(** Values equal to [a] may stand on either side of it. *)
Lemma equal_values_shift (a : Q) (l r : list Q) :
  Forall (fun x => x == a) l -> Forall2 Qeq (a :: l ++ r) (l ++ a :: r).
Proof.
  induction 1 as [|b l Hb _ IH]; simpl.
  - apply Forall2_Qeq_refl.
  - constructor; [now symmetry|].
    apply (Forall2_Qeq_trans _ (a :: l ++ r)); [|exact IH].
    constructor; [exact Hb|apply Forall2_Qeq_refl].
Qed.

Lemma strongly_sorted_without (l : list Q) (a : Q) (r : list Q) :
  StronglySorted Qle (l ++ a :: r) ->
  StronglySorted Qle (l ++ r) /\ Forall (fun x => x <= a) l.
Proof.
  induction l as [|b l IH]; simpl; intros Hs.
  - inversion Hs; subst. split; [assumption|constructor].
  - inversion Hs as [|? ? Hrest Hall]; subst.
    destruct (IH Hrest) as [Hs' Hle].
    apply Forall_app in Hall as [Hl Har]. apply Forall_cons in Har as [Hba Hr].
    split.
    + constructor; [exact Hs'|]. apply Forall_app. now split.
    + constructor; assumption.
Qed.

(** Two ascending arrangements of the same values agree rank by rank. *)
Lemma ascending_arrangement_unique (s1 s2 : list Q) :
  StronglySorted Qle s1 -> StronglySorted Qle s2 -> Permutation s1 s2 ->
  Forall2 Qeq s1 s2.
Proof.
  revert s2. induction s1 as [|a t1 IH]; intros s2 H1 H2 Hp.
  - apply Permutation_nil in Hp. subst. constructor.
  - assert (Hin : In a s2) by (apply (Permutation_in _ Hp); now left).
    apply in_split in Hin as (l & r & ->).
    apply Permutation_cons_app_inv in Hp.
    destruct (strongly_sorted_without l a r H2) as [H2' Hle].
    inversion H1 as [|? ? Ht1 Hge]; subst.
    assert (Heq : Forall (fun x => x == a) l).
    { rewrite Forall_forall in Hle |- *. intros x Hx.
      apply Qle_antisym; [now apply Hle|].
      assert (Hx1 : x ∈ t1).
      { apply list_elem_of_In. apply (Permutation_in _ (Permutation_sym Hp)).
        apply in_or_app. left. now apply list_elem_of_In. }
      rewrite Forall_forall in Hge. now apply Hge. }
    apply (Forall2_Qeq_trans _ (a :: l ++ r)).
    + constructor; [reflexivity|]. now apply IH.
    + now apply equal_values_shift.
Qed.

Lemma nth_respects_Qeq (s1 s2 : list Q) :
  Forall2 Qeq s1 s2 ->
  forall (k : nat) (d1 d2 : Q), (k < length s1)%nat -> nth k s1 d1 == nth k s2 d2.
Proof.
  induction 1 as [|x y s1 s2 Hxy _ IH]; intros k d1 d2 Hk; simpl in Hk.
  - lia.
  - destruct k as [|k]; simpl; [exact Hxy|]. apply IH. lia.
Qed.

Lemma inject_Z_sub (a b : Z) : inject_Z (a - b) == inject_Z a - inject_Z b.
Proof. unfold Z.sub. rewrite inject_Z_plus, inject_Z_opp. reflexivity. Qed.

(** The rank above a fractional rank is the next one; above a whole rank
    it is the rank itself. *)
Lemma ceiling_of_rank (h : Q) :
  (Qceiling h = Qfloor h /\ h == inject_Z (Qfloor h))
  \/ (Qceiling h = Qfloor h + 1)%Z.
Proof.
  pose proof (Qfloor_le h) as Hfl. pose proof (Qlt_floor h) as Hfu.
  pose proof (Qle_ceiling h) as Hcl. pose proof (Qceiling_lt h) as Hcu.
  rewrite inject_Z_plus in Hfu. rewrite inject_Z_sub in Hcu.
  change (inject_Z 1) with 1 in Hfu, Hcu.
  assert (H1 : (Qfloor h <= Qceiling h)%Z).
  { rewrite Zle_Qle. lra. }
  assert (H2 : (Qceiling h < Qfloor h + 2)%Z).
  { rewrite Zlt_Qlt, inject_Z_plus. change (inject_Z 2) with 2. lra. }
  destruct (Z.eq_dec (Qceiling h) (Qfloor h)) as [E|E].
  - left. split; [exact E|]. rewrite E in Hcl. lra.
  - right. lia.
Qed.

(** [Series.quantile] returns the specification's percentile. *)
Lemma quantile_is_percentile (x : Q) (xs : list Q) (q : Q) :
  0 <= q <= 1 ->
  exists v, Pandas.quantile (x :: xs) q = Pandas.fin v
            /\ Stated.percentile (x :: xs) q v.
Proof.
  intros Hq. unfold Pandas.quantile.
  pose proof (sort_values_perm (x :: xs)) as Hperm.
  pose proof (sort_values_sorted (x :: xs)) as Hsorted.
  pose proof (sort_values_length (x :: xs)) as Hlen.
  destruct (Pandas.sort_values (x :: xs)) as [|x0 rest] eqn:Es; [discriminate Hlen|].
  set (s0 := x0 :: rest) in *. cbv zeta.
  eexists. split; [reflexivity|].
  intros s Hp Hs.
  assert (Hsame : Forall2 Qeq s s0).
  { apply ascending_arrangement_unique.
    - apply Sorted_StronglySorted; [|exact Hs]. intros a b c. apply Qle_trans.
    - apply Sorted_StronglySorted; [|exact Hsorted]. intros a b c. apply Qle_trans.
    - now rewrite Hp, Hperm. }
  assert (Hls : length s = length s0) by (eapply Forall2_length; exact Hsame).
  unfold Stated.at_rank, len. cbv zeta. rewrite Hlen.
  set (n := length (x :: xs)) in *.
  assert (Hn : (1 <= n)%nat) by (subst n; simpl; lia).
  set (h := inject_Z (Z.of_nat n - 1) * q).
  assert (Hm : 0 <= inject_Z (Z.of_nat n - 1))
    by (change 0 with (inject_Z 0); rewrite <- Zle_Qle; lia).
  assert (Hh : 0 <= h <= inject_Z (Z.of_nat n - 1)) by (subst h; nra).
  pose proof (Qfloor_le h) as Hfl.
  assert (Hi0 : (0 <= Qfloor h)%Z).
  { change 0%Z with (Qfloor 0). apply Qfloor_resp_le. lra. }
  assert (Hi1 : (Qfloor h <= Z.of_nat n - 1)%Z) by (rewrite Zle_Qle; lra).
  set (i := Qfloor h) in *.
  assert (Hlo : nth (Z.to_nat i) s 0 == nth (Z.to_nat i) s0 x0)
    by (apply nth_respects_Qeq; [exact Hsame|lia]).
  destruct (ceiling_of_rank h) as [[Hc Hwhole]|Hc]; fold i in Hc.
  - fold i in Hwhole. rewrite Hc.
    set (lo := nth (Z.to_nat i) s 0) in *.
    set (lo0 := nth (Z.to_nat i) s0 x0) in *.
    set (hi0 := nth (Z.to_nat (Z.min (i + 1) (Z.of_nat n - 1))) s0 x0).
    set (f := h - inject_Z i).
    assert (Hf : f == 0) by (subst f; lra).
    rewrite Hf, Hlo. ring.
  - rewrite Hlo, Hc.
    pose proof (Qceiling_lt h) as Hcu. rewrite Hc in Hcu.
    assert (Hi2 : (i + 1 <= Z.of_nat n - 1)%Z).
    { assert (Hlt : (i < Z.of_nat n - 1)%Z); [|lia].
      rewrite Zlt_Qlt. rewrite inject_Z_sub, inject_Z_plus in Hcu.
      change (inject_Z 1) with 1 in Hcu. lra. }
    rewrite Z.min_l by lia.
    assert (Hhi : nth (Z.to_nat (i + 1)) s 0 == nth (Z.to_nat (i + 1)) s0 x0)
      by (apply nth_respects_Qeq; [exact Hsame|lia]).
    rewrite Hhi. ring.
Qed.

Lemma percentile_respects_Qeq (values : list Q) (p v w : Q) :
  v == w -> Stated.percentile values p v -> Stated.percentile values p w.
Proof. intros Hvw Hv s Hp Hs. rewrite <- Hvw. now apply Hv. Qed.

(** [Series.median] returns the specification's 50th percentile. *)
Lemma median_is_percentile (x : Q) (xs : list Q) :
  exists m, Pandas.median (x :: xs) = Pandas.fin m
            /\ Stated.percentile (x :: xs) 0.5 m.
Proof.
  destruct (quantile_is_percentile x xs 0.5) as (v & Hv & Hpv); [lra|].
  pose proof (median_is_quantile_half (x :: xs)) as Hmed. rewrite Hv in Hmed.
  destruct (Pandas.median (x :: xs)) as [|m]; [contradiction|].
  exists m. split; [reflexivity|].
  apply (percentile_respects_Qeq _ _ v); [now symmetry|exact Hpv].
Qed.

Lemma percentiles_of_column (x : Q) (xs : list Q) :
  exists top mid bottom,
    Benchmark.mkPercentiles (Pandas.quantile (x :: xs) 0.75) (Pandas.median (x :: xs))
      (Pandas.quantile (x :: xs) 0.25)
    = Benchmark.mkPercentiles (Pandas.fin top) (Pandas.fin mid) (Pandas.fin bottom)
    /\ Stated.percentile (x :: xs) 0.75 top
    /\ Stated.percentile (x :: xs) 0.5 mid
    /\ Stated.percentile (x :: xs) 0.25 bottom.
Proof.
  destruct (quantile_is_percentile x xs 0.75) as (top & Ht & Hpt); [lra|].
  destruct (median_is_percentile x xs) as (mid & Hm & Hpm).
  destruct (quantile_is_percentile x xs 0.25) as (bottom & Hb & Hpb); [lra|].
  exists top, mid, bottom. rewrite Ht, Hm, Hb. auto.
Qed.

Lemma benchmarks_nonempty (r : Benchmark.Row) (rows : list Benchmark.Row) :
  Benchmark.benchmarks (r :: rows)
  = Ok (Benchmark.mkBenchmarks
          (Benchmark.mkPercentiles
             (Pandas.quantile (map Benchmark.User_Activation_pct (r :: rows)) 0.75)
             (Pandas.median (map Benchmark.User_Activation_pct (r :: rows)))
             (Pandas.quantile (map Benchmark.User_Activation_pct (r :: rows)) 0.25))
          (Benchmark.mkPercentiles
             (Pandas.quantile (map Benchmark.Instance_Utilization_pct (r :: rows)) 0.75)
             (Pandas.median (map Benchmark.Instance_Utilization_pct (r :: rows)))
             (Pandas.quantile (map Benchmark.Instance_Utilization_pct (r :: rows)) 0.25))
          (Benchmark.mkPercentiles
             (Pandas.quantile (map Benchmark.Broadcasts_per_User (r :: rows)) 0.75)
             (Pandas.median (map Benchmark.Broadcasts_per_User (r :: rows)))
             (Pandas.quantile (map Benchmark.Broadcasts_per_User (r :: rows)) 0.25))).
Proof. reflexivity. Qed.

(** The comparison chart draws benchmark lines for three of the four
    metrics it offers. *)
Lemma comparison_lines (c : Company.t) (cs : list Company.t) (metric : Comparison.Metric) :
  exists b chart,
    Benchmark.view (c :: cs) = Ok b
    /\ Comparison.view (c :: cs) metric = Ok chart
    /\ length (Comparison.bars chart) = Nat.min 20 (length (c :: cs))
    /\ Comparison.lines chart
       = match metric with
         | Comparison.User_Activation_pct =>
             Some (Comparison.mkLines (Benchmark.Top_25 (Benchmark.User_Activation b))
                     (Benchmark.Median (Benchmark.User_Activation b)))
         | Comparison.Instance_Utilization_pct =>
             Some (Comparison.mkLines
                     (Benchmark.Top_25 (Benchmark.Instance_Utilization b))
                     (Benchmark.Median (Benchmark.Instance_Utilization b)))
         | Comparison.Broadcasts_per_User =>
             Some (Comparison.mkLines (Benchmark.Top_25 (Benchmark.Broadcasts_User b))
                     (Benchmark.Median (Benchmark.Broadcasts_User b)))
         | Comparison.Broadcasts_per_Instance => None
         end.
Proof.
  destruct (benchmark_rows (c :: cs)) as (rows & Hrows & Hall).
  pose proof (Forall2_length _ _ _ Hall) as Hlen.
  destruct rows as [|r rows]; [inversion Hall|].
  unfold Benchmark.view, Comparison.view. rewrite Hrows, !bind_Ok.
  rewrite benchmarks_nonempty, bind_Ok.
  do 2 eexists. split; [reflexivity|].
  unfold Comparison.chart, RevenueSummary.sort_values_desc. rewrite bind_Ok.
  split; [reflexivity|].
  cbn [Comparison.bars Comparison.lines]. split.
  - rewrite length_map, length_take.
    rewrite (Permutation_length (sort_desc_perm (Comparison.column metric) (r :: rows))).
    now rewrite Hlen.
  - unfold Comparison.as_dict.
    destruct metric; cbn [Comparison.label].
    + now rewrite lookup_insert_eq.
    + rewrite lookup_insert_ne by discriminate. now rewrite lookup_insert_eq.
    + rewrite !lookup_insert_ne by discriminate. now rewrite lookup_insert_eq.
    + rewrite !lookup_insert_ne by discriminate. now rewrite lookup_empty.
Qed.

(** C5. On a non-empty company set the benchmark view returns, for user
    activation, instance utilization and broadcasts per user, the 75th,
    50th and 25th percentiles of the metric's table column under linear
    interpolation: the value at rank [(n - 1) p] of the column arranged
    in ascending order, whatever the order of the companies.  The
    comparison chart takes its lines from these for three of the four
    metrics it offers, and has none for broadcasts per instance.  Four
    companies with activation 40, 10, 30 and 20, or 10, 20, 30 and 40,
    give 17.5, 25 and 32.5; for a single company all three percentiles of
    every benchmarked metric equal that company's table value. *)
Theorem benchmarked_metrics_percentiles :
  (forall (c : Company.t) (cs : list Company.t),
      exists rows b,
        Benchmark.benchmark_data (c :: cs) = Ok rows
        /\ Forall2 (fun c r => Benchmark.row c = Ok r) (c :: cs) rows
        /\ Benchmark.view (c :: cs) = Ok b
        /\ Forall2
             (fun (p : Benchmark.Percentiles) (column : list Q) =>
                exists top mid bottom,
                  p = Benchmark.mkPercentiles (Pandas.fin top) (Pandas.fin mid)
                        (Pandas.fin bottom)
                  /\ Stated.percentile column 0.75 top
                  /\ Stated.percentile column 0.5 mid
                  /\ Stated.percentile column 0.25 bottom)
             [Benchmark.User_Activation b; Benchmark.Instance_Utilization b;
              Benchmark.Broadcasts_User b]
             [map Benchmark.User_Activation_pct rows;
              map Benchmark.Instance_Utilization_pct rows;
              map Benchmark.Broadcasts_per_User rows])
  /\ (forall (c : Company.t) (cs : list Company.t) (metric : Comparison.Metric),
        exists b chart,
          Benchmark.view (c :: cs) = Ok b
          /\ Comparison.view (c :: cs) metric = Ok chart
          /\ length (Comparison.bars chart) = Nat.min 20 (length (c :: cs))
          /\ Comparison.lines chart
             = match metric with
               | Comparison.User_Activation_pct =>
                   Some (Comparison.mkLines
                           (Benchmark.Top_25 (Benchmark.User_Activation b))
                           (Benchmark.Median (Benchmark.User_Activation b)))
               | Comparison.Instance_Utilization_pct =>
                   Some (Comparison.mkLines
                           (Benchmark.Top_25 (Benchmark.Instance_Utilization b))
                           (Benchmark.Median (Benchmark.Instance_Utilization b)))
               | Comparison.Broadcasts_per_User =>
                   Some (Comparison.mkLines
                           (Benchmark.Top_25 (Benchmark.Broadcasts_User b))
                           (Benchmark.Median (Benchmark.Broadcasts_User b)))
               | Comparison.Broadcasts_per_Instance => None
               end)
  /\ Forall
       (fun (example : list Company.t * list Q) =>
          exists rows b,
            Benchmark.benchmark_data (fst example) = Ok rows
            /\ Forall2 Qeq (map Benchmark.User_Activation_pct rows) (snd example)
            /\ Benchmark.view (fst example) = Ok b
            /\ Pandas.float_eq (Benchmark.Bottom_25 (Benchmark.User_Activation b))
                 (Pandas.fin 17.5)
            /\ Pandas.float_eq (Benchmark.Median (Benchmark.User_Activation b))
                 (Pandas.fin 25)
            /\ Pandas.float_eq (Benchmark.Top_25 (Benchmark.User_Activation b))
                 (Pandas.fin 32.5))
       [(Sample.shuffled_companies, [40; 10; 30; 20]);
        (Example.four_companies, [10; 20; 30; 40])]
  /\ (forall c : Company.t,
        exists r b,
          Benchmark.benchmark_data [c] = Ok [r]
          /\ Benchmark.view [c] = Ok b
          /\ Forall (fun p => Pandas.float_eq p (Pandas.fin (Benchmark.User_Activation_pct r)))
               [Benchmark.Bottom_25 (Benchmark.User_Activation b);
                Benchmark.Median (Benchmark.User_Activation b);
                Benchmark.Top_25 (Benchmark.User_Activation b)]
          /\ Forall (fun p => Pandas.float_eq p
                                (Pandas.fin (Benchmark.Instance_Utilization_pct r)))
               [Benchmark.Bottom_25 (Benchmark.Instance_Utilization b);
                Benchmark.Median (Benchmark.Instance_Utilization b);
                Benchmark.Top_25 (Benchmark.Instance_Utilization b)]
          /\ Forall (fun p => Pandas.float_eq p (Pandas.fin (Benchmark.Broadcasts_per_User r)))
               [Benchmark.Bottom_25 (Benchmark.Broadcasts_User b);
                Benchmark.Median (Benchmark.Broadcasts_User b);
                Benchmark.Top_25 (Benchmark.Broadcasts_User b)]).
Proof.
  split.
  { intros c cs. destruct (benchmark_rows (c :: cs)) as (rows & Hrows & Hall).
    destruct rows as [|r rows]; [inversion Hall|].
    exists (r :: rows). eexists. split; [exact Hrows|]. split; [exact Hall|].
    unfold Benchmark.view. rewrite Hrows, bind_Ok, benchmarks_nonempty.
    split; [reflexivity|].
    cbn [Benchmark.User_Activation Benchmark.Instance_Utilization
         Benchmark.Broadcasts_User map].
    constructor; [apply percentiles_of_column|].
    constructor; [apply percentiles_of_column|].
    constructor; [apply percentiles_of_column|constructor]. }
  split; [exact comparison_lines|].
  split.
  { constructor; [|constructor; [|constructor]]; cbn [fst snd].
    - do 2 eexists. split; [vm_compute; reflexivity|].
      split; [repeat constructor|].
      split; [vm_compute; reflexivity|].
      repeat split; vm_compute; reflexivity.
    - do 2 eexists. split; [vm_compute; reflexivity|].
      split; [repeat constructor|].
      split; [vm_compute; reflexivity|].
      repeat split; vm_compute; reflexivity. }
  intros c. do 2 eexists.
  split.
  { unfold Benchmark.benchmark_data. cbn [for_each].
    unfold Benchmark.row. rewrite metrics_closed_form. reflexivity. }
  split.
  { unfold Benchmark.view, Benchmark.benchmark_data. cbn [for_each].
    unfold Benchmark.row. rewrite metrics_closed_form. reflexivity. }
  cbn [Benchmark.User_Activation Benchmark.Instance_Utilization
       Benchmark.Broadcasts_User Benchmark.Bottom_25 Benchmark.Median
       Benchmark.Top_25 map].
  repeat split; repeat constructor;
    first [apply quantile_singleton | rewrite median_singleton; simpl; reflexivity].
Qed.

(** Chosen for comparison, broadcasts per instance gets no percentile:
    the chart of the four companies has its bars and no benchmark line. *)
Lemma broadcasts_per_instance_has_no_benchmark :
  exists chart,
    Comparison.view Example.four_companies Comparison.Broadcasts_per_Instance = Ok chart
    /\ length (Comparison.bars chart) = 4%nat
    /\ Comparison.lines chart = None.
Proof.
  destruct (comparison_lines (Example.company_with_activation 1)
              [Example.company_with_activation 2; Example.company_with_activation 3;
               Example.company_with_activation 4] Comparison.Broadcasts_per_Instance)
    as (b & chart & _ & Hview & Hbars & Hlines).
  exists chart. split; [exact Hview|]. split; [exact Hbars|exact Hlines].
Qed.
